(** * The fdf reader of sisl (sisl/io/siesta/fdf.py), embedded in Rocq

    The development follows the Python source function by function:
    - [Py]: the few [str] methods and builtins the reader relies on
      ([split], [strip], [lower], [replace], [float], [int]);
    - the label store ([_read_label]) as a state-passing program over the
      stack of open file handles, with fuel standing for the [while] loops;
    - the type classifier [_type] and the typed accessor [get];
    - the resolution pipeline ([read_hamiltonian] and friends), the
      reconciliation [_SpGeom_replace_geom], the geometry reader and the
      control flow of [read_hessian].

    Strings are byte strings (ASCII); a text file is the list of its lines
    without their terminators. *)

From Stdlib Require Import ZArith Ascii String List Lia Bool.
From stdpp Require Import gmap strings list.

Open Scope Z_scope.

(** ** Python builtins used by the reader *)

Module Py.

(** [str.isspace] restricted to ASCII: tab, line feed, vertical tab, form
    feed, carriage return, the four separators 0x1c-0x1f, and space. *)
Definition is_space (c : ascii) : bool :=
  let n := nat_of_ascii c in
  ((9 <=? n)%nat && (n <=? 13)%nat) || ((28 <=? n)%nat && (n <=? 32)%nat).

Definition lower_char (c : ascii) : ascii :=
  let n := nat_of_ascii c in
  if ((65 <=? n)%nat && (n <=? 90)%nat) then ascii_of_nat (n + 32) else c.

(** [s.lower()] *)
Fixpoint lower (s : string) : string :=
  match s with
  | EmptyString => EmptyString
  | String c r => String (lower_char c) (lower r)
  end.

(** [s.replace(c, '')] for a one-character pattern [c] *)
Fixpoint remove_char (c : ascii) (s : string) : string :=
  match s with
  | EmptyString => EmptyString
  | String d r => if Ascii.eqb d c then remove_char c r else String d (remove_char c r)
  end.

(** [s.split()]: the maximal runs of non-space characters *)
Fixpoint split (s : string) : list string :=
  match s with
  | EmptyString => []
  | String c r =>
      if is_space c then split r
      else match r with
           | EmptyString => [String c EmptyString]
           | String d _ =>
               if is_space d then String c EmptyString :: split r
               else match split r with
                    | w :: ws => String c w :: ws
                    | [] => [String c EmptyString]
                    end
           end
  end.

Fixpoint lstrip (s : string) : string :=
  match s with
  | EmptyString => EmptyString
  | String c r => if is_space c then lstrip r else s
  end.

Fixpoint rstrip (s : string) : string :=
  match s with
  | EmptyString => EmptyString
  | String c r =>
      match rstrip r with
      | EmptyString => if is_space c then EmptyString else String c EmptyString
      | r' => String c r'
      end
  end.

(** [s.strip()] *)
Definition strip (s : string) : string := rstrip (lstrip s).

(** [s.split(c)[0]]: the text before the first occurrence of [c] *)
Fixpoint before_char (c : ascii) (s : string) : string :=
  match s with
  | EmptyString => EmptyString
  | String d r => if Ascii.eqb d c then EmptyString else String d (before_char c r)
  end.

(** [c in s] for a character [c] *)
Fixpoint has_char (c : ascii) (s : string) : bool :=
  match s with
  | EmptyString => false
  | String d r => Ascii.eqb d c || has_char c r
  end.

(** [s.startswith(p)] *)
Definition startswith (s p : string) : bool := String.prefix p s.

(** [sep.join(l)] *)
Definition join (sep : string) (l : list string) : string := String.concat sep l.

(** [x in l] for a list of strings *)
Definition str_in (x : string) (l : list string) : bool :=
  existsb (String.eqb x) l.

(** [l.index(x)], when [x in l] *)
Fixpoint index (x : string) (l : list string) : nat :=
  match l with
  | [] => 0%nat
  | y :: r => if String.eqb y x then 0%nat else S (index x r)
  end.

(** [p in s] for strings: [p] occurs in [s] *)
Fixpoint contains (s p : string) : bool :=
  String.prefix p s ||
  match s with
  | EmptyString => false
  | String _ r => contains r p
  end.

(** [len(s)] *)
Definition len (s : string) : nat := String.length s.

(** [list(s)]: the characters of [s], each as a one-character string *)
Fixpoint chars (s : string) : list string :=
  match s with
  | EmptyString => []
  | String c r => String c EmptyString :: chars r
  end.

(** *** [int(s)] in base ten

    An optional sign, then digits; single underscores may separate digits
    (Python 3.6 and later).  Surrounding whitespace is ignored. *)

Definition digit_val (c : ascii) : option Z :=
  let n := nat_of_ascii c in
  if ((48 <=? n)%nat && (n <=? 57)%nat) then Some (Z.of_nat (n - 48)) else None.

Fixpoint int_digits (after_digit : bool) (acc : Z) (s : string) : option Z :=
  match s with
  | EmptyString => if after_digit then Some acc else None
  | String c r =>
      match digit_val c with
      | Some d => int_digits true (10 * acc + d) r
      | None =>
          if Ascii.eqb c "_" && after_digit then int_digits false acc r else None
      end
  end.

Definition int_of_string (s : string) : option Z :=
  match strip s with
  | String "+" r => int_digits false 0 r
  | String "-" r => Z.opp <$> int_digits false 0 r
  | t => int_digits false 0 t
  end.

(** *** The strings [float(s)] accepts

    [float] takes an optional sign followed by [inf], [infinity] or [nan]
    in any letter case, or by a decimal number: digits, an optional point,
    digits, an optional exponent.  The number part is recognised by a small
    automaton. *)

Inductive fstate :=
  | FStart | FInt | FIntU | FDot0 | FDotI | FFrac | FFracU
  | FExp0 | FExpS | FExp | FExpU.

Definition is_digit (c : ascii) : bool :=
  match digit_val c with Some _ => true | None => false end.

Definition fstep (q : fstate) (c : ascii) : option fstate :=
  let dig := is_digit c in
  let us := Ascii.eqb c "_" in
  let dot := Ascii.eqb c "." in
  let e := Ascii.eqb c "e" || Ascii.eqb c "E" in
  let sg := Ascii.eqb c "+" || Ascii.eqb c "-" in
  match q with
  | FStart => if dig then Some FInt else if dot then Some FDot0 else None
  | FInt => if dig then Some FInt else if us then Some FIntU
            else if dot then Some FDotI else if e then Some FExp0 else None
  | FIntU => if dig then Some FInt else None
  | FDot0 => if dig then Some FFrac else None
  | FDotI => if dig then Some FFrac else if e then Some FExp0 else None
  | FFrac => if dig then Some FFrac else if us then Some FFracU
             else if e then Some FExp0 else None
  | FFracU => if dig then Some FFrac else None
  | FExp0 => if dig then Some FExp else if sg then Some FExpS else None
  | FExpS => if dig then Some FExp else None
  | FExp => if dig then Some FExp else if us then Some FExpU else None
  | FExpU => if dig then Some FExp else None
  end.

Definition faccept (q : fstate) : bool :=
  match q with
  | FInt | FDotI | FFrac | FExp => true
  | _ => false
  end.

Fixpoint frun (q : fstate) (s : string) : bool :=
  match s with
  | EmptyString => faccept q
  | String c r => match fstep q c with Some q' => frun q' r | None => false end
  end.

Definition drop_sign (s : string) : string :=
  match s with
  | String "+" r => r
  | String "-" r => r
  | _ => s
  end.

Definition is_infnan (s : string) : bool :=
  str_in (lower s) ["inf"; "infinity"; "nan"].

(** [float(s)] succeeds exactly on these strings. *)
Definition float_ok (s : string) : bool :=
  let b := drop_sign (strip s) in
  is_infnan b || frun FStart b.

(** [int(s)] succeeds exactly when [int_of_string] gives a value. *)
Definition int_ok (s : string) : bool :=
  match int_of_string s with Some _ => true | None => false end.

End Py.


(** ** Outcomes of Python calls

    A call returns a value, raises, or never comes back; the last case shows
    up in the embedding as a loop that used all the fuel it was given. *)

Inductive exn :=
  | IndexError | IOError | ValueError | TypeError | AttributeError
  | UnboundLocalError | SileError | SislError | NotImplementedError.

Inductive outcome (A : Type) :=
  | Ret (a : A)
  | Raise (e : exn)
  | Diverge.
Arguments Ret {A} a.
Arguments Raise {A} e.
Arguments Diverge {A}.

Definition obind {A B} (m : outcome A) (f : A -> outcome B) : outcome B :=
  match m with
  | Ret a => f a
  | Raise e => Raise e
  | Diverge => Diverge
  end.

Notation "'let!' x ':=' m 'in' k" := (obind m (fun x => k))
  (at level 10, x name, m at level 100, k at level 200).
Notation "'let!' ' p ':=' m 'in' k" := (obind m (fun p => k))
  (at level 10, p strict pattern, m at level 100, k at level 200).

(** [l[i]] on a Python list: an [IndexError] out of range *)
Definition item {A} (l : list A) (i : nat) : outcome A :=
  match l !! i with
  | Some x => Ret x
  | None => Raise IndexError
  end.

(** ** The label store *)

(** What [_read_label] hands back: the rest of a line, or the lines of a
    block.  (The classifier also knows numpy arrays, which the label store
    never produces.) *)
Inductive raw :=
  | RStr (s : string)
  | RBlock (l : list string).

(** An open file: its path and the index of the next line to read. *)
Record handle := Handle { h_name : string; h_pos : nat }.

(** The reading state of an [fdfSileSiesta]: the active handle [self.fh],
    the stack [self._parent_fh] (top of the stack first), the handles
    closed so far and the include files reported missing. *)
Record state := State {
  fh : handle;
  parent_fh : list handle;
  closed : list handle;
  warned : list string
}.

Definition fresh (path : string) : state :=
  State (Handle path 0) [] [] [].

(** [label.lower().replace('_', '').replace('-', '').replace('.', '')] *)
Definition tolabel (label : string) : string :=
  Py.remove_char "." (Py.remove_char "-" (Py.remove_char "_" (Py.lower label))).

(** [os.path.join(a, b)] for two components *)
Definition path_join (a b : string) : string :=
  if Py.startswith b "/" then b
  else if String.eqb a "" then b
  else if Py.startswith (String.rev a) "/" then a +:+ b
  else a +:+ "/" +:+ b.

(** The line terminator. *)
Definition nl : string := String "010" EmptyString.

Definition _comment : list string := ["#"; "!"; ";"].

Section LabelStore.

(** The files on disk, by path. *)
Variable fs : gmap string (list string).
(** [self._directory] *)
Variable directory : string.
(** The lines that the base class's [readline] passes over. *)
Variable skip_line : string -> bool.

Definition _tofile (f : string) : string := path_join directory f.

Definition isfile (path : string) : bool :=
  match fs !! path with Some _ => true | None => false end.

(** Modelled from the spec: [Sile.readline] of sisl/io/sile.py, which is not
    among the sources.  The label store "scans lines, skipping comment
    lines"; which lines are passed over is the parameter [skip_line].  A
    line comes with its terminator; the end of the file is reported by the
    empty string, and the position then stays where it is. *)
Fixpoint next_line (rest : list string) (pos : nat) : string * nat :=
  match rest with
  | [] => ("", pos)
  | l :: r =>
      if skip_line (l +:+ nl) then next_line r (S pos) else (l +:+ nl, S pos)
  end.

Definition readline (st : state) : state * string :=
  let h := fh st in
  match fs !! h_name h with
  | Some lines =>
      let '(l, p) := next_line (drop (h_pos h) lines) (h_pos h) in
      (State (Handle (h_name h) p) (parent_fh st) (closed st) (warned st), l)
  | None => (st, "")
  end.

Definition _pushfile (st : state) (f : string) : state :=
  if isfile (_tofile f)
  then State (Handle (_tofile f) 0) (fh st :: parent_fh st) (closed st) (warned st)
  else State (fh st) (parent_fh st) (closed st) (f :: warned st).

Definition _popfile (st : state) : state * bool :=
  match parent_fh st with
  | h :: rest => (State h rest (fh st :: closed st) (warned st), true)
  | [] => (st, false)
  end.

(** [while self._popfile(): pass] *)
Fixpoint pop_loop (n : nat) (st : state) : state :=
  match n with
  | O => st
  | S k => let '(st', popped) := _popfile st in
           if popped then pop_loop k st' else st'
  end.

(** [_seek]: close every included file and rewind the primary one. *)
Definition _seek (st : state) : state :=
  let st' := pop_loop (S (length (parent_fh st))) st in
  State (Handle (h_name (fh st')) 0) (parent_fh st') (closed st') (warned st').

Definition valid_line (line : string) : bool :=
  match Py.strip line with
  | EmptyString => false
  | String c _ => negb (Py.str_in (String c EmptyString) _comment)
  end.

Section Scan.

(** The normalised label looked for, and the lookup of the same label in a
    new [fdfSileSiesta] on another file (the scalar-from-file case). *)
Variable labell : string.
Variable lookup_in : string -> outcome (option raw).

(** The body of a matched [%block]: read up to the [%endblock] line. *)
Fixpoint block_loop (fuel : nat) (st : state) (l : string) (lines : list string)
  : state * outcome (list string) :=
  match fuel with
  | O => (st, Diverge)
  | S k =>
      if Py.startswith (tolabel l) "%endblock" then (st, Ret lines)
      else
        let lines' := if (0 <? Py.len l)%nat then lines ++ [l] else lines in
        let '(st', l') := readline st in
        block_loop k st' (Py.strip l') lines'
  end.

Definition read_block (fuel : nat) (st : state) : state * outcome (list string) :=
  let '(st', l) := readline st in
  block_loop fuel st' (Py.strip l) [].

Definition is_block_of (lsl : list string) : bool :=
  match lsl with
  | a :: b :: _ => String.eqb a "%block" && String.eqb b labell
  | _ => false
  end.

Definition process_line (fuel : nat) (st : state) (line : string)
  : state * outcome (option raw) :=
  let ls := Py.split line in
  match ls with
  | [] => (st, Ret None)
  | _ :: _ =>
      let lsl := map tolabel ls in
      let first := hd "" lsl in
      if Py.str_in "<" lsl then
        let idx := Py.index "<" lsl in
        if is_block_of lsl then
          (st, let! f := item ls 3 in
               match fs !! _tofile f with
               | Some lines =>
                   Ret (Some (RBlock
                     (map Py.strip (filter (fun l => valid_line l = true)
                                           (map (fun l => l +:+ nl) lines)))))
               | None => Raise IOError
               end)
        else if Py.str_in labell (take idx lsl) then
          (st, let! f := item ls (S idx) in lookup_in (_tofile f))
        else (st, Ret None)
      else if String.eqb first labell then
        (st, Ret (Some (RStr (Py.strip (Py.join " " (tail ls))))))
      else if String.eqb first "%block" then
        match item lsl 1 with
        | Ret l1 =>
            if String.eqb l1 labell then
              match read_block fuel st with
              | (st', Ret lines) => (st', Ret (Some (RBlock lines)))
              | (st', Raise e) => (st', Raise e)
              | (st', Diverge) => (st', Diverge)
              end
            else (st, Ret None)
        | Raise e => (st, Raise e)
        | Diverge => (st, Diverge)
        end
      else if String.eqb first "%include" then
        match item ls 1 with
        | Ret f => (_pushfile st f, Ret None)
        | Raise e => (st, Raise e)
        | Diverge => (st, Diverge)
        end
      else (st, Ret None)
  end.

(** The [while l is None] loop. *)
Fixpoint scan (fuel : nat) (st : state) : state * outcome (option raw) :=
  match fuel with
  | O => (st, Diverge)
  | S k =>
      let '(st1, l0) := readline st in
      let l := Py.before_char "#" l0 in
      let '(st2, go_on) :=
        if (Py.len l =? 0)%nat then _popfile st1 else (st1, true) in
      if go_on then
        match process_line k st2 l with
        | (st3, Ret None) => scan k st3
        | r => r
        end
      else (st2, Ret None)
  end.

(** The body of [_read_label], on an instance whose file is open. *)
Definition read_label_body (fuel : nat) (st : state) : state * outcome (option raw) :=
  let st0 := _seek st in
  let '(st1, l0) := readline st0 in
  let l := Py.before_char "#" l0 in
  if (Py.len l =? 0)%nat then (st1, Ret None)
  else
    match process_line fuel st1 l with
    | (st2, Ret None) => scan fuel st2
    | r => r
    end.

End Scan.

(** [fdfSileSiesta(path, base=self._directory)._read_label(label)]: a new
    instance opens its file, which must exist, and runs the lookup. *)
Fixpoint read_label_in (fuel : nat) (label : string) (path : string)
  : outcome (option raw) :=
  match fuel with
  | O => Diverge
  | S k =>
      if isfile path
      then snd (read_label_body (tolabel label) (read_label_in k label) k (fresh path))
      else Raise IOError
  end.

(** [self._read_label(label)] on an open instance. *)
Definition _read_label (fuel : nat) (st : state) (label : string)
  : state * outcome (option raw) :=
  read_label_body (tolabel label) (read_label_in fuel label) fuel st.

End LabelStore.

(** ** The type classifier *)

(** The kinds [_type] tells apart, written ['B'], ['a'], ['b'], ['r'],
    ['i'], ['p'] and ['n'] in the source. *)
Inductive fdf_type := T_B | T_a | T_b | T_r | T_i | T_p | T_n.

Definition _LOGICAL_TRUE : list string := [".true."; "true"; "yes"; "y"; "t"].
Definition _LOGICAL_FALSE : list string := [".false."; "false"; "no"; "n"; "f"].
Definition _LOGICAL : list string := _LOGICAL_FALSE ++ _LOGICAL_TRUE.

(** [_type] on a string value *)
Definition _type_str (value : string) : fdf_type :=
  match Py.split value with
  | [v] =>
      let fdf := Py.lower v in
      if Py.str_in fdf _LOGICAL then T_b
      else if Py.float_ok fdf then (if Py.has_char "." fdf then T_r else T_i)
      else T_n
  | [v0; _] => if Py.float_ok v0 then T_p else T_n
  | _ => T_n
  end.

Definition _type (value : option raw) : option fdf_type :=
  match value with
  | None => None
  | Some (RBlock _) => Some T_B
  | Some (RStr s) => Some (_type_str s)
  end.

(** ** Values and geometric data *)

Section Data.

(** Python floats are kept abstract. *)
Variable F : Type.
(** Orbitals and the entries of a sparse matrix are kept abstract too. *)
Variable Orb : Type.
Variable Payload : Type.

(** The values [get] returns.  A list or a tuple of strings is a [VList] or
    a [VTuple]; [VPair] is the tuple of a float and a unit name returned
    for [with_unit]. *)
Inductive pyval :=
  | VNone
  | VBool (b : bool)
  | VInt (z : Z)
  | VFloat (x : F)
  | VStr (s : string)
  | VList (l : list string)
  | VTuple (l : list string)
  | VPair (x : F) (u : string).

(** Modelled from the spec: the classes [Atom], [Atoms], [SuperCell],
    [Geometry] and the sparse matrices of sisl's core, which are not among
    the sources.  A geometry is a "periodic cell (3x3 matrix + per-axis
    repeat counts) + ordered list of atomic sites (position, species
    reference)"; a species is "atomic number, one or more localized
    orbitals, tag, mass"; a sparse matrix "must carry a consistent
    geometry".  [Atoms] keeps the list of species and, for each site, the
    index of its species. *)
Record Atom := mkAtom {
  a_Z : Z;
  a_orbital : list Orb;
  a_mass : F;
  a_tag : string
}.

Record Atoms := mkAtoms {
  atom : list Atom;
  specie : list nat
}.

Definition vec3 : Type := (F * F * F)%type.

Record SuperCell := mkSuperCell {
  cell : vec3 * vec3 * vec3;
  nsc : list Z
}.

Record Geometry := mkGeometry {
  xyz : list vec3;
  atoms : Atoms;
  sc : SuperCell
}.

Record SpGeom := mkSpGeom {
  _geometry : Geometry;
  payload : Payload
}.

End Data.

Arguments VNone {F}.
Arguments VBool {F} b.
Arguments VInt {F} z.
Arguments VFloat {F} x.
Arguments VStr {F} s.
Arguments VList {F} l.
Arguments VTuple {F} l.
Arguments VPair {F} x u.
Arguments mkAtom {F Orb}.
Arguments a_Z {F Orb}.
Arguments a_orbital {F Orb}.
Arguments a_mass {F Orb}.
Arguments a_tag {F Orb}.
Arguments mkAtoms {F Orb}.
Arguments atom {F Orb}.
Arguments specie {F Orb}.
Arguments mkSuperCell {F}.
Arguments cell {F}.
Arguments nsc {F}.
Arguments mkGeometry {F Orb}.
Arguments xyz {F Orb}.
Arguments atoms {F Orb}.
Arguments sc {F Orb}.
Arguments mkSpGeom {F Orb Payload}.
Arguments _geometry {F Orb Payload}.
Arguments payload {F Orb Payload}.

#[global] Instance Atom_eq_dec {F Orb : Type} `{EqDecision F, EqDecision Orb} :
  EqDecision (Atom F Orb).
Proof. solve_decision. Defined.

(** ** What the reader takes from outside

    Float arithmetic, the unit tables of sisl.unit.siesta, the readers of
    the companion files and the numerical kernels of numpy; with them the
    files on disk and the instance's own file and directory. *)
Record World := mkWorld {
  F : Type;
  Orb : Type;
  Payload : Type;
  FCdata : Type;
  Hess : Type;
  F_eq_dec : EqDecision F;
  Orb_eq_dec : EqDecision Orb;
  (* floats *)
  float_of_string : string -> F;
  float_of_int : Z -> F;
  fmul : F -> F -> F;
  fadd : F -> F -> F;
  f_is_zero : F -> bool;
  np_empty : F;
  Bohr2Ang : F;
  (* sisl.unit.siesta *)
  unit_group : string -> outcome string;
  unit_default : string -> outcome string;
  unit_convert : string -> string -> outcome F;
  (* the periodic table behind Atom(Z) *)
  default_orbital : Orb;
  default_mass : Z -> F;
  default_tag : Z -> string;
  (* SuperCell.tocell *)
  tocell : list F -> outcome (vec3 F * vec3 F * vec3 F);
  (* the file system and the instance *)
  fs : gmap string (list string);
  file : string;
  directory : string;
  skip_line : string -> bool;
  (* companion readers, by path *)
  nc_read_supercell_nsc : string -> outcome (option (list Z));
  orbindx_read_supercell_nsc : string -> outcome (option (list Z));
  nc_read_supercell : string -> outcome (option (SuperCell F));
  xv_read_supercell : string -> outcome (SuperCell F);
  nc_read_basis : string -> outcome (option (list (Atom F Orb)));
  orbindx_read_basis : string -> outcome (option (list (Atom F Orb)));
  ionnc_read_basis : string -> outcome (Atom F Orb);
  ionxml_read_basis : string -> outcome (Atom F Orb);
  nc_read_geometry : string -> outcome (option (Geometry F Orb));
  xv_read_geometry : string -> bool -> outcome (Geometry F Orb);
  xv_apply_basis : Geometry F Orb -> list (option (Atom F Orb)) -> outcome (Geometry F Orb);
  atom_of_none : outcome (Atom F Orb);
  nc_read_hamiltonian : string -> outcome (option (SpGeom F Orb Payload));
  tshs_read_hamiltonian : string -> outcome (SpGeom F Orb Payload);
  hsx_read_hamiltonian : string -> outcome (SpGeom F Orb Payload);
  Forces : Type;
  fa_read_force : string -> outcome (option Forces);
  nc_read_force : string -> outcome (option Forces);
  nc_read_density_matrix : string -> outcome (option (SpGeom F Orb Payload));
  tsde_read_density_matrix : string -> outcome (SpGeom F Orb Payload);
  dm_read_density_matrix : string -> outcome (SpGeom F Orb Payload);
  (* force constants and the Hessian *)
  fc_read_force_constant : string -> pyval F -> outcome FCdata;
  fc_shape0 : FCdata -> Z;
  fc_correct : FCdata -> Z -> Z -> outcome FCdata;
  hessian_prepare : FCdata -> Geometry F Orb -> outcome (FCdata * Geometry F Orb);
  hessian_unit_cell : FCdata -> Geometry F Orb -> list Z -> outcome Hess;
  hessian_small_cell : Geometry F Orb -> list Z -> list Z -> outcome unit;
  hessian_tiling_matches : Geometry F Orb -> list Z -> list Z -> outcome bool;
  (* a value of a type the caller does not expect at that place (a float
     where a count is read): the outcome is left open *)
  beyond : forall A : Type, string -> outcome A
}.

#[global] Existing Instance F_eq_dec.
#[global] Existing Instance Orb_eq_dec.

(** ** The typed accessor [get] *)

Section Reader.

Variable W : World.

Abbreviation pyvalW := (pyval (F W)).
Abbreviation AtomW := (Atom (F W) (Orb W)).
Abbreviation AtomsW := (Atoms (F W) (Orb W)).
Abbreviation GeometryW := (Geometry (F W) (Orb W)).
Abbreviation SpGeomW := (SpGeom (F W) (Orb W) (Payload W)).

(** [float(s)] and [int(s)] *)
Definition py_float (s : string) : outcome (F W) :=
  if Py.float_ok s then Ret (float_of_string W s) else Raise ValueError.

Definition py_int (s : string) : outcome Z :=
  match Py.int_of_string s with
  | Some z => Ret z
  | None => Raise ValueError
  end.

(** [type(default)(value)] for a string [value] *)
Definition cast_as (default : pyvalW) (value : string) : outcome pyvalW :=
  match default with
  | VNone => Raise TypeError
  | VBool _ => Ret (VBool (negb (String.eqb value "")))
  | VInt _ => let! z := py_int value in Ret (VInt z)
  | VFloat _ => let! x := py_float value in Ret (VFloat x)
  | VStr _ => Ret (VStr value)
  | VList _ => Ret (VList (Py.chars value))
  | VTuple _ | VPair _ _ => Ret (VTuple (Py.chars value))
  end.

(** The unit a physical value is converted to: the default unit of its
    group, or the requested unit when the groups agree. *)
Definition target_unit (found : string) (unit : option string) : outcome string :=
  match unit with
  | None => let! g := unit_group W found in unit_default W g
  | Some u =>
      let! g1 := unit_group W found in
      let! g2 := unit_group W u in
      if String.eqb g1 g2 then Ret u else Raise ValueError
  end.

(** What [get] makes of a value that was found. *)
Definition typed (value : raw) (unit : option string) (default : pyvalW)
    (with_unit : bool) : outcome pyvalW :=
  match value with
  | RBlock l => Ret (VList l)
  | RStr s =>
      match _type_str s with
      | T_r =>
          match default with
          | VNone => let! x := py_float s in Ret (VFloat x)
          | _ => cast_as default s
          end
      | T_i =>
          match default with
          | VNone => let! z := py_int s in Ret (VInt z)
          | _ => cast_as default s
          end
      | T_p =>
          let value := Py.split s in
          if with_unit then
            let! v0 := item value 0 in
            let! x := py_float v0 in
            let! v1 := item value 1 in
            Ret (VPair x v1)
          else
            let! v1 := item value 1 in
            let! default := target_unit v1 unit in
            let! v0 := item value 0 in
            let! x := py_float v0 in
            let! c := unit_convert W v1 default in
            Ret (VFloat (fmul W x c))
      | T_b => Ret (VBool (Py.str_in (Py.lower s) _LOGICAL_TRUE))
      | _ => Ret (VStr s)
      end
  end.

(** [self.get(label, unit, default, with_unit)] on an open instance *)
Definition get (fuel : nat) (st : state) (label : string) (unit : option string)
    (default : pyvalW) (with_unit : bool) : state * outcome pyvalW :=
  let '(st', r) := _read_label (fs W) (directory W) (skip_line W) fuel st label in
  (st', let! value := r in
        match value with
        | None => Ret default
        | Some v => typed v unit default with_unit
        end).

(** Modelled from the spec: the decorator [Sile_fh_open] of sisl/io/sile.py,
    which is not among the sources: the "Source Document is opened on
    demand per read call".  A call on an instance that has no open handle
    opens the instance's own file, which must exist, and runs the body. *)
Definition get_value (fuel : nat) (label : string) (unit : option string)
    (default : pyvalW) (with_unit : bool) : outcome pyvalW :=
  if isfile (fs W) (file W)
  then snd (get fuel (fresh (file W)) label unit default with_unit)
  else Raise IOError.

(** [self._tofile(self.get('SystemLabel', default='siesta')) + suffix] *)
Definition companion (fuel : nat) (suffix : string) : outcome string :=
  let! v := get_value fuel "SystemLabel" None (VStr "siesta") false in
  match v with
  | VStr s => Ret (_tofile (directory W) s +:+ suffix)
  | _ => Raise TypeError
  end.

(** ** The resolution pipeline

    Every [read_X] runs the same loop over [order]: the method
    [_r_X_<f.lower()>] is looked up by name and called, and the first
    result that is not [None] is returned.  The loop is [resolve]; it also
    reports the methods it called, in order. *)
Fixpoint resolve {V : Type} (methods : list (string * outcome (option V)))
    (order : list string) : list string * outcome (option V) :=
  match order with
  | [] => ([], Ret None)
  | f :: rest =>
      match List.find (fun m => String.eqb (fst m) (Py.lower f)) methods with
      | None => ([], Raise AttributeError)
      | Some (name, Ret None) =>
          let '(called, r) := resolve methods rest in (name :: called, r)
      | Some (name, r) => ([name], r)
      end
  end.

(** *** Geometry and matrix reconciliation *)

Definition a_no (a : AtomW) : nat := length (a_orbital a).

Definition g_na (g : GeometryW) : nat := length (xyz g).

(** [atoms[i]] *)
Definition atoms_at (A : AtomsW) (i : nat) : outcome AtomW :=
  let! s := item (specie A) i in item (atom A) s.

Definition atoms_no (A : AtomsW) : nat :=
  sum_list (map (fun s => match atom A !! s with
                          | Some a => a_no a
                          | None => 0%nat
                          end) (specie A)).

Definition g_no (g : GeometryW) : nat := atoms_no (atoms g).

Definition sites_of (s : nat) (sp : list nat) : list nat :=
  filter (fun i => sp !! i = Some s) (seq 0 (length sp)).

(** [atoms.iter(True)]: each species with the sites that carry it *)
Definition iter_species (A : AtomsW) : list (AtomW * list nat) :=
  imap (fun s a => (a, sites_of s (specie A))) (atom A).

Fixpoint index_of {A} `{EqDecision A} (x : A) (l : list A) : nat :=
  match l with
  | [] => 0%nat
  | y :: r => if decide (y = x) then 0%nat else S (index_of x r)
  end.

(** [atoms.replace(index, a)]: the sites [index] get species [a], which is
    added to the species when it is new. *)
Definition atoms_replace (A : AtomsW) (index : list nat) (a : AtomW) : outcome AtomsW :=
  let atom' := if decide (a ∈ atom A) then atom A else atom A ++ [a] in
  let k := index_of a atom' in
  if forallb (fun i => (i <? length (specie A))%nat) index
  then Ret (mkAtoms atom' (foldr (fun i sp => <[i:=k]> sp) (specie A) index))
  else Raise IndexError.

(** [reduce]: drop the species no site refers to *)
Definition atoms_reduce (A : AtomsW) : AtomsW :=
  let used := filter (fun s => s ∈ specie A) (seq 0 (length (atom A))) in
  mkAtoms (omap (fun s => atom A !! s) used)
          (map (fun s => index_of s used) (specie A)).

Definition replace_step (acc : outcome AtomsW) (entry : AtomW * list nat)
  : outcome AtomsW :=
  let! SA := acc in
  let '(a, idx) := entry in
  match idx with
  | [] => Ret SA
  | i0 :: _ =>
      let! Sa := atoms_at SA i0 in
      let a' := if decide (a_no Sa = a_no a) then a
                else mkAtom (a_Z a) (a_orbital Sa) (a_mass a) (a_tag a) in
      let! SA' := atoms_replace SA idx a' in
      Ret (atoms_reduce SA')
  end.

Definition cannot_replace : string :=
  "cannot replace geometry due to insufficient information regarding number of atoms and orbitals, ensuring correct geometry failed...".

(** [_SpGeom_replace_geom(spgeom, geom)]: the warnings it issues, and the
    sparse object as it leaves it together with the value returned. *)
Definition _SpGeom_replace_geom (spgeom : SpGeomW) (geom : GeometryW)
  : list string * outcome (SpGeomW * bool) :=
  let g := _geometry spgeom in
  if negb (g_na g =? g_na geom)%nat && (g_no g =? g_no geom)%nat then
    ([], Ret (mkSpGeom geom (payload spgeom), true))
  else
    let warnings := if negb (g_na g =? g_na geom)%nat then [cannot_replace] else [] in
    let no_no := (g_no g =? g_no geom)%nat in
    (warnings,
     let! SA := foldl replace_step (Ret (atoms g)) (iter_species (atoms geom)) in
     Ret (mkSpGeom (mkGeometry (xyz g) SA (sc g)) (payload spgeom), no_no)).

(** *** Python values in conditions, subscripts and arithmetic *)

(** [if v:] *)
Definition truthy (v : pyvalW) : bool :=
  match v with
  | VNone => false
  | VBool b => b
  | VInt z => negb (z =? 0)
  | VFloat x => negb (f_is_zero W x)
  | VStr s => negb (String.eqb s "")
  | VList l | VTuple l => negb (length l =? 0)%nat
  | VPair _ _ => true
  end.

(** The items of [v] as strings, when [v] is a list of lines or a string. *)
Definition lines_of (v : pyvalW) : outcome (list string) :=
  match v with
  | VList l | VTuple l => Ret l
  | VStr s => Ret (Py.chars s)
  | _ => Raise TypeError
  end.

(** [v[i]] *)
Definition subscript (v : pyvalW) (i : nat) : outcome string :=
  let! l := lines_of v in item l i.

(** [l[i]] and [l[i] = x] for a Python index, which may be negative *)
Definition py_pos {A} (l : list A) (i : Z) : outcome nat :=
  let n := Z.of_nat (length l) in
  if (0 <=? i) && (i <? n) then Ret (Z.to_nat i)
  else if (- n <=? i) && (i <? 0) then Ret (Z.to_nat (n + i))
  else Raise IndexError.

Definition py_item {A} (l : list A) (i : Z) : outcome A :=
  let! k := py_pos l i in item l k.

Definition py_set {A} (l : list A) (i : Z) (x : A) : outcome (list A) :=
  let! k := py_pos l i in Ret (<[k:=x]> l).

(** [l[:n]] *)
Definition py_take {A} (n : Z) (l : list A) : list A :=
  if 0 <=? n then take (Z.to_nat n) l
  else take (Z.to_nat (Z.of_nat (length l) + n)) l.

(** A number as the factor of an array product *)
Definition factor_of (v : pyvalW) : outcome (F W) :=
  match v with
  | VFloat x => Ret x
  | VInt z => Ret (float_of_int W z)
  | VBool b => Ret (float_of_int W (Z.b2z b))
  | _ => Raise TypeError
  end.

(** An integer read by [get] with an integer default *)
Definition count_of (site : string) (v : pyvalW) : outcome Z :=
  match v with
  | VInt z => Ret z
  | VBool b => Ret (Z.b2z b)
  | VFloat _ | VPair _ _ => beyond W Z site
  | _ => Raise TypeError
  end.

(** [[float(k) for k in l]] *)
Fixpoint floats (l : list string) : outcome (list (F W)) :=
  match l with
  | [] => Ret []
  | k :: r => let! x := py_float k in let! xs := floats r in Ret (x :: xs)
  end.

(** [row[:] = l] for a row of three: three values, or one value for all *)
Definition as_row (l : list (F W)) : outcome (vec3 (F W)) :=
  match l with
  | [a; b; c] => Ret (a, b, c)
  | [a] => Ret (a, a, a)
  | _ => Raise ValueError
  end.

Definition vscale (s : F W) (v : vec3 (F W)) : vec3 (F W) :=
  let '(a, b, c) := v in (fmul W a s, fmul W b s, fmul W c s).

Definition vadd (v w : vec3 (F W)) : vec3 (F W) :=
  let '(a, b, c) := v in let '(a', b', c') := w in
  (fadd W a a', fadd W b b', fadd W c c').

(** [np.dot(v, cell)] for one row [v] *)
Definition vdot (v : vec3 (F W)) (m : vec3 (F W) * vec3 (F W) * vec3 (F W))
  : vec3 (F W) :=
  let '(x, y, z) := v in
  let '((a0, a1, a2), (b0, b1, b2), (c0, c1, c2)) := m in
  (fadd W (fadd W (fmul W x a0) (fmul W y b0)) (fmul W z c0),
   fadd W (fadd W (fmul W x a1) (fmul W y b1)) (fmul W z c1),
   fadd W (fadd W (fmul W x a2) (fmul W y b2)) (fmul W z c2)).

Definition f_zero : F W := float_of_string W "0.".
Definition f_one : F W := float_of_string W "1.".

(** *** [read_supercell_nsc] *)

Definition from_companion {V} (fuel : nat) (suffix : string)
    (reader : string -> outcome (option V)) : outcome (option V) :=
  let! f := companion fuel suffix in
  if isfile (fs W) f then reader f else Ret None.

Definition _r_supercell_nsc_nc (fuel : nat) : outcome (option (list Z)) :=
  from_companion fuel ".nc" (nc_read_supercell_nsc W).

Definition _r_supercell_nsc_orb_indx (fuel : nat) : outcome (option (list Z)) :=
  from_companion fuel ".ORB_INDX" (orbindx_read_supercell_nsc W).

Definition supercell_nsc_methods (fuel : nat) :=
  [("nc", _r_supercell_nsc_nc fuel); ("orb_indx", _r_supercell_nsc_orb_indx fuel)].

Definition read_supercell_nsc (fuel : nat) (order : option (list string))
  : outcome (list Z) :=
  let order := default ["nc"; "ORB_INDX"] order in
  let! v := snd (resolve (supercell_nsc_methods fuel) order) in
  match v with
  | Some n => Ret n
  | None => Ret [1; 1; 1]
  end.

(** *** [read_supercell] *)

Definition cell_row (lc : pyvalW) (i : nat) : outcome (vec3 (F W)) :=
  let! l := subscript lc i in
  let! xs := floats (take 3 (Py.split l)) in
  as_row xs.

Definition _r_supercell_fdf (fuel : nat) : outcome (option (SuperCell (F W))) :=
  let! s := get_value fuel "LatticeConstant" (Some "Ang") VNone false in
  match s with
  | VNone => Raise SileError
  | _ =>
      let empty := (np_empty W, np_empty W, np_empty W) in
      let! lc := get_value fuel "LatticeVectors" None VNone false in
      let! cl :=
        if truthy lc then
          let! r0 := cell_row lc 0 in
          let! r1 := cell_row lc 1 in
          let! r2 := cell_row lc 2 in
          Ret ((r0, r1, r2), lc)
        else
          let! lc := get_value fuel "LatticeParameters" None VNone false in
          if truthy lc then
            let! l := subscript lc 0 in
            let! tmp := floats (take 6 (Py.split l)) in
            let! c := tocell W tmp in
            Ret (c, lc)
          else Ret ((empty, empty, empty), lc) in
      let '((c0, c1, c2), lc) := cl in
      match lc with
      | VNone => Raise SileError
      | _ =>
          let! k := factor_of s in
          let! nsc := read_supercell_nsc fuel None in
          Ret (Some (mkSuperCell (vscale k c0, vscale k c1, vscale k c2) nsc))
      end
  end.

Definition _r_supercell_nc (fuel : nat) : outcome (option (SuperCell (F W))) :=
  from_companion fuel ".nc" (nc_read_supercell W).

Definition _r_supercell_xv (fuel : nat) : outcome (option (SuperCell (F W))) :=
  let! f := companion fuel ".XV" in
  if isfile (fs W) f then
    let! nsc := read_supercell_nsc fuel None in
    let! sc := xv_read_supercell W f in
    Ret (Some (mkSuperCell (cell sc) nsc))
  else Ret None.

Definition supercell_methods (fuel : nat) :=
  [("fdf", _r_supercell_fdf fuel); ("nc", _r_supercell_nc fuel);
   ("xv", _r_supercell_xv fuel)].

Definition read_supercell (fuel : nat) (output : bool) (order : option (list string))
  : list string * outcome (option (SuperCell (F W))) :=
  let order := default (if output then ["XV"; "nc"; "fdf"] else ["fdf"]) order in
  resolve (supercell_methods fuel) order.

(** *** [read_basis] *)

(** [Atom(Z=Z, tag=lbl)] and [Atom(1)] *)
Definition Atom_new (Z : Z) (tag : option string) : AtomW :=
  mkAtom Z [default_orbital W] (default_mass W Z) (default (default_tag W Z) tag).

Definition _r_basis_nc (fuel : nat) : outcome (option (list (option AtomW))) :=
  let! r := from_companion fuel ".nc" (nc_read_basis W) in
  Ret (map Some <$> r).

Definition _r_basis_orb_indx (fuel : nat) : outcome (option (list (option AtomW))) :=
  let! r := from_companion fuel ".ORB_INDX" (orbindx_read_basis W) in
  Ret (map Some <$> r).

(** [idx, Z, lbl = spc.split()[:3]] with [idx] and [Z] made integers *)
Definition species_line (spc : string) : outcome (Z * Z * string) :=
  match take 3 (Py.split spc) with
  | [idx; Z; lbl] =>
      let! i := py_int idx in
      let! z := py_int Z in
      Ret (i - 1, z, Py.strip lbl)
  | _ => Raise ValueError
  end.

Definition basis_fdf_step (acc : outcome (list (option AtomW))) (spc : string)
  : outcome (list (option AtomW)) :=
  let! atom := acc in
  let! '(idx, Z, lbl) := species_line spc in
  py_set atom idx (Some (Atom_new Z (Some lbl))).

Definition _r_basis_fdf (fuel : nat) : outcome (option (list (option AtomW))) :=
  let! spcs := get_value fuel "ChemicalSpeciesLabel" None VNone false in
  match spcs with
  | VNone => Ret None
  | _ =>
      let! lines := lines_of spcs in
      let! atom := foldl basis_fdf_step (Ret (replicate (length lines) None)) lines in
      Ret (Some atom)
  end.

(** The state of the loop of [_r_basis_ion]: the list being filled,
    [found_one] and [found_all]. *)
Definition basis_ion_step (acc : outcome (list (option AtomW) * bool * bool))
    (spc : string) : outcome (list (option AtomW) * bool * bool) :=
  let! '(atom, found_one, found_all) := acc in
  let! '(idx, Z, lbl) := species_line spc in
  let f := _tofile (directory W) lbl in
  if isfile (fs W) (f +:+ ".ion.nc") then
    let! a := ionnc_read_basis W (f +:+ ".ion.nc") in
    let! atom := py_set atom idx (Some a) in Ret (atom, true, found_all)
  else if isfile (fs W) (f +:+ ".ion.xml") then
    let! a := ionxml_read_basis W (f +:+ ".ion.xml") in
    let! atom := py_set atom idx (Some a) in Ret (atom, true, found_all)
  else
    let! atom := py_set atom idx (Some (Atom_new Z (Some lbl))) in
    Ret (atom, found_one, false).

Definition _r_basis_ion (fuel : nat) : outcome (option (list (option AtomW))) :=
  let! spcs := get_value fuel "ChemicalSpeciesLabel" None VNone false in
  match spcs with
  | VNone => Ret None
  | _ =>
      let! lines := lines_of spcs in
      let! '(atom, found_one, found_all) :=
        foldl basis_ion_step (Ret (replicate (length lines) None, false, true)) lines in
      if found_one then Ret (Some atom) else Ret None
  end.

Definition basis_methods (fuel : nat) :=
  [("nc", _r_basis_nc fuel); ("ion", _r_basis_ion fuel);
   ("orb_indx", _r_basis_orb_indx fuel); ("fdf", _r_basis_fdf fuel)].

Definition read_basis (fuel : nat) (order : option (list string))
  : list string * outcome (option (list (option AtomW))) :=
  resolve (basis_methods fuel) (default ["nc"; "ion"; "ORB_INDX"; "fdf"] order).

(** *** [read_geometry] *)

(** The [Atoms] made from one atom per site: equal atoms share a species. *)
Definition atoms_of_list (l : list AtomW) : AtomsW :=
  let species := foldl (fun u a => if decide (a ∈ u) then u else u ++ [a]) [] l in
  mkAtoms species (map (fun a => index_of a species) l).

Definition atom_or_none (a : option AtomW) : outcome AtomW :=
  match a with
  | Some a => Ret a
  | None => atom_of_none W
  end.

Fixpoint sequence {A} (l : list (outcome A)) : outcome (list A) :=
  match l with
  | [] => Ret []
  | m :: r => let! x := m in let! xs := sequence r in Ret (x :: xs)
  end.

(** The scale [s] and the flag [is_frac] chosen by AtomicCoordinatesFormat;
    [s] stays unbound when no keyword is recognised. *)
Definition coordinate_format (fuel : nat) (lc : string) : outcome (option pyvalW * bool) :=
  if Py.contains lc "ang" || Py.contains lc "notscaledcartesianang" then
    Ret (Some (VFloat f_one), false)
  else if Py.contains lc "bohr" || Py.contains lc "notscaledcartesianbohr" then
    Ret (Some (VFloat (Bohr2Ang W)), false)
  else if Py.contains lc "scaledcartesian" then
    let! s := get_value fuel "LatticeConstant" (Some "Ang") VNone false in
    Ret (Some s, false)
  else if Py.contains lc "fractional" || Py.contains lc "scaledbylatticevectors" then
    Ret (Some (VFloat f_one), true)
  else Ret (None, false).

(** Reading the bound [s] as a factor *)
Definition use_scale (s : option pyvalW) : outcome (F W) :=
  match s with
  | Some v => factor_of v
  | None => Raise UnboundLocalError
  end.

(** [origo]: zeros, or the first line of AtomicCoordinatesOrigin times [s] *)
Definition read_origo (fuel : nat) (origin : bool) (s : option pyvalW)
  : outcome (list (F W)) :=
  let! lor := get_value fuel "AtomicCoordinatesOrigin" None VNone false in
  if truthy lor && origin then
    let! l := subscript lor 0 in
    let! xs := floats (take 3 (Py.split l)) in
    let! k := use_scale s in
    Ret (map (fun x => fmul W x k) xs)
  else Ret [f_zero; f_zero; f_zero].

(** One line of the atom block: the coordinates and the species index *)
Definition atom_line (l : string) : outcome (vec3 (F W) * Z) :=
  let l := Py.split l in
  let! xs := floats (take 3 l) in
  let! row := as_row xs in
  let! sp := item l 3 in
  let! k := py_int sp in
  Ret (row, k - 1).

(** [if is_frac: xyz = np.dot(xyz, sc.cell)], [xyz *= s], [xyz += origo] *)
Definition place (is_frac : bool) (cell : vec3 (F W) * vec3 (F W) * vec3 (F W))
    (k : F W) (origo : vec3 (F W)) (v : vec3 (F W)) : vec3 (F W) :=
  vadd (vscale k (if is_frac then vdot v cell else v)) origo.

(** The atom block, cut to NumberOfAtoms lines and parsed. *)
Definition read_atom_block (fuel : nat) : outcome (list (vec3 (F W) * Z)) :=
  let! atms := get_value fuel "AtomicCoordinatesAndAtomicSpecies" None VNone false in
  match atms with
  | VNone => Raise SileError
  | _ =>
      let! atms := lines_of atms in
      let n := Z.of_nat (length atms) in
      let! nav := get_value fuel "NumberOfAtoms" None (VInt n) false in
      let! na := count_of "NumberOfAtoms" nav in
      if na >? n then Raise SileError
      else if (na =? n) && (na =? 0) then Raise SileError
      else if na <? 0 then Raise ValueError
      else sequence (map atom_line (py_take na atms))
  end.

Definition _r_geometry_fdf (fuel : nat) (origin : bool) : outcome (option GeometryW) :=
  let! sc := snd (read_supercell fuel false (Some ["fdf"])) in
  let! sc := match sc with
             | Some sc => Ret sc
             | None => beyond W _ "read_supercell(order=['fdf']) is None"
             end in
  let! lcv := get_value fuel "AtomicCoordinatesFormat" None (VStr "Bohr") false in
  let! lc := match lcv with VStr s => Ret (Py.lower s) | _ => Raise AttributeError end in
  let! '(s, is_frac) := coordinate_format fuel lc in
  let! origo := read_origo fuel origin s in
  let! rows := read_atom_block fuel in
  let! k := use_scale s in
  let! o := as_row origo in
  let xyz := map (fun r => place is_frac (cell sc) k o (fst r)) rows in
  let! basis := snd (read_basis fuel None) in
  let! atom :=
    match basis with
    | None => Ret (replicate (length rows) (Atom_new 1 None))
    | Some atom =>
        let! picked := sequence (map (fun r => py_item atom (snd r)) rows) in
        sequence (map atom_or_none picked)
    end in
  Ret (Some (mkGeometry xyz (atoms_of_list atom) sc)).

Definition _r_geometry_nc (fuel : nat) : outcome (option GeometryW) :=
  from_companion fuel ".nc" (nc_read_geometry W).

Definition _r_geometry_xv (fuel : nat) : outcome (option GeometryW) :=
  let! f := companion fuel ".XV" in
  if isfile (fs W) f then
    let! basis := snd (read_basis fuel None) in
    let! geom :=
      match basis with
      | None => xv_read_geometry W f false
      | Some basis =>
          let! geom := xv_read_geometry W f true in
          xv_apply_basis W geom basis
      end in
    let! nsc := read_supercell_nsc fuel None in
    Ret (Some (mkGeometry (xyz geom) (atoms geom) (mkSuperCell (cell (sc geom)) nsc)))
  else Ret None.

Definition geometry_methods (fuel : nat) (origin : bool) :=
  [("xv", _r_geometry_xv fuel); ("nc", _r_geometry_nc fuel);
   ("fdf", _r_geometry_fdf fuel origin)].

Definition read_geometry (fuel : nat) (output : bool) (order : option (list string))
    (origin : bool) : list string * outcome (option GeometryW) :=
  let order := default (if output then ["XV"; "nc"; "fdf"] else ["fdf"]) order in
  resolve (geometry_methods fuel origin) order.

(** *** [read_force] *)

Definition _r_force_fa (fuel : nat) := from_companion fuel ".FA" (fa_read_force W).
Definition _r_force_fac (fuel : nat) := from_companion fuel ".FAC" (fa_read_force W).
Definition _r_force_nc (fuel : nat) := from_companion fuel ".nc" (nc_read_force W).

Definition force_methods (fuel : nat) :=
  [("fa", _r_force_fa fuel); ("fac", _r_force_fac fuel); ("nc", _r_force_nc fuel)].

Definition read_force (fuel : nat) (order : option (list string))
  : list string * outcome (option (Forces W)) :=
  resolve (force_methods fuel) (default ["FA"; "nc"] order).

(** *** Matrices read from a companion file and reconciled *)

(** [self._SpGeom_replace_geom(M, self.read_geometry(True))]: the matrix as
    the call leaves it. *)
Definition reconciled (fuel : nat) (M : SpGeomW) : outcome SpGeomW :=
  let! g := snd (read_geometry fuel true None true) in
  match g with
  | Some geom => let! r := snd (_SpGeom_replace_geom M geom) in Ret (fst r)
  | None => Raise AttributeError
  end.

Definition from_companion_reconciled (fuel : nat) (suffix : string)
    (reader : string -> outcome SpGeomW) (reconcile : bool) : outcome (option SpGeomW) :=
  let! f := companion fuel suffix in
  if isfile (fs W) f then
    let! M := reader f in
    if reconcile then let! M' := reconciled fuel M in Ret (Some M')
    else Ret (Some M)
  else Ret None.

(** *** [read_density_matrix]; [geometry] tells whether the caller passed a
    geometry of its own, in which case nothing is reconciled. *)

Definition _r_density_matrix_nc (fuel : nat) :=
  from_companion fuel ".nc" (nc_read_density_matrix W).

Definition _r_density_matrix_tsde (fuel : nat) (geometry : bool) :=
  from_companion_reconciled fuel ".TSDE" (tsde_read_density_matrix W) (negb geometry).

Definition _r_density_matrix_dm (fuel : nat) (geometry : bool) :=
  from_companion_reconciled fuel ".DM" (dm_read_density_matrix W) (negb geometry).

Definition density_matrix_methods (fuel : nat) (geometry : bool) :=
  [("nc", _r_density_matrix_nc fuel); ("tsde", _r_density_matrix_tsde fuel geometry);
   ("dm", _r_density_matrix_dm fuel geometry)].

Definition read_density_matrix (fuel : nat) (order : option (list string))
    (geometry : bool) : list string * outcome (option SpGeomW) :=
  resolve (density_matrix_methods fuel geometry) (default ["nc"; "TSDE"; "DM"] order).

(** *** [read_hamiltonian] *)

Definition _r_hamiltonian_nc (fuel : nat) :=
  from_companion fuel ".nc" (nc_read_hamiltonian W).

Definition _r_hamiltonian_tshs (fuel : nat) :=
  from_companion_reconciled fuel ".TSHS" (tshs_read_hamiltonian W) true.

Definition _r_hamiltonian_hsx (fuel : nat) :=
  from_companion_reconciled fuel ".HSX" (hsx_read_hamiltonian W) true.

Definition hamiltonian_methods (fuel : nat) :=
  [("nc", _r_hamiltonian_nc fuel); ("tshs", _r_hamiltonian_tshs fuel);
   ("hsx", _r_hamiltonian_hsx fuel)].

Definition read_hamiltonian (fuel : nat) (order : option (list string))
  : list string * outcome (option SpGeomW) :=
  resolve (hamiltonian_methods fuel) (default ["nc"; "TSHS"; "HSX"] order).

(** *** [read_hessian] *)

(** [0 == v], the test behind [0 in [fc_first, fc_last]] *)
Definition is_zero (v : pyvalW) : bool :=
  match v with
  | VInt z => z =? 0
  | VBool b => negb b
  | VFloat x => f_is_zero W x
  | _ => false
  end.

(** A value as an operand of integer arithmetic: an integer (a [bool] is
    one), a float, or a value on which the arithmetic raises. *)
Inductive operand := OInt (z : Z) | OFloat | OOther.

Definition operand_of (v : pyvalW) : operand :=
  match v with
  | VInt z => OInt z
  | VBool b => OInt (Z.b2z b)
  | VFloat _ => OFloat
  | _ => OOther
  end.

(** [len(v)] *)
Definition py_len (v : pyvalW) : outcome nat :=
  match v with
  | VList l | VTuple l => Ret (length l)
  | VStr s => Ret (Py.len s)
  | VPair _ _ => Ret 2%nat
  | _ => Raise TypeError
  end.

Definition _r_force_constant_fc (fuel : nat) (correct_fc : bool)
  : outcome (option (FCdata W)) :=
  let! f := companion fuel ".FC" in
  if isfile (fs W) f then
    let! na := get_value fuel "NumberOfAtoms" None VNone false in
    let! fc := fc_read_force_constant W f na in
    let! first := get_value fuel "MD.FCFirst" None (VInt 0) false in
    let! last := get_value fuel "MD.FCLast" None (VInt 0) false in
    if is_zero first || is_zero last then Raise SislError
    else
      match operand_of first, operand_of last with
      | OInt fc_first, OInt fc_last =>
          if negb (fc_last - fc_first + 1 =? fc_shape0 W fc) then Raise SislError
          else if correct_fc then
            let! fc := fc_correct W fc fc_first fc_last in Ret (Some fc)
          else Ret (Some fc)
      | OOther, _ | _, OOther => Raise TypeError
      | _, _ =>
          let! fc := beyond W (FCdata W) "MD.FCFirst or MD.FCLast is a float" in
          Ret (Some fc)
      end
  else Ret None.

(** [_a.arangei(a, b)] *)
Definition arangei (a b : Z) : list Z :=
  map (fun i => a + Z.of_nat i) (seq 0 (Z.to_nat (b - a))).

(** [np.diff(l)] *)
Fixpoint diff (l : list Z) : list Z :=
  match l with
  | x :: ((y :: _) as r) => (y - x) :: diff r
  | _ => []
  end.

(** [_a.arrayi(x)] for a sequence [x]: Python integers within the range
    of int32 give the array of these integers.  What numpy makes of any
    other entry (a float is truncated; an integer out of range wraps around
    or is refused, depending on the version) is left open. *)
Definition int32_of (v : pyvalW) : option Z :=
  match v with
  | VInt z => if (-2147483648 <=? z) && (z <=? 2147483647) then Some z else None
  | VBool b => Some (Z.b2z b)
  | _ => None
  end.

Fixpoint all_int32 (l : list pyvalW) : option (list Z) :=
  match l with
  | [] => Some []
  | v :: r =>
      match int32_of v, all_int32 r with
      | Some z, Some zs => Some (z :: zs)
      | _, _ => None
      end
  end.

Definition arrayi (l : list pyvalW) : outcome (list Z) :=
  match all_int32 l with
  | Some zs => Ret zs
  | None => beyond W (list Z) "arrayi"
  end.

(** [_r_hessian_fc]: the numerical work before the Hessian is filled
    ([hessian_prepare]), the filling for a unit cell ([hessian_unit_cell]),
    the construction of the small cell ([hessian_small_cell]) and the
    comparison of the tiled geometry ([hessian_tiling_matches]) are numpy
    and sisl kernels.  [supercell] is the sequence passed by the caller. *)
Definition _r_hessian_fc (fuel : nat) (correct_fc : bool) (supercell : list pyvalW)
  : outcome (option (Hess W)) :=
  let! fc := _r_force_constant_fc fuel correct_fc in
  match fc with
  | None => Ret None
  | Some fc =>
      let! geom := snd (read_geometry fuel false None true) in
      let! geom := match geom with
                   | Some g => Ret g
                   | None => Raise AttributeError
                   end in
      let! '(FC, geom) := hessian_prepare W fc geom in
      let! mass := get_value fuel "AtomicMass" None (VList []) false in
      let! _ := py_len mass in
      let! first := get_value fuel "MD.FCFirst" None (VInt 0) false in
      let! fc_first := count_of "MD.FCFirst" first in
      let! last := get_value fuel "MD.FCLast" None (VInt 0) false in
      let! fc_last := count_of "MD.FCLast" last in
      let fc_atoms := arangei (fc_first - 1) fc_last in
      let! supercell := arrayi supercell in
      if forallb (fun n => n =? 1) supercell then
        let! H := hessian_unit_cell W FC geom fc_atoms in
        Ret (Some H)
      else
        let! _ := hessian_small_cell W geom fc_atoms supercell in
        if existsb (fun d => negb (d =? 1)) (diff fc_atoms) then Raise SislError
        else
        let! close := hessian_tiling_matches W geom fc_atoms supercell in
        if negb close then Raise SislError
        else Raise NotImplementedError
  end.

Definition hessian_methods (fuel : nat) (correct_fc : bool) (supercell : list pyvalW) :=
  [("fc", _r_hessian_fc fuel correct_fc supercell)].

Definition read_hessian (fuel : nat) (order : option (list string))
    (correct_fc : bool) (supercell : list pyvalW)
  : list string * outcome (option (Hess W)) :=
  resolve (hessian_methods fuel correct_fc supercell) (default ["FC"] order).

End Reader.

(** ** A concrete world

    For evaluating the reader on explicit files: floats with whole values
    (so that products and sums are exact), a small unit table with whole
    factors, and companion readers that hand back fixed objects. *)

Module Demo.

Definition starts_with_comment (l : string) : bool :=
  existsb (Py.startswith l) _comment.

(** The value of a decimal literal without fractional digits. *)
Definition whole (s : string) : Z :=
  default 0 (Py.int_of_string (Py.before_char "." (Py.strip s))).

Definition group_of (u : string) : outcome string :=
  if Py.str_in u ["eV"; "meV"] then Ret "energy"
  else if Py.str_in u ["Ang"; "nm"; "pm"] then Ret "length"
  else Raise ValueError.

Definition default_of (g : string) : outcome string :=
  if String.eqb g "energy" then Ret "eV"
  else if String.eqb g "length" then Ret "Ang"
  else Raise ValueError.

(** How many of the smallest unit of its group a unit holds. *)
Definition in_smallest (u : string) : option Z :=
  if String.eqb u "eV" then Some 1000
  else if String.eqb u "meV" then Some 1
  else if String.eqb u "nm" then Some 1000
  else if String.eqb u "Ang" then Some 100
  else if String.eqb u "pm" then Some 1
  else None.

(** Conversions between the units above with a whole factor. *)
Definition convert (a b : string) : outcome Z :=
  match in_smallest a, in_smallest b with
  | Some x, Some y => if (x mod y =? 0) then Ret (x / y) else Raise ValueError
  | _, _ => Raise ValueError
  end.

Definition hydrogen : Atom Z string := mkAtom 1 ["s"] 1 "H".
Definition carbon : Atom Z string := mkAtom 6 ["s"; "px"; "py"; "pz"] 12 "C".

Definition unit_cell : vec3 Z * vec3 Z * vec3 Z := ((1, 0, 0), (0, 1, 0), (0, 0, 1)).

(** Two hydrogen atoms, and one carbon atom. *)
Definition h2 : Geometry Z string :=
  mkGeometry [(0, 0, 0); (1, 0, 0)] (mkAtoms [hydrogen] [0%nat; 0%nat])
             (mkSuperCell unit_cell [1; 1; 1]).

Definition c1 : Geometry Z string :=
  mkGeometry [(0, 0, 0)] (mkAtoms [carbon] [0%nat])
             (mkSuperCell unit_cell [1; 1; 1]).

Definition world (files : gmap string (list string)) (primary : string) : World := {|
  F := Z; Orb := string; Payload := unit; FCdata := list Z; Hess := unit;
  Forces := unit;
  F_eq_dec := _; Orb_eq_dec := _;
  float_of_string := whole;
  float_of_int := fun z => z;
  fmul := Z.mul;
  fadd := Z.add;
  f_is_zero := Z.eqb 0;
  np_empty := 0;
  Bohr2Ang := 1;
  unit_group := group_of;
  unit_default := default_of;
  unit_convert := convert;
  default_orbital := "s";
  default_mass := fun z => z;
  default_tag := fun _ => "X";
  tocell := fun _ => Ret unit_cell;
  fs := files;
  file := primary;
  directory := ".";
  skip_line := starts_with_comment;
  nc_read_supercell_nsc := fun _ => Ret (Some [1; 1; 1]);
  orbindx_read_supercell_nsc := fun _ => Ret (Some [1; 1; 1]);
  nc_read_supercell := fun _ => Ret (Some (mkSuperCell unit_cell [1; 1; 1]));
  xv_read_supercell := fun _ => Ret (mkSuperCell unit_cell [1; 1; 1]);
  nc_read_basis := fun _ => Ret (Some [hydrogen]);
  orbindx_read_basis := fun _ => Ret (Some [hydrogen]);
  ionnc_read_basis := fun _ => Ret hydrogen;
  ionxml_read_basis := fun _ => Ret hydrogen;
  nc_read_geometry := fun _ => Ret (Some h2);
  xv_read_geometry := fun _ _ => Ret h2;
  xv_apply_basis := fun g _ => Ret g;
  atom_of_none := Raise TypeError;
  nc_read_hamiltonian := fun _ => Ret (Some (mkSpGeom h2 tt));
  tshs_read_hamiltonian := fun _ => Ret (mkSpGeom h2 tt);
  hsx_read_hamiltonian := fun _ => Ret (mkSpGeom h2 tt);
  fa_read_force := fun _ => Ret (Some tt);
  nc_read_force := fun _ => Ret (Some tt);
  nc_read_density_matrix := fun _ => Ret (Some (mkSpGeom h2 tt));
  tsde_read_density_matrix := fun _ => Ret (mkSpGeom h2 tt);
  dm_read_density_matrix := fun _ => Ret (mkSpGeom h2 tt);
  fc_read_force_constant := fun _ _ => Ret [0];
  fc_shape0 := fun fc => Z.of_nat (length fc);
  fc_correct := fun fc _ _ => Ret fc;
  hessian_prepare := fun fc g => Ret (fc, g);
  hessian_unit_cell := fun _ _ _ => Ret tt;
  hessian_small_cell := fun _ _ _ => Ret tt;
  hessian_tiling_matches := fun _ _ _ => Ret true;
  beyond := fun _ _ => Raise TypeError
|}.

End Demo.

(** ** Names used in the statements *)

(** The outcome of the method that [getattr] finds for the source [f] in a
    table of methods. *)
Definition method_for {V : Type} (methods : list (string * outcome (option V)))
    (f : string) : option (outcome (option V)) :=
  snd <$> List.find (fun m => String.eqb (fst m) (Py.lower f)) methods.

(** ** Labels that differ by case and separators *)

Definition is_sep (c : ascii) : bool :=
  Ascii.eqb c "_" || Ascii.eqb c "-" || Ascii.eqb c ".".

(** [label_equiv a b]: the labels [a] and [b] differ only by the case of
    letters and by separators ['_'], ['-'], ['.'] present in one and not
    in the other. *)
Inductive label_equiv : string -> string -> Prop :=
  | le_done : label_equiv EmptyString EmptyString
  | le_letter c1 c2 s1 s2 :
      Py.lower_char c1 = Py.lower_char c2 ->
      label_equiv s1 s2 -> label_equiv (String c1 s1) (String c2 s2)
  | le_sep_left c s1 s2 :
      is_sep c = true -> label_equiv s1 s2 -> label_equiv (String c s1) s2
  | le_sep_right c s1 s2 :
      is_sep c = true -> label_equiv s1 s2 -> label_equiv s1 (String c s2).

(** ** Reading states seen from outside *)

(** The primary file's handle: the bottom of the stack. *)
Definition bottom (st : state) : handle := List.last (parent_fh st) (fh st).

(** Two states with the same active handle and the same stack. *)
Definition same_cursor (a b : state) : Prop :=
  fh a = fh b /\ parent_fh a = parent_fh b.

(** The lines of the active file that have not been read yet. *)
Definition unread (fs : gmap string (list string)) (st : state) : list string :=
  match fs !! h_name (fh st) with
  | Some lines => drop (h_pos (fh st)) lines
  | None => []
  end.

(** The test that ends the body of a block, on a line as [readline] gives it *)
Definition closes_block (l : string) : bool :=
  Py.startswith (tolabel (Py.strip l)) "%endblock".

(** A line of a file that [readline] delivers and that ends the block *)
Definition is_closer (skip_line : string -> bool) (l : string) : bool :=
  negb (skip_line (l +:+ nl)) && closes_block (l +:+ nl).

(** Some unread line of the active file reaches the scan and ends the block. *)
Definition has_closer (fs : gmap string (list string)) (skip_line : string -> bool)
    (st : state) : bool :=
  existsb (is_closer skip_line) (unread fs st).

(** A line that opens the block of the label [labell], with no [<] on it *)
Definition opens_block (labell : string) (line : string) : bool :=
  let lsl := map tolabel (Py.split line) in
  negb (Py.str_in "<" lsl) && negb (String.eqb (hd "" lsl) labell)
  && is_block_of labell lsl.

(** ** Example directories *)

Module Examples.

(** An fdf file with a scalar of each kind. *)
Definition scalars : gmap string (list string) :=
  <["./RUN.fdf" :=
      ["SystemLabel run";
       "Label 7";
       "LabelE 2. eV";
       "MD.FCFirst 1"]]> ∅.

(** The same directory after a run that wrote the Hamiltonian. *)
Definition scalars_tshs : gmap string (list string) :=
  <["./run.TSHS" := []]> scalars.

(** A file that includes another one. *)
Definition include_files : gmap string (list string) :=
  <["./RUN.fdf" := ["%include other.fdf"; "Tail 1"]]>
  (<["./other.fdf" := ["Label 7"; "More 2"]]> ∅).

(** A block that is never closed, and the same block closed. *)
Definition unclosed_block : gmap string (list string) :=
  <["./RUN.fdf" := ["Other 1"; "%block Foo"; " 1 2 3"]]> ∅.


(** One atom in fractional coordinates, with and without an origin. *)
Definition fractional_with_origin : gmap string (list string) :=
  <["./RUN.fdf" :=
      ["LatticeConstant 1.0 Ang";
       "%block LatticeVectors";
       " 2.0 0.0 0.0";
       " 0.0 2.0 0.0";
       " 0.0 0.0 2.0";
       "%endblock LatticeVectors";
       "AtomicCoordinatesFormat Fractional";
       "%block AtomicCoordinatesOrigin";
       " 1.0 0.0 0.0";
       "%endblock AtomicCoordinatesOrigin";
       "%block AtomicCoordinatesAndAtomicSpecies";
       " 1.0 0.0 3.0 1";
       "%endblock AtomicCoordinatesAndAtomicSpecies"]]> ∅.

Definition fractional_plain : gmap string (list string) :=
  <["./RUN.fdf" :=
      ["LatticeConstant 1.0 Ang";
       "%block LatticeVectors";
       " 2.0 0.0 0.0";
       " 0.0 2.0 0.0";
       " 0.0 0.0 2.0";
       "%endblock LatticeVectors";
       "AtomicCoordinatesFormat Fractional";
       "%block AtomicCoordinatesAndAtomicSpecies";
       " 1.0 0.0 3.0 1";
       "%endblock AtomicCoordinatesAndAtomicSpecies"]]> ∅.

Definition doubled_cell : SuperCell Z :=
  mkSuperCell ((2, 0, 0), (0, 2, 0), (0, 0, 2)) [1; 1; 1].

(** One displaced atom, before and after the run that wrote the force
    constants. *)
Definition displaced_atom : gmap string (list string) :=
  <["./RUN.fdf" :=
      ["SystemLabel run";
       "LatticeConstant 1.0 Ang";
       "%block LatticeVectors";
       " 2.0 0.0 0.0";
       " 0.0 2.0 0.0";
       " 0.0 0.0 2.0";
       "%endblock LatticeVectors";
       "AtomicCoordinatesFormat Ang";
       "%block AtomicCoordinatesAndAtomicSpecies";
       " 1.0 0.0 3.0 1";
       "%endblock AtomicCoordinatesAndAtomicSpecies";
       "MD.FCFirst 1";
       "MD.FCLast 1"]]> ∅.

Definition displaced_atom_fc : gmap string (list string) :=
  <["./run.FC" := []]> displaced_atom.

End Examples.

(** ** The rest of the reader: [includes], [read_grid] and [set] *)

Section IncludesDef.

Variable fs : gmap string (list string).
Variable directory : string.
Variable skip_line : string -> bool.

(** The local function [add] of [includes]: the path is appended when it
    is not in the list yet. *)
Definition includes_add (includes : list string) (f : string) : list string :=
  let p := _tofile directory f in
  if Py.str_in p includes then includes else includes ++ [p].

(** [while l == '': if self._popfile(): l = self.readline() else: break];
    each turn pops a file, so the height of the stack bounds the loop. *)
Fixpoint includes_refill (n : nat) (st : state) (l : string) : state * string :=
  match n with
  | O => (st, l)
  | S k =>
      if String.eqb l "" then
        let '(st', popped) := _popfile st in
        if popped then
          let '(st'', l') := readline fs skip_line st' in
          includes_refill k st'' l'
        else (st', l)
      else (st, l)
  end.

(** What one line adds to the list, and the state after it. *)
Definition includes_line (st : state) (l : string) (acc : list string)
  : outcome (list string * state) :=
  let ls := Py.split l in
  let! t0 := item ls 0 in
  if String.eqb "%include" (Py.lower t0) then
    let! f := item ls 1 in
    Ret (includes_add acc f, _pushfile fs directory st f)
  else if Py.str_in "<" ls then
    let! f := item ls (S (Py.index "<" ls)) in
    Ret (includes_add acc f, st)
  else Ret (acc, st).

(** [while l != '':] *)
Fixpoint includes_loop (fuel : nat) (st : state) (l : string) (acc : list string)
  : state * outcome (list string) :=
  match fuel with
  | O => (st, Diverge)
  | S k =>
      if String.eqb l "" then (st, Ret acc)
      else
        match includes_line st l acc with
        | Ret (acc', st') =>
            let '(st1, l1) := readline fs skip_line st' in
            let '(st2, l2) := includes_refill (S (length (parent_fh st1))) st1 l1 in
            includes_loop k st2 l2 acc'
        | Raise e => (st, Raise e)
        | Diverge => (st, Diverge)
        end
  end.

(** [self.includes()] on an open instance *)
Definition includes (fuel : nat) (st : state) : state * outcome (list string) :=
  let st0 := _seek st in
  let '(st1, l) := readline fs skip_line st0 in
  includes_loop fuel st1 l [].

End IncludesDef.

Section GridDef.

Variable W : World.

(** The grids, and the readers of the two file formats that hold them:
    [ncSileSiesta(f).read_grid(name)], [gridncSileSiesta(f).read_grid()]
    and [grid.set_geometry]. *)
Variable Grid : Type.
Variable nc_read_grid : string -> option string -> outcome (option Grid).
Variable gridnc_read_grid : string -> outcome Grid.
Variable grid_set_geometry : Grid -> option (Geometry (F W) (Orb W)) -> outcome unit.

(** The names of the quantities in the aggregated file *)
Definition grid_names_nc : list (string * string) :=
  [("rho", "Rho"); ("rhoinit", "RhoInit"); ("vna", "Vna"); ("chlocal", "Chlocal");
   ("rhotot", "RhoTot"); ("totalcharge", "RhoTot"); ("deltarho", "RhoDelta");
   ("rhodelta", "RhoDelta"); ("electrostaticpotential", "Vh"); ("vh", "Vh");
   ("rhoxc", "RhoXC"); ("totalpotential", "Vt"); ("vt", "Vt");
   ("baderrho", "RhoBader"); ("rhobader", "RhoBader")].

(** The names of the files with one quantity each *)
Definition grid_names_grid_nc : list (string * string) :=
  [("rho", "Rho"); ("rhoinit", "RhoInit"); ("vna", "Vna"); ("chlocal", "Chlocal");
   ("rhotot", "TotalCharge"); ("totalcharge", "TotalCharge");
   ("deltarho", "DeltaRho"); ("rhodelta", "DeltaRho");
   ("electrostaticpotential", "ElectrostaticPotential");
   ("vh", "ElectrostaticPotential"); ("rhoxc", "RhoXC");
   ("totalpotential", "TotalPotential"); ("vt", "TotalPotential");
   ("baderrho", "BaderCharge"); ("rhobader", "BaderCharge")].

(** [d.get(k)] on a dictionary written as a list of items *)
Definition dict_get (d : list (string * string)) (k : string) : option string :=
  snd <$> List.find (fun kv => String.eqb (fst kv) k) d.

Definition _r_grid_nc (fuel : nat) (name : string) : outcome (option Grid) :=
  let! f := companion W fuel ".nc" in
  if isfile (fs W) f then
    nc_read_grid f (dict_get grid_names_nc (Py.lower name))
  else Ret None.

Definition _r_grid_grid_nc (fuel : nat) (name : string) : outcome (option Grid) :=
  match dict_get grid_names_grid_nc (Py.lower name) with
  | None => Raise TypeError
  | Some n =>
      let f := _tofile (directory W) (n +:+ ".grid.nc") in
      if isfile (fs W) f then
        let! grid := gridnc_read_grid f in
        let! geom := snd (read_geometry W fuel true None true) in
        let! _ := grid_set_geometry grid geom in
        Ret None
      else Ret None
  end.

(** The methods [getattr] can find under the prefix [_r_grid_] *)
Definition grid_methods (fuel : nat) (name : string) :=
  [("nc", _r_grid_nc fuel name); ("grid_nc", _r_grid_grid_nc fuel name)].

Definition read_grid (fuel : nat) (name : string) (order : option (list string))
  : list string * outcome (option Grid) :=
  resolve (grid_methods fuel name) (default ["nc"; "grid.nc"] order).

End GridDef.

Section WriterDef.

(** [print(key, value)] for a string [value] *)
Definition print_str (key value : string) : string := key +:+ " " +:+ value.

Variable W : World.

(** [Sile.line_has_key(line, key, case=False)] of the base class, and the
    date that [datetime.today()] gives, already formatted. *)
Variable line_has_key : string -> string -> bool.
Variable today : string.

(** The file [set] rewrites: the one the lookup of the key ended in, or
    the instance's own file when the lookup raised. *)
Definition set_target (fuel : nat) (key : string) : outcome string :=
  if isfile (fs W) (file W) then
    match get W fuel (fresh (file W)) key None VNone false with
    | (st', Ret _) => Ret (h_name (fh st'))
    | (_, Raise _) => Ret (file W)
    | (_, Diverge) => Diverge
    end
  else Raise IOError.

(** The local function [write] of [set]: what it writes, unless it raises. *)
Definition set_write (key : string) (value : pyval (F W)) : outcome string :=
  match value with
  | VNone => Ret ""
  | VStr v => Ret (print_str key v +:+ (if Py.contains v nl then "" else nl))
  | _ => Raise NotImplementedError
  end.

(** The loop over the lines read from the file ([line] comes with its
    terminator): the text written so far, and how the loop ends. *)
Fixpoint set_loop (key : string) (value : pyval (F W)) (keep : bool)
    (do_write : bool) (lines : list string) : string * outcome unit :=
  match lines with
  | [] => ("", Ret tt)
  | line :: rest =>
      if line_has_key line (Py.lower key) && do_write then
        match set_write key value with
        | Ret new =>
            let old := if keep then "# Old value (" +:+ today +:+ ")" +:+ nl +:+ line
                       else "" in
            let '(text, r) := set_loop key value keep false rest in
            (new +:+ old +:+ text, r)
        | Raise e => ("", Raise e)
        | Diverge => ("", Diverge)
        end
      else
        let '(text, r) := set_loop key value keep do_write rest in
        (line +:+ text, r)
  end.

(** [set(key, value, keep)]: the file that is rewritten, its new content
    (what had been written when an exception cut the loop short), and the
    outcome. *)
Definition set (fuel : nat) (key : string) (value : pyval (F W)) (keep : bool)
  : outcome (string * string * outcome unit) :=
  let! top_file := set_target fuel key in
  match fs W !! top_file with
  | Some lines =>
      let '(text, r) := set_loop key value keep true (map (fun l => l +:+ nl) lines) in
      Ret (top_file, text, r)
  | None => Raise IOError
  end.

End WriterDef.

(** ** More names used in the statements *)

(** A line that is not empty and has no whitespace at either end *)
Definition tidy_line (x : string) : Prop := x <> "" /\ Py.strip x = x.

(** A value as the label store returns it: a scalar without surrounding
    whitespace and without a comment sign, a block of tidy lines. *)
Definition well_formed_value (v : raw) : Prop :=
  match v with
  | RStr s => Py.strip s = s /\ Py.has_char "#" s = false
  | RBlock l => Forall tidy_line l
  end.

(** The part of a list of methods' names that a run of [resolve] called *)
Definition called_prefix (called order : list string) : Prop :=
  exists rest, map Py.lower order = called ++ rest.

(** What a sequence of [fh.write] calls leaves in a file *)
Definition written (parts : list string) : string := fold_right String.append "" parts.

(** A list without repetitions whose entries are paths under [directory] *)
Definition distinct_paths (directory : string) (l : list string) : Prop :=
  NoDup l /\ Forall (fun p => exists f, p = _tofile directory f) l.

Module Cases.

(** A test for a key in a line that looks for it anywhere in the line,
    without regard to case. *)
Definition has_key (line key : string) : bool :=
  Py.contains (Py.lower line) (Py.lower key).

(** An include that is named twice, once by a redirected block. *)
Definition twice_included : gmap string (list string) :=
  <["./RUN.fdf" := ["%include other.fdf"; "%block Foo < other.fdf"; "Tail 1"]]>
  (<["./other.fdf" := ["Label 7"; "More 2"]]> ∅).

(** A block with two lines and a scalar with a comment. *)
Definition block_and_comment : gmap string (list string) :=
  <["./RUN.fdf" :=
      ["Label   7   # seven";
       "%block Foo";
       "  1 2 3  ";
       "";
       "  4 5 6";
       "%endblock Foo"]]> ∅.

(** A cell and three lines of atoms. *)
Definition three_atoms : gmap string (list string) :=
  <["./RUN.fdf" :=
      ["LatticeConstant 1.0 Ang";
       "%block LatticeVectors";
       " 2.0 0.0 0.0";
       " 0.0 2.0 0.0";
       " 0.0 0.0 2.0";
       "%endblock LatticeVectors";
       "AtomicCoordinatesFormat Ang";
       "NumberOfAtoms 2";
       "%block AtomicCoordinatesAndAtomicSpecies";
       " 1.0 0.0 3.0 1";
       " 2.0 0.0 3.0 1";
       " 3.0 0.0 3.0 1";
       "%endblock AtomicCoordinatesAndAtomicSpecies"]]> ∅.

(** Atoms without a cell. *)
Definition no_cell : gmap string (list string) :=
  <["./RUN.fdf" :=
      ["AtomicCoordinatesFormat Ang";
       "%block AtomicCoordinatesAndAtomicSpecies";
       " 1.0 0.0 3.0 1";
       "%endblock AtomicCoordinatesAndAtomicSpecies"]]> ∅.

(** Two species, and the same directory with the ion file of the first. *)
Definition two_species : gmap string (list string) :=
  <["./RUN.fdf" :=
      ["%block ChemicalSpeciesLabel";
       " 2 1 H";
       " 1 6 C";
       "%endblock ChemicalSpeciesLabel"]]> ∅.

Definition two_species_ion : gmap string (list string) :=
  <["./C.ion.nc" := []]> two_species.

(** A coordinate format that names no unit. *)
Definition unknown_format : gmap string (list string) :=
  <["./RUN.fdf" :=
      ["LatticeConstant 1.0 Ang";
       "%block LatticeVectors";
       " 2.0 0.0 0.0";
       " 0.0 2.0 0.0";
       " 0.0 0.0 2.0";
       "%endblock LatticeVectors";
       "AtomicCoordinatesFormat Cartesian";
       "%block AtomicCoordinatesAndAtomicSpecies";
       " 1.0 0.0 3.0 1";
       "%endblock AtomicCoordinatesAndAtomicSpecies"]]> ∅.

End Cases.

(** ** Steps that come to an end *)

(** An outcome that is a value or an exception, not an endless run *)
Definition settled {A : Type} (m : outcome A) : Prop := m <> Diverge.

(** The labels [read_hessian] looks up in the fdf file, those of
    [read_geometry] included *)
Definition hessian_labels : list string :=
  ["SystemLabel"; "NumberOfAtoms"; "MD.FCFirst"; "MD.FCLast"; "AtomicMass";
   "LatticeConstant"; "LatticeVectors"; "LatticeParameters";
   "AtomicCoordinatesFormat"; "AtomicCoordinatesOrigin";
   "AtomicCoordinatesAndAtomicSpecies"; "ChemicalSpeciesLabel"].

(** The lookups of [labels] in the instance's file come to an end with
    the fuel given. *)
Definition lookups_settled (W : World) (fuel : nat) (labels : list string) : Prop :=
  Forall (fun label =>
            settled (snd (_read_label (fs W) (directory W) (skip_line W) fuel
                            (fresh (file W)) label)))
         labels.

(** The unit tables, the companion readers and the kernels that
    [read_hessian] calls come to an end on every input. *)
Record kernels_settled (W : World) : Prop := mk_kernels_settled {
  ks_unit_group : forall u, settled (unit_group W u);
  ks_unit_default : forall g, settled (unit_default W g);
  ks_unit_convert : forall a b, settled (unit_convert W a b);
  ks_tocell : forall l, settled (tocell W l);
  ks_nc_nsc : forall p, settled (nc_read_supercell_nsc W p);
  ks_orbindx_nsc : forall p, settled (orbindx_read_supercell_nsc W p);
  ks_nc_basis : forall p, settled (nc_read_basis W p);
  ks_orbindx_basis : forall p, settled (orbindx_read_basis W p);
  ks_ionnc_basis : forall p, settled (ionnc_read_basis W p);
  ks_ionxml_basis : forall p, settled (ionxml_read_basis W p);
  ks_atom_of_none : settled (atom_of_none W);
  ks_fc_read : forall p na, settled (fc_read_force_constant W p na);
  ks_fc_correct : forall fc a b, settled (fc_correct W fc a b);
  ks_prepare : forall fc g, settled (hessian_prepare W fc g);
  ks_unit_cell : forall fc g a, settled (hessian_unit_cell W fc g a);
  ks_small_cell : forall g a s, settled (hessian_small_cell W g a s);
  ks_tiling : forall g a s, settled (hessian_tiling_matches W g a s);
  ks_beyond : forall A site, settled (beyond W A site)
}.

(** * Properties *)

(** ** The resolution pipeline *)

Section Resolution.

Context {V : Type}.
Variable methods : list (string * outcome (option V)).

Lemma find_method_name f m :
  List.find (fun m => String.eqb (fst m) (Py.lower f)) methods = Some m ->
  fst m = Py.lower f.
Proof.
  intros Hf. apply find_some in Hf as [_ Hf]. now apply String.eqb_eq in Hf.
Qed.

Lemma method_for_inv f r :
  method_for methods f = Some r ->
  List.find (fun m => String.eqb (fst m) (Py.lower f)) methods = Some (Py.lower f, r).
Proof.
  unfold method_for. intros Hm.
  destruct (List.find _ methods) as [[name r']|] eqn:Hf; simpl in Hm; [|discriminate].
  injection Hm as ->. apply find_method_name in Hf as Hn. simpl in Hn. now subst.
Qed.

(** Sources that answer [None] are passed over, one call each. *)
Lemma resolve_skip pre rest :
  Forall (fun g => method_for methods g = Some (Ret None)) pre ->
  resolve methods (pre ++ rest) =
  (map Py.lower pre ++ fst (resolve methods rest), snd (resolve methods rest)).
Proof.
  induction 1 as [|g pre Hg _ IH]; simpl.
  - now destruct (resolve methods rest).
  - rewrite (method_for_inv _ _ Hg), IH. reflexivity.
Qed.

(** A source that does not answer [None] ends the loop. *)
Lemma resolve_stop f r rest :
  method_for methods f = Some r -> r <> Ret None ->
  resolve methods (f :: rest) = ([Py.lower f], r).
Proof.
  intros Hm Hr. simpl. rewrite (method_for_inv _ _ Hm).
  destruct r as [[v|]|e|]; try reflexivity. now destruct Hr.
Qed.

Lemma resolve_all_none order :
  Forall (fun g => method_for methods g = Some (Ret None)) order ->
  resolve methods order = (map Py.lower order, Ret None).
Proof.
  intros H. rewrite <- (app_nil_r order) at 1. rewrite (resolve_skip _ _ H).
  simpl. now rewrite app_nil_r.
Qed.

End Resolution.

Section Pipeline.

Variable W : World.

Lemma from_companion_absent {V} fuel suffix (reader : string -> outcome (option V)) p :
  companion W fuel suffix = Ret p -> isfile (fs W) p = false ->
  from_companion W fuel suffix reader = Ret None.
Proof. intros Hc Hp. unfold from_companion. rewrite Hc. simpl. now rewrite Hp. Qed.

Lemma from_companion_reconciled_absent fuel suffix reader b p :
  companion W fuel suffix = Ret p -> isfile (fs W) p = false ->
  from_companion_reconciled W fuel suffix reader b = Ret None.
Proof. intros Hc Hp. unfold from_companion_reconciled. rewrite Hc. simpl. now rewrite Hp. Qed.

(** C1.  Every entry point runs [resolve] on its own table of methods.  When
    the sources listed before [f] all answer [None] and [f] answers
    something else, the result is the answer of [f], the methods called are
    those of the sources up to [f], and nothing listed after [f] matters.
    In particular [read_hamiltonian(order=['TSHS'])] answers [None] when
    the file <SystemLabel>.TSHS does not exist, having called the TSHS
    method and no other. *)
Theorem resolution_order {V : Type} (methods : list (string * outcome (option V)))
    (pre post : list string) (f : string) (r : outcome (option V)) :
  Forall (fun g => method_for methods g = Some (Ret None)) pre ->
  method_for methods f = Some r ->
  r <> Ret None ->
  resolve methods (pre ++ f :: post) = (map Py.lower (pre ++ [f]), r)
  /\ (forall fuel order,
        read_supercell W fuel false (Some order) = resolve (supercell_methods W fuel) order
        /\ read_geometry W fuel false (Some order) true
           = resolve (geometry_methods W fuel true) order
        /\ read_basis W fuel (Some order) = resolve (basis_methods W fuel) order
        /\ read_force W fuel (Some order) = resolve (force_methods W fuel) order
        /\ read_density_matrix W fuel (Some order) false
           = resolve (density_matrix_methods W fuel false) order
        /\ read_hamiltonian W fuel (Some order) = resolve (hamiltonian_methods W fuel) order)
  /\ (forall fuel p,
        companion W fuel ".TSHS" = Ret p -> isfile (fs W) p = false ->
        read_hamiltonian W fuel (Some ["TSHS"]) = (["tshs"], Ret None)).
Proof.
  intros Hpre Hf Hr. split; [|split].
  - rewrite (resolve_skip _ _ _ Hpre), (resolve_stop _ _ _ _ Hf Hr).
    simpl. now rewrite map_app.
  - intros fuel order. repeat split.
  - intros fuel p Hc Hp. unfold read_hamiltonian. simpl.
    unfold _r_hamiltonian_tshs.
    now rewrite (from_companion_reconciled_absent _ _ _ _ _ Hc Hp).
Qed.

End Pipeline.

(** ** The typed accessor *)

Section Accessor.

Variable W : World.

Lemma type_p_inv raw :
  _type_str raw = T_p ->
  exists v0 v1, Py.split raw = [v0; v1] /\ Py.float_ok v0 = true.
Proof.
  unfold _type_str. destruct (Py.split raw) as [|v0 [|v1 [|v2 l]]]; try discriminate.
  - destruct (Py.str_in _ _); [discriminate|].
    destruct (Py.float_ok _); [|discriminate].
    destruct (Py.has_char _ _); discriminate.
  - destruct (Py.float_ok v0) eqn:Hf; [|discriminate]. intros _. now exists v0, v1.
Qed.

(** C5.  A value [raw] classified Physical, made of the number [v0] and
    the unit name [v1]: with [with_unit] the pair of the number and [v1]
    comes back unconverted; with a requested unit [u] of another group
    than [v1] the call raises; with a unit [u] of the same group the
    number is multiplied by the factor from [v1] to [u]; with no unit it
    is multiplied by the factor from [v1] to the default unit of the group
    of [v1]. *)
Theorem get_physical (fuel : nat) (st st' : state) (label : string)
    (d : pyval (F W)) (raw v0 v1 : string) :
  _read_label (fs W) (directory W) (skip_line W) fuel st label
    = (st', Ret (Some (RStr raw))) ->
  _type (Some (RStr raw)) = Some T_p ->
  Py.split raw = [v0; v1] ->
  (forall unit, get W fuel st label unit d true
     = (st', Ret (VPair (float_of_string W v0) v1)))
  /\ (forall u g1 g2,
        unit_group W v1 = Ret g1 -> unit_group W u = Ret g2 -> g1 <> g2 ->
        get W fuel st label (Some u) d false = (st', Raise ValueError))
  /\ (forall u g c,
        unit_group W v1 = Ret g -> unit_group W u = Ret g ->
        unit_convert W v1 u = Ret c ->
        get W fuel st label (Some u) d false
          = (st', Ret (VFloat (fmul W (float_of_string W v0) c))))
  /\ (forall g u c,
        unit_group W v1 = Ret g -> unit_default W g = Ret u ->
        unit_convert W v1 u = Ret c ->
        get W fuel st label None d false
          = (st', Ret (VFloat (fmul W (float_of_string W v0) c)))).
Proof.
  intros Hr Ht Hs. simpl in Ht. injection Ht as Ht.
  destruct (type_p_inv _ Ht) as (w0 & w1 & Hs' & Hf).
  rewrite Hs in Hs'. injection Hs' as <- <-.
  assert (Hpf : py_float W v0 = Ret (float_of_string W v0))
    by (unfold py_float; now rewrite Hf).
  unfold get. rewrite Hr. simpl. rewrite Ht, Hs. simpl. rewrite Hpf. simpl.
  repeat split.
  - intros u g1 g2 H1 H2 Hne. rewrite H1. simpl. rewrite H2. simpl.
    destruct (String.eqb g1 g2) eqn:He; [|reflexivity].
    apply String.eqb_eq in He. contradiction.
  - intros u g c H1 H2 Hc. rewrite H1. simpl. rewrite H2. simpl.
    rewrite String.eqb_refl. simpl. now rewrite Hc.
  - intros g u c H1 H2 Hc. rewrite H1. simpl. rewrite H2. simpl. now rewrite Hc.
Qed.

End Accessor.

(** ** The classifier *)

Section Characters.

Ltac by_cases_on c := destruct c as [[] [] [] [] [] [] [] []]; vm_compute; reflexivity.

Lemma is_space_lower c : Py.is_space (Py.lower_char c) = Py.is_space c.
Proof. by_cases_on c. Qed.

Lemma lower_char_idem c : Py.lower_char (Py.lower_char c) = Py.lower_char c.
Proof. by_cases_on c. Qed.

Lemma fstep_lower q c : Py.fstep q (Py.lower_char c) = Py.fstep q c.
Proof. destruct q; by_cases_on c. Qed.

Lemma eqb_dot_lower c : Ascii.eqb (Py.lower_char c) "." = Ascii.eqb c ".".
Proof. by_cases_on c. Qed.

Lemma eqb_plus_lower c : Ascii.eqb (Py.lower_char c) "+" = Ascii.eqb c "+".
Proof. by_cases_on c. Qed.

Lemma eqb_minus_lower c : Ascii.eqb (Py.lower_char c) "-" = Ascii.eqb c "-".
Proof. by_cases_on c. Qed.

Lemma dot_not_space c : Ascii.eqb c "." = true -> Py.is_space c = false.
Proof. intros H. apply Ascii.eqb_eq in H. now subst. Qed.

End Characters.

Section Strings.

Lemma lower_idem s : Py.lower (Py.lower s) = Py.lower s.
Proof. induction s as [|c s IH]; simpl; [reflexivity|]. now rewrite lower_char_idem, IH. Qed.

Lemma lstrip_lower s : Py.lstrip (Py.lower s) = Py.lower (Py.lstrip s).
Proof.
  induction s as [|c s IH]; simpl; [reflexivity|].
  rewrite is_space_lower. now destruct (Py.is_space c).
Qed.

Lemma rstrip_lower s : Py.rstrip (Py.lower s) = Py.lower (Py.rstrip s).
Proof.
  induction s as [|c s IH]; simpl; [reflexivity|].
  rewrite IH, is_space_lower.
  destruct (Py.rstrip s); simpl; [now destruct (Py.is_space c)|reflexivity].
Qed.

Lemma strip_lower s : Py.strip (Py.lower s) = Py.lower (Py.strip s).
Proof. unfold Py.strip. now rewrite lstrip_lower, rstrip_lower. Qed.

Lemma drop_sign_lower s : Py.drop_sign (Py.lower s) = Py.lower (Py.drop_sign s).
Proof.
  destruct s as [|c s]; [reflexivity|].
  destruct c as [[] [] [] [] [] [] [] []]; reflexivity.
Qed.

Lemma frun_lower s : forall q, Py.frun q (Py.lower s) = Py.frun q s.
Proof.
  induction s as [|c s IH]; intros q; simpl; [reflexivity|].
  rewrite fstep_lower. destruct (Py.fstep q c); [apply IH|reflexivity].
Qed.

(** [float] does not look at the letter case. *)
Lemma float_ok_lower s : Py.float_ok (Py.lower s) = Py.float_ok s.
Proof.
  unfold Py.float_ok, Py.is_infnan.
  now rewrite strip_lower, drop_sign_lower, frun_lower, lower_idem.
Qed.

Lemma has_dot_lower s : Py.has_char "." (Py.lower s) = Py.has_char "." s.
Proof. induction s as [|c s IH]; simpl; [reflexivity|]. now rewrite eqb_dot_lower, IH. Qed.

Lemma str_in_inv x l : Py.str_in x l = true -> In x l.
Proof.
  unfold Py.str_in. intros H. apply existsb_exists in H as (y & Hy & He).
  apply String.eqb_eq in He. now subst.
Qed.

(** No boolean literal is a number. *)
Lemma logical_not_float s :
  Py.str_in (Py.lower s) _LOGICAL = true -> Py.float_ok s = false.
Proof.
  intros H. rewrite <- float_ok_lower. apply str_in_inv in H. simpl in H.
  repeat (destruct H as [<-|H]; [reflexivity|]). destruct H.
Qed.

Lemma has_dot_lstrip s : Py.has_char "." (Py.lstrip s) = Py.has_char "." s.
Proof.
  induction s as [|c s IH]; simpl; [reflexivity|].
  destruct (Py.is_space c) eqn:Hs; [|reflexivity].
  rewrite IH. destruct (Ascii.eqb c ".") eqn:Hd; [|reflexivity].
  apply dot_not_space in Hd. congruence.
Qed.

Lemma has_dot_rstrip s : Py.has_char "." (Py.rstrip s) = Py.has_char "." s.
Proof.
  induction s as [|c s IH]; simpl; [reflexivity|].
  destruct (Py.rstrip s) eqn:Hr; simpl in *.
  - rewrite <- IH. destruct (Py.is_space c) eqn:Hs; simpl.
    + destruct (Ascii.eqb c ".") eqn:Hd; [|reflexivity].
      apply dot_not_space in Hd. congruence.
    + now rewrite orb_false_r.
  - now rewrite IH.
Qed.

Lemma has_dot_strip s : Py.has_char "." (Py.strip s) = Py.has_char "." s.
Proof. unfold Py.strip. now rewrite has_dot_rstrip, has_dot_lstrip. Qed.

(** The digits of an integer literal are a number for [float], without a
    decimal point. *)
Lemma int_digits_frun s : forall b acc z q,
  Py.int_digits b acc s = Some z ->
  (if b then q = Py.FInt else q = Py.FStart \/ q = Py.FIntU) ->
  Py.frun q s = true /\ Py.has_char "." s = false.
Proof.
  induction s as [|c s IH]; intros b acc z q Hd Hq; simpl in *.
  - destruct b; [subst; now split|discriminate].
  - unfold Py.fstep, Py.is_digit. destruct (Py.digit_val c) as [d|] eqn:Hc.
    + assert (Hdot : Ascii.eqb c "." = false).
      { destruct (Ascii.eqb c ".") eqn:E; [|reflexivity].
        apply Ascii.eqb_eq in E. subst. discriminate. }
      rewrite Hdot. simpl.
      destruct (IH true _ _ Py.FInt Hd eq_refl) as [Hr Hn].
      destruct b; [subst; now split|].
      destruct Hq as [-> | ->]; now split.
    + destruct (Ascii.eqb c "_") eqn:Hu; simpl in Hd; [|discriminate].
      destruct b; simpl in Hd; [|discriminate]. subst q.
      apply Ascii.eqb_eq in Hu. subst c. simpl.
      destruct (IH false _ _ Py.FIntU Hd (or_intror eq_refl)) as [Hr Hn].
      now split.
Qed.

(** What [int] accepts, [float] accepts, and it has no decimal point. *)
Lemma int_ok_float_ok s :
  Py.int_ok s = true -> Py.float_ok s = true /\ Py.has_char "." s = false.
Proof.
  unfold Py.int_ok, Py.int_of_string, Py.float_ok.
  rewrite <- (has_dot_strip s).
  destruct (Py.strip s) as [|c r] eqn:Hs; [discriminate|].
  intros H.
  assert (Hcases :
    (c = "+"%char \/ c = "-"%char) /\ (exists z, Py.int_digits false 0 r = Some z)
    \/ (Py.drop_sign (String c r) = String c r
        /\ exists z, Py.int_digits false 0 (String c r) = Some z)).
  { destruct c as [[] [] [] [] [] [] [] []];
      try (right; split; [reflexivity|];
           match type of H with
           | match ?o with _ => _ end = true => destruct o as [z|]; [now exists z|discriminate]
           end).
    - left. split; [now left|].
      destruct (Py.int_digits false 0 r) as [z|]; [now exists z|discriminate].
    - left. split; [now right|].
      destruct (Py.int_digits false 0 r) as [z|]; [now exists z|discriminate]. }
  destruct Hcases as [[Hc [z Hz]] | [Hd [z Hz]]].
  - destruct (int_digits_frun _ _ _ _ Py.FStart Hz (or_introl eq_refl)) as [Hr Hn].
    destruct Hc as [-> | ->]; simpl; rewrite Hr, Hn; split; auto using orb_true_r.
  - rewrite Hd.
    destruct (int_digits_frun _ _ _ _ Py.FStart Hz (or_introl eq_refl)) as [Hr Hn].
    rewrite Hr, Hn. split; auto using orb_true_r.
Qed.

End Strings.

(** ** Label matching *)

Section Labels.

Lemma tolabel_cons c s :
  tolabel (String c s) =
  if is_sep c then tolabel s else String (Py.lower_char c) (tolabel s).
Proof.
  unfold tolabel. simpl.
  destruct c as [[] [] [] [] [] [] [] []]; reflexivity.
Qed.

Lemma label_equiv_tolabel a b : label_equiv a b -> tolabel a = tolabel b.
Proof.
  induction 1 as [|c1 c2 s1 s2 Hc _ IH|c s1 s2 Hc _ IH|c s1 s2 Hc _ IH].
  - reflexivity.
  - rewrite !tolabel_cons, IH, Hc.
    replace (is_sep c1) with (is_sep c2); [reflexivity|].
    clear -Hc. revert Hc.
    destruct c1 as [[] [] [] [] [] [] [] []];
      destruct c2 as [[] [] [] [] [] [] [] []]; intros Hc;
      solve [reflexivity | discriminate Hc].
  - now rewrite tolabel_cons, Hc.
  - now rewrite tolabel_cons, Hc.
Qed.

Variable fs : gmap string (list string).
Variable directory : string.
Variable skip_line : string -> bool.

(** The scan depends on the lookup in other files only through its
    results. *)
Lemma process_line_ext labell (look1 look2 : string -> outcome (option raw)) :
  (forall p, look1 p = look2 p) ->
  forall fuel st line,
    process_line fs directory skip_line labell look1 fuel st line
    = process_line fs directory skip_line labell look2 fuel st line.
Proof.
  intros Hl fuel st line. unfold process_line.
  destruct (Py.split line) as [|t ts]; [reflexivity|].
  destruct (Py.str_in "<" _); [|reflexivity].
  destruct (is_block_of _ _); [reflexivity|].
  destruct (Py.str_in labell _); [|reflexivity].
  destruct (item _ _); simpl; try reflexivity. now rewrite Hl.
Qed.

Lemma scan_ext labell (look1 look2 : string -> outcome (option raw)) :
  (forall p, look1 p = look2 p) ->
  forall fuel st,
    scan fs directory skip_line labell look1 fuel st
    = scan fs directory skip_line labell look2 fuel st.
Proof.
  intros Hl fuel. induction fuel as [|k IH]; intros st; simpl; [reflexivity|].
  destruct (readline fs skip_line st) as [st1 l0].
  destruct (if (Py.len _ =? 0)%nat then _ else _) as [st2 go_on].
  destruct go_on; [|reflexivity].
  rewrite (process_line_ext _ _ _ Hl).
  destruct (process_line _ _ _ _ _ _ _ _) as [st3 [[v|]|e|]]; try reflexivity.
  apply IH.
Qed.

Lemma read_label_body_ext labell (look1 look2 : string -> outcome (option raw)) :
  (forall p, look1 p = look2 p) ->
  forall fuel st,
    read_label_body fs directory skip_line labell look1 fuel st
    = read_label_body fs directory skip_line labell look2 fuel st.
Proof.
  intros Hl fuel st. unfold read_label_body.
  destruct (readline fs skip_line _) as [st1 l0].
  destruct (Py.len _ =? 0)%nat; [reflexivity|].
  rewrite (process_line_ext _ _ _ Hl).
  destruct (process_line _ _ _ _ _ _ _ _) as [st3 [[v|]|e|]]; try reflexivity.
  now apply scan_ext.
Qed.

Lemma read_label_in_tolabel l1 l2 :
  tolabel l1 = tolabel l2 ->
  forall fuel path,
    read_label_in fs directory skip_line fuel l1 path
    = read_label_in fs directory skip_line fuel l2 path.
Proof.
  intros Ht fuel. induction fuel as [|k IH]; intros path; simpl; [reflexivity|].
  destruct (isfile fs path); [|reflexivity].
  rewrite Ht. f_equal. now apply read_label_body_ext.
Qed.

Lemma read_label_tolabel l1 l2 :
  tolabel l1 = tolabel l2 ->
  forall fuel st,
    _read_label fs directory skip_line fuel st l1
    = _read_label fs directory skip_line fuel st l2.
Proof.
  intros Ht fuel st. unfold _read_label. rewrite Ht.
  apply read_label_body_ext. now apply read_label_in_tolabel.
Qed.

End Labels.

(** C7.  Two labels that differ only by letter case and by separators
    ['_'], ['-'], ['.'] give the same lookup in the same document and from
    the same reading state: the same value, scalar or block, the same
    outcome otherwise, and the same typed value through [get]. *)
Theorem label_matching_invariant (W : World) (l1 l2 : string) :
  label_equiv l1 l2 ->
  forall fuel st,
    _read_label (fs W) (directory W) (skip_line W) fuel st l1
    = _read_label (fs W) (directory W) (skip_line W) fuel st l2
    /\ forall unit default with_unit,
         get W fuel st l1 unit default with_unit
         = get W fuel st l2 unit default with_unit.
Proof.
  intros He fuel st. apply label_equiv_tolabel in He.
  pose proof (read_label_tolabel (fs W) (directory W) (skip_line W) _ _ He fuel st) as Hr.
  split; [exact Hr|]. intros unit default with_unit. unfold get. now rewrite Hr.
Qed.

(** ** The stack of open files *)

Section Cursor.

Variable fs : gmap string (list string).
Variable directory : string.
Variable skip_line : string -> bool.

Lemma last_cons {A} (rest : list A) : forall h cur,
  List.last (h :: rest) cur = List.last rest h.
Proof.
  induction rest as [|a r IH]; intros h cur; [reflexivity|].
  change (List.last (h :: a :: r) cur) with (List.last (a :: r) cur).
  rewrite !IH. reflexivity.
Qed.

Lemma pop_loop_spec stack : forall cur cl wa n,
  (length stack < n)%nat ->
  pop_loop n (State cur stack cl wa)
  = State (List.last stack cur) [] (rev (removelast (cur :: stack)) ++ cl) wa.
Proof.
  induction stack as [|h rest IH]; intros cur cl wa n Hn.
  - destruct n; [simpl in Hn; lia|]. reflexivity.
  - destruct n; [simpl in Hn; lia|]. simpl in Hn.
    change (pop_loop (S n) (State cur (h :: rest) cl wa))
      with (pop_loop n (State h rest (cur :: cl) wa)).
    rewrite IH by lia.
    f_equal.
    + now rewrite last_cons.
    + change (removelast (cur :: h :: rest)) with (cur :: removelast (h :: rest)).
      simpl rev. now rewrite <- app_assoc.
Qed.

Lemma seek_spec st :
  _seek st = State (Handle (h_name (bottom st)) 0) []
                   (rev (removelast (fh st :: parent_fh st)) ++ closed st) (warned st).
Proof.
  unfold _seek, bottom. destruct st as [cur stack cl wa]. cbn [parent_fh].
  rewrite pop_loop_spec by lia. reflexivity.
Qed.


Lemma readline_cursor a b :
  same_cursor a b ->
  snd (readline fs skip_line a) = snd (readline fs skip_line b)
  /\ same_cursor (fst (readline fs skip_line a)) (fst (readline fs skip_line b)).
Proof.
  intros [Hf Hp]. unfold readline. rewrite Hf.
  destruct (fs !! _); [|now repeat split].
  destruct (next_line _ _ _). now repeat split.
Qed.

Lemma popfile_cursor a b :
  same_cursor a b ->
  snd (_popfile a) = snd (_popfile b)
  /\ same_cursor (fst (_popfile a)) (fst (_popfile b)).
Proof.
  intros [Hf Hp]. destruct a as [fa pa ca wa], b as [fb pb cb wb].
  simpl in Hf, Hp. subst. unfold _popfile. simpl.
  destruct pb; now repeat split.
Qed.

Lemma pushfile_cursor a b f :
  same_cursor a b ->
  same_cursor (_pushfile fs directory a f) (_pushfile fs directory b f).
Proof.
  intros [Hf Hp]. unfold _pushfile.
  destruct (isfile _ _); split; simpl; congruence.
Qed.

Lemma block_loop_cursor fuel : forall a b l acc,
  same_cursor a b ->
  snd (block_loop fs skip_line fuel a l acc) = snd (block_loop fs skip_line fuel b l acc)
  /\ same_cursor (fst (block_loop fs skip_line fuel a l acc))
                 (fst (block_loop fs skip_line fuel b l acc)).
Proof.
  induction fuel as [|k IH]; intros a b l acc Hs; simpl; [now split|].
  destruct (Py.startswith _ _); [now split|].
  destruct (readline_cursor _ _ Hs) as [Hl Hs'].
  destruct (readline fs skip_line a) as [a' la], (readline fs skip_line b) as [b' lb].
  simpl in Hl, Hs'. subst lb. now apply IH.
Qed.

Lemma process_line_cursor labell look fuel a b line :
  same_cursor a b ->
  snd (process_line fs directory skip_line labell look fuel a line)
  = snd (process_line fs directory skip_line labell look fuel b line)
  /\ same_cursor (fst (process_line fs directory skip_line labell look fuel a line))
                 (fst (process_line fs directory skip_line labell look fuel b line)).
Proof.
  intros Hs. unfold process_line.
  destruct (Py.split line) as [|t ts]; [now split|].
  destruct (Py.str_in "<" _).
  { destruct (is_block_of _ _); [now split|].
    destruct (Py.str_in labell _); now split. }
  destruct (String.eqb _ labell); [now split|].
  destruct (String.eqb _ "%block").
  { destruct (item _ 1) as [l1| |]; try now split.
    destruct (String.eqb l1 labell); [|now split].
    unfold read_block.
    destruct (readline_cursor _ _ Hs) as [Hl Hs'].
    destruct (readline fs skip_line a) as [a' la], (readline fs skip_line b) as [b' lb].
    simpl in Hl, Hs'. subst lb.
    destruct (block_loop_cursor fuel a' b' (Py.strip la) [] Hs') as [Ho Hc].
    destruct (block_loop fs skip_line fuel a' _ _) as [a2 oa],
             (block_loop fs skip_line fuel b' _ _) as [b2 ob].
    simpl in Ho, Hc. subst ob. destruct oa; now split. }
  destruct (String.eqb _ "%include"); [|now split].
  destruct (item _ 1); try now split.
  split; [reflexivity|]. now apply pushfile_cursor.
Qed.

Lemma scan_cursor labell look fuel : forall a b,
  same_cursor a b ->
  snd (scan fs directory skip_line labell look fuel a)
  = snd (scan fs directory skip_line labell look fuel b)
  /\ same_cursor (fst (scan fs directory skip_line labell look fuel a))
                 (fst (scan fs directory skip_line labell look fuel b)).
Proof.
  induction fuel as [|k IH]; intros a b Hs; simpl; [now split|].
  destruct (readline_cursor _ _ Hs) as [Hl Hs1].
  destruct (readline fs skip_line a) as [a1 la], (readline fs skip_line b) as [b1 lb].
  simpl in Hl, Hs1. subst lb.
  assert (Hgo :
    snd (if (Py.len (Py.before_char "#" la) =? 0)%nat then _popfile a1 else (a1, true))
    = snd (if (Py.len (Py.before_char "#" la) =? 0)%nat then _popfile b1 else (b1, true))
    /\ same_cursor
         (fst (if (Py.len (Py.before_char "#" la) =? 0)%nat then _popfile a1 else (a1, true)))
         (fst (if (Py.len (Py.before_char "#" la) =? 0)%nat then _popfile b1 else (b1, true)))).
  { destruct (Py.len _ =? 0)%nat; [now apply popfile_cursor|now split]. }
  destruct Hgo as [Hg Hs2].
  destruct (if (Py.len _ =? 0)%nat then _popfile a1 else _) as [a2 ga].
  destruct (if (Py.len _ =? 0)%nat then _popfile b1 else _) as [b2 gb].
  simpl in Hg, Hs2. subst gb. destruct ga; [|now split].
  destruct (process_line_cursor labell look k a2 b2 (Py.before_char "#" la) Hs2) as [Ho Hs3].
  destruct (process_line _ _ _ _ _ _ a2 _) as [a3 oa].
  destruct (process_line _ _ _ _ _ _ b2 _) as [b3 ob].
  simpl in Ho, Hs3. subst ob.
  destruct oa as [[v|]|e|]; try now split. now apply IH.
Qed.

Lemma seek_cursor a b :
  h_name (bottom a) = h_name (bottom b) -> same_cursor (_seek a) (_seek b).
Proof. intros H. rewrite !seek_spec, H. now split. Qed.

Lemma read_label_body_cursor labell look fuel a b :
  h_name (bottom a) = h_name (bottom b) ->
  snd (read_label_body fs directory skip_line labell look fuel a)
  = snd (read_label_body fs directory skip_line labell look fuel b)
  /\ same_cursor (fst (read_label_body fs directory skip_line labell look fuel a))
                 (fst (read_label_body fs directory skip_line labell look fuel b)).
Proof.
  intros Hb. unfold read_label_body.
  destruct (readline_cursor _ _ (seek_cursor _ _ Hb)) as [Hl Hs1].
  destruct (readline fs skip_line (_seek a)) as [a1 la].
  destruct (readline fs skip_line (_seek b)) as [b1 lb].
  simpl in Hl, Hs1. subst lb.
  destruct (Py.len _ =? 0)%nat; [now split|].
  destruct (process_line_cursor labell look fuel a1 b1 (Py.before_char "#" la) Hs1) as [Ho Hs2].
  destruct (process_line _ _ _ _ _ _ a1 _) as [a2 oa].
  destruct (process_line _ _ _ _ _ _ b1 _) as [b2 ob].
  simpl in Ho, Hs2. subst ob.
  destruct oa as [[v|]|e|]; try now split. now apply scan_cursor.
Qed.




End Cursor.


(** ** The body of a block *)

Section BlockBody.

Variable fs : gmap string (list string).
Variable directory : string.
Variable skip_line : string -> bool.


(** Without a closer, what [next_line] delivers does not end the block,
    and no closer is left after it. *)
Lemma next_line_no_closer rest : forall pos,
  existsb (is_closer skip_line) rest = false ->
  exists k,
    snd (next_line skip_line rest pos) = (pos + k)%nat
    /\ closes_block (fst (next_line skip_line rest pos)) = false
    /\ existsb (is_closer skip_line) (drop k rest) = false.
Proof.
  induction rest as [|x r IH]; intros pos He; simpl in *.
  - exists 0%nat. repeat split. lia.
  - apply orb_false_iff in He as [Hx Hr]. unfold is_closer in Hx.
    destruct (skip_line (x +:+ nl)) eqn:Hs; simpl in Hx.
    + destruct (IH (S pos) Hr) as (k & Hp & Hc & Hd).
      exists (S k). rewrite Hp. repeat split; [lia|exact Hc|exact Hd].
    + exists 1%nat. simpl. rewrite drop_0. repeat split; [lia|exact Hx|exact Hr].
Qed.

Lemma unread_advance name pos k stack cl wa lines :
  fs !! name = Some lines ->
  unread fs (State (Handle name (pos + k)) stack cl wa)
  = drop k (unread fs (State (Handle name pos) stack cl wa)).
Proof.
  intros Hf. unfold unread. simpl. rewrite Hf, drop_drop. reflexivity.
Qed.


Lemma readline_no_closer st :
  has_closer fs skip_line st = false ->
  closes_block (snd (readline fs skip_line st)) = false
  /\ has_closer fs skip_line (fst (readline fs skip_line st)) = false.
Proof.
  destruct st as [[name pos] stack cl wa]. unfold has_closer, readline.
  intros He. cbn [fh parent_fh closed warned h_name h_pos] in *.
  destruct (fs !! name) as [lines|] eqn:Hf.
  - assert (Hu : unread fs (State (Handle name pos) stack cl wa) = drop pos lines)
      by (unfold unread; simpl; now rewrite Hf).
    rewrite Hu in He.
    destruct (next_line_no_closer _ pos He) as (k & Hp & Hc & Hd).
    destruct (next_line skip_line (drop pos lines) pos) as [l p]. simpl in *. subst p.
    split; [exact Hc|].
    now rewrite (unread_advance _ _ _ _ _ _ _ Hf), Hu.
  - simpl. split; [reflexivity|exact He].
Qed.


(** Without one it uses whatever fuel it is given. *)
Lemma block_loop_diverges fuel : forall st l acc,
  Py.startswith (tolabel l) "%endblock" = false ->
  has_closer fs skip_line st = false ->
  snd (block_loop fs skip_line fuel st l acc) = Diverge.
Proof.
  induction fuel as [|k IH]; intros st l acc Ht Hc; simpl; [reflexivity|].
  rewrite Ht. destruct (readline_no_closer _ Hc) as [Hl Hc1].
  destruct (readline fs skip_line st) as [st1 l1]. now apply IH.
Qed.


Lemma read_block_diverges st fuel :
  has_closer fs skip_line st = false ->
  snd (read_block fs skip_line fuel st) = Diverge.
Proof.
  intros Hc. unfold read_block. destruct (readline_no_closer _ Hc) as [Hl Hc1].
  destruct (readline fs skip_line st) as [st1 l1]. now apply block_loop_diverges.
Qed.

(** On a line that opens the block looked for, [process_line] is the scan
    of the body. *)
Lemma process_line_opener labell look fuel st line :
  opens_block labell line = true ->
  process_line fs directory skip_line labell look fuel st line
  = match read_block fs skip_line fuel st with
    | (st', Ret lines) => (st', Ret (Some (RBlock lines)))
    | (st', Raise e) => (st', Raise e)
    | (st', Diverge) => (st', Diverge)
    end.
Proof.
  unfold opens_block, process_line. intros Ho.
  apply andb_true_iff in Ho as [Ho Hb]. apply andb_true_iff in Ho as [Hp Hl].
  apply negb_true_iff in Hp, Hl.
  destruct (Py.split line) as [|t ts]; [discriminate|].
  rewrite Hp, Hl. unfold is_block_of in Hb.
  destruct (map tolabel (t :: ts)) as [|a [|b r]] eqn:Hm; try discriminate.
  apply andb_true_iff in Hb as [Ha Hb]. simpl hd. rewrite Ha.
  unfold item. simpl. now rewrite Hb.
Qed.

(** A scan whose next line opens the block looked for, with no closer
    after it, never returns. *)
Lemma scan_opener_diverges labell look k st st1 l0 :
  readline fs skip_line st = (st1, l0) ->
  (Py.len (Py.before_char "#" l0) =? 0)%nat = false ->
  opens_block labell (Py.before_char "#" l0) = true ->
  has_closer fs skip_line st1 = false ->
  snd (scan fs directory skip_line labell look (S k) st) = Diverge.
Proof.
  intros Hr Hl Ho Hc. simpl. rewrite Hr, Hl, (process_line_opener _ _ _ _ _ Ho).
  pose proof (read_block_diverges st1 k Hc) as Hd.
  destruct (read_block fs skip_line k st1) as [s [o|e|]]; simpl in Hd; try discriminate.
  reflexivity.
Qed.

(** The first line of a lookup, when it is not the one looked for. *)
Lemma read_label_body_pass labell look fuel st st1 l0 st2 :
  readline fs skip_line (_seek st) = (st1, l0) ->
  (Py.len (Py.before_char "#" l0) =? 0)%nat = false ->
  process_line fs directory skip_line labell look fuel st1 (Py.before_char "#" l0)
    = (st2, Ret None) ->
  read_label_body fs directory skip_line labell look fuel st
  = scan fs directory skip_line labell look fuel st2.
Proof. intros Hr Hl Hp. unfold read_label_body. now rewrite Hr, Hl, Hp. Qed.


End BlockBody.

(** The lookup of a block that is never closed uses all the fuel it gets,
    however much that is. *)
Lemma unclosed_block_loops (fuel : nat) :
  snd (_read_label Examples.unclosed_block "." Demo.starts_with_comment fuel
         (fresh "./RUN.fdf") "Foo") = Diverge.
Proof.
  destruct fuel as [|k]; [vm_compute; reflexivity|].
  unfold _read_label.
  rewrite (read_label_body_pass Examples.unclosed_block "." Demo.starts_with_comment _ _ _ _
             (State (Handle "./RUN.fdf" 1) [] [] []) ("Other 1" +:+ nl)
             (State (Handle "./RUN.fdf" 1) [] [] [])).
  - apply (scan_opener_diverges Examples.unclosed_block "." Demo.starts_with_comment _ _ _ _
             (State (Handle "./RUN.fdf" 2) [] [] []) ("%block Foo" +:+ nl));
      vm_compute; reflexivity.
  - vm_compute. reflexivity.
  - vm_compute. reflexivity.
  - vm_compute. reflexivity.
Qed.


(** ** Fractional coordinates *)

Section Fractional.

Variable W : World.

Lemma coordinate_format_frac fuel lc s :
  coordinate_format W fuel lc = Ret (s, true) -> s = Some (VFloat (f_one W)).
Proof.
  unfold coordinate_format.
  destruct (_ || _); [discriminate|].
  destruct (_ || _); [discriminate|].
  destruct (Py.contains lc "scaledcartesian").
  - destruct (get_value _ _ _ _ _ _); discriminate.
  - destruct (_ || _); [|discriminate]. now intros [= <-].
Qed.

Hypothesis fmul_one : forall x, fmul W x (f_one W) = x.
Hypothesis fadd_zero : forall x, fadd W x (f_zero W) = x.

Lemma vscale_one v : vscale W (f_one W) v = v.
Proof. destruct v as [[a b] c]. simpl. now rewrite !fmul_one. Qed.

Lemma vadd_zero v : vadd W v (f_zero W, f_zero W, f_zero W) = v.
Proof. destruct v as [[a b] c]. simpl. now rewrite !fadd_zero. Qed.

Lemma map_fmul_one xs : map (fun x => fmul W x (f_one W)) xs = xs.
Proof. induction xs as [|x xs IH]; simpl; [reflexivity|]. now rewrite fmul_one, IH. Qed.

(** C3, as amended.  Arithmetic in which [x * 1. = x] and [x + 0. = x]:
    when AtomicCoordinatesFormat selects the fractional mode and
    [_r_geometry_fdf] returns a geometry, the scale is [1.] and the
    position of each atom is its row of the atom block multiplied by the
    cell matrix, plus the origin.  The origin is the first line of the
    AtomicCoordinatesOrigin block as it is written, neither scaled nor
    multiplied by the cell, when the block is there and [origin] is not
    switched off; otherwise it is zero and the position is the product
    alone. *)
Theorem fractional_positions (fuel : nat) (origin : bool) (fmt : string)
    (s : option (pyval (F W))) (sc0 : SuperCell (F W)) (g : Geometry (F W) (Orb W)) :
  snd (read_supercell W fuel false (Some ["fdf"])) = Ret (Some sc0) ->
  get_value W fuel "AtomicCoordinatesFormat" None (VStr "Bohr") false = Ret (VStr fmt) ->
  coordinate_format W fuel (Py.lower fmt) = Ret (s, true) ->
  _r_geometry_fdf W fuel origin = Ret (Some g) ->
  s = Some (VFloat (f_one W))
  /\ exists rows lor,
       read_atom_block W fuel = Ret rows
       /\ get_value W fuel "AtomicCoordinatesOrigin" None VNone false = Ret lor
       /\ ((truthy W lor && origin = false
            /\ xyz g = map (fun r => vdot W (fst r) (cell sc0)) rows)
           \/ (truthy W lor && origin = true
               /\ exists l xs o,
                    subscript W lor 0 = Ret l
                    /\ floats W (take 3 (Py.split l)) = Ret xs
                    /\ as_row W xs = Ret o
                    /\ xyz g = map (fun r => vadd W (vdot W (fst r) (cell sc0)) o) rows)).
Proof.
  intros Hsc Hfmt Hcf Hg.
  pose proof (coordinate_format_frac _ _ _ Hcf) as ->. split; [reflexivity|].
  unfold _r_geometry_fdf in Hg. rewrite Hsc in Hg. simpl in Hg.
  rewrite Hfmt in Hg. simpl in Hg. rewrite Hcf in Hg. simpl in Hg.
  unfold read_origo in Hg.
  destruct (get_value W fuel "AtomicCoordinatesOrigin" None VNone false)
    as [lor| |] eqn:Hlor; simpl in Hg; try discriminate.
  destruct (truthy W lor && origin) eqn:Ht.
  - destruct (subscript W lor 0) as [l| |] eqn:Hl; simpl in Hg; try discriminate.
    destruct (floats W (take 3 (Py.split l))) as [xs| |] eqn:Hxs; simpl in Hg;
      try discriminate.
    rewrite map_fmul_one in Hg.
    destruct (read_atom_block W fuel) as [rows| |] eqn:Hrows; simpl in Hg;
      try discriminate.
    destruct (as_row W xs) as [o| |] eqn:Ho; simpl in Hg; try discriminate.
    destruct (snd (read_basis W fuel None)) as [basis| |]; simpl in Hg; try discriminate.
    destruct (match basis with Some _ => _ | None => _ end) as [atom| |];
      simpl in Hg; try discriminate.
    injection Hg as <-. exists rows, lor.
    split; [reflexivity|]. split; [reflexivity|]. right. split; [exact Ht|].
    exists l, xs, o. split; [exact Hl|]. split; [exact Hxs|]. split; [exact Ho|].
    simpl. apply map_ext. intros r.
    unfold place. now rewrite vscale_one.
  - destruct (read_atom_block W fuel) as [rows| |] eqn:Hrows; simpl in Hg;
      try discriminate.
    destruct (snd (read_basis W fuel None)) as [basis| |]; simpl in Hg; try discriminate.
    destruct (match basis with Some _ => _ | None => _ end) as [atom| |];
      simpl in Hg; try discriminate.
    injection Hg as <-. exists rows, lor.
    split; [reflexivity|]. split; [reflexivity|]. left. split; [exact Ht|].
    simpl. apply map_ext. intros r. unfold place.
    now rewrite vscale_one, vadd_zero.
Qed.

End Fractional.

(** C3 as it was stated fails: in the fractional mode, with the origin
    [1 0 0] in the file, the atom at the fractional coordinates [1 0 3] in
    the cell [diag 2] is placed at [3 0 6], the product [2 0 6] moved by
    the origin. *)
Lemma fractional_origin_is_added :
  let W := Demo.world Examples.fractional_with_origin "./RUN.fdf" in
  read_geometry W 20 false None true
  = (["fdf"],
     Ret (Some (mkGeometry [(3, 0, 6)] (mkAtoms [mkAtom 1 ["s"] 1 "X"] [0%nat])
                           Examples.doubled_cell)))
  /\ vdot W (1, 0, 3) (cell Examples.doubled_cell) = (2, 0, 6).
Proof. vm_compute. split; reflexivity. Qed.

Lemma fractional_positions_witness :
  let W := Demo.world Examples.fractional_plain "./RUN.fdf" in
  exists g,
    _r_geometry_fdf W 20 true = Ret (Some g)
    /\ xyz g = [(2, 0, 6)].
Proof.
  intros W.
  destruct (_r_geometry_fdf W 20 true) as [[g|]| |] eqn:Hg;
    try (vm_compute in Hg; discriminate).
  exists g. split; [reflexivity|].
  destruct (fractional_positions W (fun x => Z.mul_1_r x) (fun x => Z.add_0_r x)
              20 true "Fractional" (Some (VFloat 1)) Examples.doubled_cell g)
    as (_ & rows & lor & Hrows & Hlor & [[_ Hx] | [Ht _]]).
  - vm_compute. reflexivity.
  - vm_compute. reflexivity.
  - vm_compute. reflexivity.
  - exact Hg.
  - rewrite Hx. vm_compute in Hrows. injection Hrows as <-. reflexivity.
  - vm_compute in Hlor. injection Hlor as <-. discriminate.
Defined.

(** ** Steps that come to an end *)

Section Settled.

Variable W : World.
Variable fuel : nat.
Hypothesis Hk : kernels_settled W.
Hypothesis Hl : lookups_settled W fuel hessian_labels.

Lemma settled_bind {A B} (m : outcome A) (k : A -> outcome B) :
  settled m -> (forall x, settled (k x)) -> settled (obind m k).
Proof. unfold settled. destruct m as [x| |]; simpl; intros Hm Hk'; auto; discriminate. Qed.

Lemma settled_ret {A} (x : A) : settled (Ret x).
Proof. discriminate. Qed.

Lemma settled_raise {A} e : settled (@Raise A e).
Proof. discriminate. Qed.

Ltac settle_step :=
  match goal with
  | |- settled (Ret _) => apply settled_ret
  | |- settled (Raise _) => apply settled_raise
  | H : settled ?m |- settled ?m => exact H
  | |- settled (unit_group _ _) => apply (ks_unit_group W Hk)
  | |- settled (unit_default _ _) => apply (ks_unit_default W Hk)
  | |- settled (unit_convert _ _ _) => apply (ks_unit_convert W Hk)
  | |- settled (tocell _ _) => apply (ks_tocell W Hk)
  | |- settled (nc_read_supercell_nsc _ _) => apply (ks_nc_nsc W Hk)
  | |- settled (orbindx_read_supercell_nsc _ _) => apply (ks_orbindx_nsc W Hk)
  | |- settled (nc_read_basis _ _) => apply (ks_nc_basis W Hk)
  | |- settled (orbindx_read_basis _ _) => apply (ks_orbindx_basis W Hk)
  | |- settled (ionnc_read_basis _ _) => apply (ks_ionnc_basis W Hk)
  | |- settled (ionxml_read_basis _ _) => apply (ks_ionxml_basis W Hk)
  | |- settled (atom_of_none _) => apply (ks_atom_of_none W Hk)
  | |- settled (fc_read_force_constant _ _ _) => apply (ks_fc_read W Hk)
  | |- settled (fc_correct _ _ _ _) => apply (ks_fc_correct W Hk)
  | |- settled (hessian_prepare _ _ _) => apply (ks_prepare W Hk)
  | |- settled (hessian_unit_cell _ _ _ _) => apply (ks_unit_cell W Hk)
  | |- settled (hessian_small_cell _ _ _ _) => apply (ks_small_cell W Hk)
  | |- settled (hessian_tiling_matches _ _ _ _) => apply (ks_tiling W Hk)
  | |- settled (beyond _ _ _) => apply (ks_beyond W Hk)
  | |- settled (obind _ _) => apply settled_bind; [|intros ?]
  | |- settled (let _ := _ in _) => cbv zeta
  | |- settled (if ?b then _ else _) => destruct b
  | |- settled (match ?x with _ => _ end) => destruct x
  end.

Ltac settle := repeat settle_step.

Lemma item_settled {A} (l : list A) i : settled (item l i).
Proof. unfold item. settle. Qed.

Lemma py_float_settled s : settled (py_float W s).
Proof. unfold py_float. settle. Qed.

Lemma py_int_settled s : settled (py_int s).
Proof. unfold py_int. settle. Qed.

Lemma cast_as_settled d s : settled (cast_as W d s).
Proof. unfold cast_as. destruct d; settle; auto using py_int_settled, py_float_settled. Qed.

Lemma target_unit_settled found unit : settled (target_unit W found unit).
Proof. unfold target_unit. settle. Qed.

Lemma typed_settled v unit d wu : settled (typed W v unit d wu).
Proof.
  unfold typed. destruct v as [s|l]; [|settle].
  destruct (_type_str s); try solve [settle].
  - destruct d; try apply cast_as_settled. settle. apply py_float_settled.
  - destruct d; try apply cast_as_settled. settle. apply py_int_settled.
  - destruct wu; settle;
      auto using item_settled, py_float_settled, target_unit_settled.
Qed.

Lemma get_value_settled label unit d wu :
  label ∈ hessian_labels -> settled (get_value W fuel label unit d wu).
Proof.
  intros Hin. unfold get_value. destruct (isfile _ _); [|settle].
  unfold lookups_settled in Hl. rewrite Forall_forall in Hl. specialize (Hl _ Hin).
  unfold get. destruct (_read_label _ _ _ _ _ _) as [st' r]. cbn [snd] in *.
  apply settled_bind; [exact Hl|]. intros [v|]; [apply typed_settled|settle].
Qed.

Ltac lookup :=
  apply get_value_settled; unfold hessian_labels;
  repeat first [apply list_elem_of_here | apply list_elem_of_further].

Lemma companion_settled suffix : settled (companion W fuel suffix).
Proof. unfold companion. settle. lookup. Qed.

Lemma from_companion_settled {V} suffix (reader : string -> outcome (option V)) :
  (forall p, settled (reader p)) -> settled (from_companion W fuel suffix reader).
Proof. intros Hr. unfold from_companion. settle; [apply companion_settled|apply Hr]. Qed.

Lemma resolve_settled {V} (methods : list (string * outcome (option V))) order :
  Forall (fun m => settled (snd m)) methods -> settled (snd (resolve methods order)).
Proof.
  intros Hm. induction order as [|f rest IH]; cbn [resolve snd]; [settle|].
  destruct (List.find _ methods) as [[name r]|] eqn:Hf; [|cbn [snd]; settle].
  apply find_some in Hf as [Hin _]. apply list_elem_of_In in Hin.
  rewrite Forall_forall in Hm. specialize (Hm _ Hin). cbn [snd] in Hm.
  destruct r as [[v|]|e|]; cbn [snd].
  - settle.
  - destruct (resolve methods rest). exact IH.
  - settle.
  - now destruct Hm.
Qed.

Lemma floats_settled l : settled (floats W l).
Proof.
  induction l as [|k r IH]; cbn [floats]; settle. apply py_float_settled.
Qed.

Lemma as_row_settled l : settled (as_row W l).
Proof. unfold as_row. destruct l as [|a [|b [|c [|d r]]]]; settle. Qed.

Lemma lines_of_settled v : settled (lines_of W v).
Proof. unfold lines_of. settle. Qed.

Lemma subscript_settled v i : settled (subscript W v i).
Proof. unfold subscript. settle; [apply lines_of_settled|apply item_settled]. Qed.

Lemma factor_of_settled v : settled (factor_of W v).
Proof. unfold factor_of. settle. Qed.

Lemma count_of_settled site v : settled (count_of W site v).
Proof. unfold count_of. settle. Qed.

Lemma sequence_settled {A} (l : list (outcome A)) :
  Forall settled l -> settled (sequence l).
Proof.
  induction 1 as [|m r Hm _ IH]; cbn [sequence]; settle.
Qed.

Lemma py_pos_settled {A} (l : list A) i : settled (py_pos l i).
Proof. unfold py_pos. settle. Qed.

Lemma py_item_settled {A} (l : list A) i : settled (py_item l i).
Proof. unfold py_item. settle; [apply py_pos_settled|apply item_settled]. Qed.

Lemma py_set_settled {A} (l : list A) i x : settled (py_set l i x).
Proof. unfold py_set. settle. apply py_pos_settled. Qed.

Lemma read_supercell_nsc_settled order : settled (read_supercell_nsc W fuel order).
Proof.
  unfold read_supercell_nsc. settle.
  apply resolve_settled. repeat constructor; cbn [snd];
    apply from_companion_settled; intros p; settle.
Qed.

Lemma cell_row_settled lc i : settled (cell_row W lc i).
Proof.
  unfold cell_row. settle;
    auto using subscript_settled, floats_settled, as_row_settled.
Qed.

Ltac settle_more :=
  repeat first
    [ settle_step
    | match goal with
      | |- settled (get_value _ _ _ _ _ _) => lookup
      | |- settled (item _ _) => apply item_settled
      | |- settled (py_float _ _) => apply py_float_settled
      | |- settled (py_int _) => apply py_int_settled
      | |- settled (floats _ _) => apply floats_settled
      | |- settled (as_row _ _) => apply as_row_settled
      | |- settled (lines_of _ _) => apply lines_of_settled
      | |- settled (subscript _ _ _) => apply subscript_settled
      | |- settled (factor_of _ _) => apply factor_of_settled
      | |- settled (count_of _ _ _) => apply count_of_settled
      | |- settled (py_pos _ _) => apply py_pos_settled
      | |- settled (py_item _ _) => apply py_item_settled
      | |- settled (py_set _ _ _) => apply py_set_settled
      | |- settled (cell_row _ _ _) => apply cell_row_settled
      | |- settled (companion _ _ _) => apply companion_settled
      | |- settled (read_supercell_nsc _ _ _) => apply read_supercell_nsc_settled
      | |- settled (from_companion _ _ _ _) =>
          apply from_companion_settled; intros ?
      end ].

Lemma r_supercell_fdf_settled : settled (_r_supercell_fdf W fuel).
Proof. unfold _r_supercell_fdf. settle_more. Qed.

Lemma resolve_single {V} (methods : list (string * outcome (option V))) f r :
  method_for methods f = Some r -> snd (resolve methods [f]) = r.
Proof.
  intros Hm. cbn [resolve]. rewrite (method_for_inv _ _ _ Hm).
  now destruct r as [[v|]|e|].
Qed.

Lemma read_supercell_fdf_settled :
  settled (snd (read_supercell W fuel false (Some ["fdf"]))).
Proof.
  change (snd (read_supercell W fuel false (Some ["fdf"])))
    with (snd (resolve (supercell_methods W fuel) ["fdf"])).
  rewrite (resolve_single (supercell_methods W fuel) "fdf" (_r_supercell_fdf W fuel)
             eq_refl).
  apply r_supercell_fdf_settled.
Qed.

Lemma coordinate_format_settled lc : settled (coordinate_format W fuel lc).
Proof. unfold coordinate_format. settle_more. Qed.

Lemma use_scale_settled s : settled (use_scale W s).
Proof. unfold use_scale. settle_more. Qed.

Lemma read_origo_settled origin s : settled (read_origo W fuel origin s).
Proof. unfold read_origo. settle_more. apply use_scale_settled. Qed.

Lemma atom_line_settled l : settled (atom_line W l).
Proof. unfold atom_line. settle_more. Qed.

Lemma read_atom_block_settled : settled (read_atom_block W fuel).
Proof.
  unfold read_atom_block. apply settled_bind; [lookup|]. intros atms.
  assert (Hrest : settled
    (let! atms := lines_of W atms in
     let n := Z.of_nat (length atms) in
     let! nav := get_value W fuel "NumberOfAtoms" None (VInt n) false in
     let! na := count_of W "NumberOfAtoms" nav in
     if na >? n then Raise SileError
     else if (na =? n) && (na =? 0) then Raise SileError
     else if na <? 0 then Raise ValueError
     else sequence (map (atom_line W) (py_take na atms)))).
  { settle_more. apply sequence_settled. apply Forall_forall.
    intros m Hm. apply list_elem_of_In, in_map_iff in Hm as (? & <- & _).
    apply atom_line_settled. }
  destruct atms; try exact Hrest. settle.
Qed.

Lemma species_line_settled spc : settled (species_line spc).
Proof.
  unfold species_line. destruct (take 3 (Py.split spc)) as [|a [|b [|c [|d r]]]];
    settle_more.
Qed.

Lemma foldl_fdf_settled lines : forall acc,
  settled acc -> settled (foldl (basis_fdf_step W) acc lines).
Proof.
  induction lines as [|spc rest IH]; intros acc Hacc; [exact Hacc|].
  cbn [foldl]. apply IH. unfold basis_fdf_step. settle_more.
  apply species_line_settled.
Qed.

Lemma foldl_ion_settled lines : forall acc,
  settled acc -> settled (foldl (basis_ion_step W) acc lines).
Proof.
  induction lines as [|spc rest IH]; intros acc Hacc; [exact Hacc|].
  cbn [foldl]. apply IH. unfold basis_ion_step. settle_more.
  apply species_line_settled.
Qed.

Lemma read_basis_settled order : settled (snd (read_basis W fuel order)).
Proof.
  unfold read_basis. apply resolve_settled. repeat constructor; cbn [snd].
  - unfold _r_basis_nc. settle_more.
  - unfold _r_basis_ion. apply settled_bind; [lookup|]. intros spcs.
    assert (Hrest : settled
      (let! lines := lines_of W spcs in
       let! '(atom, found_one, found_all) :=
         foldl (basis_ion_step W) (Ret (replicate (length lines) None, false, true))
               lines in
       if found_one then Ret (Some atom) else Ret None)).
    { settle_more. apply foldl_ion_settled. settle. }
    destruct spcs; try exact Hrest. settle.
  - unfold _r_basis_orb_indx. settle_more.
  - unfold _r_basis_fdf. apply settled_bind; [lookup|]. intros spcs.
    assert (Hrest : settled
      (let! lines := lines_of W spcs in
       let! atom := foldl (basis_fdf_step W) (Ret (replicate (length lines) None))
                          lines in
       Ret (Some atom))).
    { settle_more. apply foldl_fdf_settled. settle. }
    destruct spcs; try exact Hrest. settle.
Qed.

Lemma atom_or_none_settled a : settled (atom_or_none W a).
Proof. unfold atom_or_none. settle_more. Qed.

Lemma r_geometry_fdf_settled origin : settled (_r_geometry_fdf W fuel origin).
Proof.
  unfold _r_geometry_fdf. settle_more;
    auto using read_supercell_fdf_settled, coordinate_format_settled,
      read_origo_settled, read_atom_block_settled, use_scale_settled,
      read_basis_settled.
  - apply sequence_settled. apply Forall_forall.
    intros m Hm. apply list_elem_of_In, in_map_iff in Hm as (? & <- & _).
    apply py_item_settled.
  - apply sequence_settled. apply Forall_forall.
    intros m Hm. apply list_elem_of_In, in_map_iff in Hm as (? & <- & _).
    apply atom_or_none_settled.
Qed.

Lemma read_geometry_fdf_settled origin :
  settled (snd (read_geometry W fuel false None origin)).
Proof.
  change (snd (read_geometry W fuel false None origin))
    with (snd (resolve (geometry_methods W fuel origin) ["fdf"])).
  rewrite (resolve_single (geometry_methods W fuel origin) "fdf"
             (_r_geometry_fdf W fuel origin) eq_refl).
  apply r_geometry_fdf_settled.
Qed.

Lemma r_force_constant_fc_settled correct_fc :
  settled (_r_force_constant_fc W fuel correct_fc).
Proof. unfold _r_force_constant_fc. settle_more. Qed.

Lemma arrayi_settled l : settled (arrayi W l).
Proof. unfold arrayi. settle_more. Qed.

Lemma py_len_settled v : settled (py_len W v).
Proof. unfold py_len. settle_more. Qed.

Lemma r_hessian_fc_settled correct_fc supercell :
  settled (_r_hessian_fc W fuel correct_fc supercell).
Proof.
  unfold _r_hessian_fc. settle_more;
    auto using r_force_constant_fc_settled, read_geometry_fdf_settled,
      arrayi_settled, py_len_settled.
Qed.

End Settled.

(** ** The Hessian of a replicated cell *)

Section Hessian.

Variable W : World.

(** Methods that never return a value give a loop that never returns one. *)
Lemma resolve_no_value {V} (methods : list (string * outcome (option V))) :
  Forall (fun m => forall v, snd m <> Ret (Some v)) methods ->
  forall order v, snd (resolve methods order) <> Ret (Some v).
Proof.
  intros Hm order. induction order as [|f rest IH]; intros v; simpl; [discriminate|].
  destruct (List.find _ methods) as [[name r]|] eqn:Hf; [|discriminate].
  apply find_some in Hf as [Hin _]. apply list_elem_of_In in Hin.
  rewrite Forall_forall in Hm. specialize (Hm _ Hin). simpl in Hm.
  destruct r as [[w|]|e|]; simpl; try discriminate.
  - apply Hm.
  - destruct (resolve methods rest) as [called r] eqn:Hr. simpl in *. apply IH.
Qed.

Lemma r_hessian_fc_no_value fuel correct_fc supercell sc H :
  arrayi W supercell = Ret sc ->
  forallb (fun n => n =? 1) sc = false ->
  _r_hessian_fc W fuel correct_fc supercell <> Ret (Some H).
Proof.
  intros Ha Hs. unfold _r_hessian_fc. rewrite Ha.
  destruct (_r_force_constant_fc W fuel correct_fc) as [[fc|]| |]; simpl; try discriminate.
  destruct (snd (read_geometry W fuel false None true)) as [[g|]| |]; simpl;
    try discriminate.
  destruct (hessian_prepare W fc g) as [[FC g']| |]; simpl; try discriminate.
  destruct (get_value W fuel "AtomicMass" _ _ _) as [mass| |]; simpl; try discriminate.
  destruct (py_len W mass); simpl; try discriminate.
  destruct (get_value W fuel "MD.FCFirst" _ _ _) as [first| |]; simpl; try discriminate.
  destruct (count_of W "MD.FCFirst" first); simpl; try discriminate.
  destruct (get_value W fuel "MD.FCLast" _ _ _) as [last| |]; simpl; try discriminate.
  destruct (count_of W "MD.FCLast" last); simpl; try discriminate.
  rewrite Hs.
  destruct (hessian_small_cell W _ _ _); simpl; try discriminate.
  destruct (existsb _ _); [discriminate|].
  destruct (hessian_tiling_matches W _ _ _) as [[]| |]; simpl; discriminate.
Qed.

Lemma r_force_constant_fc_present fuel correct_fc p :
  companion W fuel ".FC" = Ret p -> isfile (fs W) p = true ->
  _r_force_constant_fc W fuel correct_fc <> Ret None.
Proof.
  intros Hc Hp. unfold _r_force_constant_fc. rewrite Hc. simpl. rewrite Hp.
  destruct (get_value W fuel "NumberOfAtoms" _ _ _); simpl; try discriminate.
  destruct (fc_read_force_constant W _ _); simpl; try discriminate.
  destruct (get_value W fuel "MD.FCFirst" _ _ _) as [first| |]; simpl; try discriminate.
  destruct (get_value W fuel "MD.FCLast" _ _ _) as [last| |]; simpl; try discriminate.
  destruct (_ || _); [discriminate|].
  destruct (operand_of W first), (operand_of W last); try discriminate;
    try (destruct (beyond W _ _); simpl; discriminate).
  destruct (negb _); [discriminate|].
  destruct correct_fc; [|discriminate].
  destruct (fc_correct W _ _ _); simpl; discriminate.
Qed.

Lemma r_hessian_fc_present fuel correct_fc supercell sc p :
  arrayi W supercell = Ret sc ->
  forallb (fun n => n =? 1) sc = false ->
  companion W fuel ".FC" = Ret p -> isfile (fs W) p = true ->
  kernels_settled W -> lookups_settled W fuel hessian_labels ->
  exists e, _r_hessian_fc W fuel correct_fc supercell = Raise e.
Proof.
  intros Ha Hs Hc Hp Hk Hl.
  pose proof (r_hessian_fc_settled W fuel Hk Hl correct_fc supercell) as Hset.
  pose proof (fun H => r_hessian_fc_no_value fuel correct_fc supercell sc H Ha Hs) as Hno.
  destruct (_r_hessian_fc W fuel correct_fc supercell) as [[H|]|e|] eqn:Hr.
  - now destruct (Hno H).
  - exfalso. unfold _r_hessian_fc in Hr. rewrite Ha in Hr.
    pose proof (r_force_constant_fc_present fuel correct_fc p Hc Hp) as Hfc.
    destruct (_r_force_constant_fc W fuel correct_fc) as [[fc|]| |]; simpl in Hr;
      try discriminate; [|now apply Hfc].
    destruct (snd (read_geometry W fuel false None true)) as [[g|]| |]; simpl in Hr;
      try discriminate.
    destruct (hessian_prepare W fc g) as [[FC g']| |]; simpl in Hr; try discriminate.
    destruct (get_value W fuel "AtomicMass" _ _ _) as [mass| |]; simpl in Hr;
      try discriminate.
    destruct (py_len W mass); simpl in Hr; try discriminate.
    destruct (get_value W fuel "MD.FCFirst" _ _ _) as [first| |]; simpl in Hr;
      try discriminate.
    destruct (count_of W "MD.FCFirst" first); simpl in Hr; try discriminate.
    destruct (get_value W fuel "MD.FCLast" _ _ _) as [last| |]; simpl in Hr;
      try discriminate.
    destruct (count_of W "MD.FCLast" last); simpl in Hr; try discriminate.
    rewrite Hs in Hr.
    destruct (hessian_small_cell W _ _ _); simpl in Hr; try discriminate.
    destruct (existsb _ _); [discriminate|].
    destruct (hessian_tiling_matches W _ _ _) as [[]| |]; simpl in Hr; discriminate.
  - now exists e.
  - now destruct Hset.
Qed.

(** C8, as amended.  A [supercell] argument whose int32 array has an entry
    that is not 1: [read_hessian] never returns a Hessian, whatever the
    order.  When the file <SystemLabel>.FC does not exist, an order that
    names only FC (the default does) gives [None] and raises nothing.  When
    the file exists, every order that is not empty ends by raising,
    provided the lookups in the fdf file and the kernels come to an end. *)
Theorem hessian_supercell_fails_closed (fuel : nat) (correct_fc : bool)
    (supercell : list (pyval (F W))) (sc : list Z) :
  arrayi W supercell = Ret sc ->
  forallb (fun n => n =? 1) sc = false ->
  (forall order H,
     snd (read_hessian W fuel order correct_fc supercell) <> Ret (Some H))
  /\ (forall p order,
        companion W fuel ".FC" = Ret p -> isfile (fs W) p = false ->
        Forall (fun f => Py.lower f = "fc") (default ["FC"] order) ->
        read_hessian W fuel order correct_fc supercell
        = (map Py.lower (default ["FC"] order), Ret None))
  /\ (forall p order,
        companion W fuel ".FC" = Ret p -> isfile (fs W) p = true ->
        default ["FC"] order <> [] ->
        kernels_settled W -> lookups_settled W fuel hessian_labels ->
        exists e, snd (read_hessian W fuel order correct_fc supercell) = Raise e).
Proof.
  intros Ha Hs. split; [|split].
  - intros order H. unfold read_hessian. apply resolve_no_value.
    constructor; [|constructor]. intros v. simpl.
    now apply (r_hessian_fc_no_value fuel correct_fc supercell sc).
  - intros p order Hc Hp Ho. unfold read_hessian. apply resolve_all_none.
    apply Forall_forall. intros f Hf. rewrite Forall_forall in Ho.
    unfold method_for. rewrite (Ho f Hf). cbn.
    unfold _r_hessian_fc, _r_force_constant_fc. rewrite Hc. cbn. now rewrite Hp.
  - intros p order Hc Hp Ho Hk Hl. unfold read_hessian.
    destruct (default ["FC"] order) as [|f rest]; [now destruct Ho|].
    cbn [resolve].
    destruct (List.find _ (hessian_methods W fuel correct_fc supercell))
      as [[name r]|] eqn:Hf; [|now exists AttributeError].
    apply find_some in Hf as [Hin _]. destruct Hin as [Heq|[]].
    injection Heq as <- <-.
    destruct (r_hessian_fc_present fuel correct_fc supercell sc p Ha Hs Hc Hp Hk Hl)
      as [e He].
    rewrite He. now exists e.
Qed.

End Hessian.

Lemma demo_kernels_settled (files : gmap string (list string)) (primary : string) :
  kernels_settled (Demo.world files primary).
Proof.
  constructor; try (intros; discriminate).
  - intros u. unfold settled. cbn. unfold Demo.group_of.
    destruct (Py.str_in u _); [discriminate|]. destruct (Py.str_in u _); discriminate.
  - intros g. unfold settled. cbn. unfold Demo.default_of.
    destruct (String.eqb g _); [discriminate|]. destruct (String.eqb g _); discriminate.
  - intros a b. unfold settled. cbn. unfold Demo.convert.
    destruct (Demo.in_smallest a), (Demo.in_smallest b); try discriminate.
    destruct (_ =? _); discriminate.
Qed.

(** C8 as it was stated fails: with no file <SystemLabel>.FC the call for a
    doubled cell returns [None]; it raises nothing. *)
Lemma hessian_supercell_without_fc :
  read_hessian (Demo.world Examples.displaced_atom "./RUN.fdf") 20 None true
    [VInt 2; VInt 1; VInt 1]
  = (["fc"], Ret None).
Proof. vm_compute. reflexivity. Qed.

Lemma hessian_supercell_fails_closed_witness :
  let W := Demo.world Examples.displaced_atom_fc "./RUN.fdf" in
  snd (read_hessian W 20 None true [VInt 2; VInt 1; VInt 1])
  = Raise NotImplementedError
  /\ exists e, snd (read_hessian W 20 (Some ["nc"; "FC"]) true [VInt 2; VInt 1; VInt 1])
               = Raise e.
Proof.
  intros W.
  destruct (hessian_supercell_fails_closed W 20 true [VInt 2; VInt 1; VInt 1] [2; 1; 1]
              eq_refl eq_refl) as (_ & _ & Hp).
  assert (Hl : lookups_settled W 20 hessian_labels).
  { unfold lookups_settled, hessian_labels.
    repeat (constructor; [vm_compute; discriminate|]). constructor. }
  split.
  - destruct (Hp "./run.FC" None eq_refl eq_refl) as [e He].
    + discriminate.
    + apply demo_kernels_settled.
    + exact Hl.
    + rewrite He. vm_compute in He. injection He as <-. reflexivity.
  - apply (Hp "./run.FC" (Some ["nc"; "FC"]) eq_refl eq_refl).
    + discriminate.
    + apply demo_kernels_settled.
    + exact Hl.
Defined.

(** ** Reconciliation *)

Section Reconciliation.

Variable W : World.

(** Different numbers of atoms and equal numbers of orbitals: the geometry
    is replaced as a whole, without a warning. *)
Lemma replace_geom_wholesale (spgeom : SpGeom (F W) (Orb W) (Payload W))
    (geom : Geometry (F W) (Orb W)) :
  g_na W (_geometry spgeom) <> g_na W geom ->
  g_no W (_geometry spgeom) = g_no W geom ->
  _SpGeom_replace_geom W spgeom geom = ([], Ret (mkSpGeom geom (payload spgeom), true)).
Proof.
  intros Hna Hno. unfold _SpGeom_replace_geom.
  apply Nat.eqb_neq in Hna. apply Nat.eqb_eq in Hno. now rewrite Hna, Hno.
Qed.

(** Different numbers of atoms and of orbitals: the warning is issued and
    the loop over the species runs all the same. *)
Lemma replace_geom_after_warning (spgeom : SpGeom (F W) (Orb W) (Payload W))
    (geom : Geometry (F W) (Orb W)) :
  g_na W (_geometry spgeom) <> g_na W geom ->
  g_no W (_geometry spgeom) <> g_no W geom ->
  _SpGeom_replace_geom W spgeom geom
  = ([cannot_replace],
     let! SA := foldl (replace_step W) (Ret (atoms (_geometry spgeom)))
                      (iter_species W (atoms geom)) in
     Ret (mkSpGeom (mkGeometry (xyz (_geometry spgeom)) SA (sc (_geometry spgeom)))
                   (payload spgeom), false)).
Proof.
  intros Hna Hno. unfold _SpGeom_replace_geom.
  apply Nat.eqb_neq in Hna. apply Nat.eqb_neq in Hno. now rewrite Hna, Hno.
Qed.

End Reconciliation.

(** C2, on the code.  When the atom counts differ and the orbital counts
    agree the geometry is replaced as a whole and [True] is returned.  When
    both differ the warning is issued, but the function goes on into the
    loop that replaces atoms: a matrix on two hydrogen atoms reconciled
    with a geometry of one carbon atom comes back with its first atom
    turned into carbon, and a matrix on one carbon atom reconciled with
    two hydrogen atoms ends in an [IndexError]. *)
Theorem replace_geom_mismatch :
  let W := Demo.world ∅ "" in
  (forall spgeom geom,
     g_na W (_geometry spgeom) <> g_na W geom ->
     g_no W (_geometry spgeom) = g_no W geom ->
     _SpGeom_replace_geom W spgeom geom
     = ([], Ret (mkSpGeom geom (payload spgeom), true)))
  /\ (g_na W Demo.h2, g_no W Demo.h2, g_na W Demo.c1, g_no W Demo.c1)
     = (2%nat, 2%nat, 1%nat, 4%nat)
  /\ _SpGeom_replace_geom W (mkSpGeom Demo.h2 tt) Demo.c1
     = ([cannot_replace],
        Ret (mkSpGeom
               (mkGeometry (xyz Demo.h2)
                  (mkAtoms [Demo.hydrogen; mkAtom 6 ["s"] 12 "C"] [1%nat; 0%nat])
                  (sc Demo.h2)) tt,
             false))
  /\ _SpGeom_replace_geom W (mkSpGeom Demo.c1 tt) Demo.h2
     = ([cannot_replace], Raise IndexError).
Proof.
  intros W. split; [|split; [|split]].
  - intros spgeom geom. apply replace_geom_wholesale.
  - reflexivity.
  - vm_compute. reflexivity.
  - vm_compute. reflexivity.
Qed.

(** ** The theorems at work on the example directories *)

Lemma resolution_order_witness :
  resolve (hamiltonian_methods (Demo.world Examples.scalars_tshs "./RUN.fdf") 20)
          (["nc"; "NC"] ++ "TSHS" :: ["HSX"; "tshs"])
  = (["nc"; "nc"; "tshs"],
     _r_hamiltonian_tshs (Demo.world Examples.scalars_tshs "./RUN.fdf") 20)
  /\ read_hamiltonian (Demo.world Examples.scalars "./RUN.fdf") 20 (Some ["TSHS"])
     = (["tshs"], Ret None).
Proof.
  destruct (resolution_order (Demo.world Examples.scalars "./RUN.fdf")
              (hamiltonian_methods (Demo.world Examples.scalars_tshs "./RUN.fdf") 20)
              ["nc"; "NC"] ["HSX"; "tshs"] "TSHS"
              (_r_hamiltonian_tshs (Demo.world Examples.scalars_tshs "./RUN.fdf") 20))
    as (Horder & _ & Habsent).
  - repeat constructor.
  - reflexivity.
  - vm_compute. discriminate.
  - split; [exact Horder|].
    apply (Habsent 20%nat "./run.TSHS"); vm_compute; reflexivity.
Defined.

Lemma get_physical_witness :
  let W := Demo.world Examples.scalars "./RUN.fdf" in
  let st' := State (Handle "./RUN.fdf" 3) [] [] [] in
  get W 20 (fresh "./RUN.fdf") "LabelE" None VNone true = (st', Ret (VPair 2 "eV"))
  /\ get W 20 (fresh "./RUN.fdf") "LabelE" (Some "Ang") VNone false = (st', Raise ValueError)
  /\ get W 20 (fresh "./RUN.fdf") "LabelE" (Some "meV") VNone false
     = (st', Ret (VFloat (2 * 1000)))
  /\ get W 20 (fresh "./RUN.fdf") "LabelE" None VNone false = (st', Ret (VFloat (2 * 1))).
Proof.
  intros W st'.
  destruct (get_physical W 20 (fresh "./RUN.fdf") st' "LabelE" VNone "2. eV" "2." "eV")
    as (Hpair & Hother & Hsame & Hnone).
  - vm_compute. reflexivity.
  - reflexivity.
  - reflexivity.
  - split; [apply Hpair|]. split; [|split].
    + apply (Hother "Ang" "energy" "length"); [reflexivity|reflexivity|discriminate].
    + apply (Hsame "meV" "energy" 1000); reflexivity.
    + apply (Hnone "energy" "eV" 1); reflexivity.
Defined.

Lemma label_matching_invariant_witness :
  let W := Demo.world Examples.scalars "./RUN.fdf" in
  label_equiv "MD.FC_First" "mdfcfirst"
  /\ get W 20 (fresh "./RUN.fdf") "MD.FC_First" None VNone false
     = get W 20 (fresh "./RUN.fdf") "mdfcfirst" None VNone false.
Proof.
  intros W.
  assert (He : label_equiv "MD.FC_First" "mdfcfirst").
  { repeat first [ apply le_done
                 | apply le_letter; [reflexivity|]
                 | apply le_sep_left; [reflexivity|] ]. }
  split; [exact He|].
  apply (label_matching_invariant W _ _ He 20 (fresh "./RUN.fdf")).
Defined.

(** * Further properties *)

(** ** Facts about [strip] and [split] *)

Section StripSplit.

Lemma rstrip_idem s : Py.rstrip (Py.rstrip s) = Py.rstrip s.
Proof.
  induction s as [|c s IH]; [reflexivity|]. simpl.
  destruct (Py.rstrip s) as [|d u] eqn:Hr.
  - destruct (Py.is_space c) eqn:Hc; [reflexivity|]. simpl. now rewrite Hc.
  - change (Py.rstrip (String c (String d u)))
      with (match Py.rstrip (String d u) with
            | EmptyString => if Py.is_space c then EmptyString else String c EmptyString
            | r' => String c r'
            end).
    now rewrite IH.
Qed.

Lemma lstrip_head s :
  Py.lstrip s = EmptyString
  \/ exists c r, Py.lstrip s = String c r /\ Py.is_space c = false.
Proof.
  induction s as [|c s IH]; [now left|]. simpl.
  destruct (Py.is_space c) eqn:Hc; [exact IH|]. right. now exists c, s.
Qed.

Lemma lstrip_rstrip_head c r :
  Py.is_space c = false -> Py.lstrip (Py.rstrip (String c r)) = Py.rstrip (String c r).
Proof.
  intros Hc. simpl. destruct (Py.rstrip r); rewrite ?Hc; simpl; now rewrite Hc.
Qed.

(** [strip] does nothing on a stripped string. *)
Lemma strip_idem s : Py.strip (Py.strip s) = Py.strip s.
Proof.
  unfold Py.strip. destruct (lstrip_head s) as [-> | (c & r & -> & Hc)]; [reflexivity|].
  rewrite (lstrip_rstrip_head _ _ Hc). apply rstrip_idem.
Qed.

Lemma split_cons c r :
  Py.split (String c r) =
  if Py.is_space c then Py.split r
  else match r with
       | EmptyString => [String c EmptyString]
       | String d _ =>
           if Py.is_space d then String c EmptyString :: Py.split r
           else match Py.split r with
                | w :: ws => String c w :: ws
                | [] => [String c EmptyString]
                end
       end.
Proof. reflexivity. Qed.

Lemma rstrip_cons c r :
  Py.rstrip (String c r) =
  match Py.rstrip r with
  | EmptyString => if Py.is_space c then EmptyString else String c EmptyString
  | r' => String c r'
  end.
Proof. reflexivity. Qed.

Lemma split_nil_rstrip s : Py.split s = [] -> Py.rstrip s = EmptyString.
Proof.
  induction s as [|c s IH]; [reflexivity|]. rewrite split_cons, rstrip_cons.
  destruct (Py.is_space c) eqn:Hc.
  - intros H. now rewrite (IH H).
  - destruct s as [|d s']; [discriminate|].
    destruct (Py.is_space d); [discriminate|].
    destruct (Py.split (String d s')); discriminate.
Qed.

Lemma rstrip_nonspace_head d s :
  Py.is_space d = false -> Py.rstrip (String d s) <> EmptyString.
Proof.
  intros Hd. rewrite rstrip_cons. destruct (Py.rstrip s); [now rewrite Hd|discriminate].
Qed.

(** A string with a single token is that token between whitespace. *)
Lemma split_single_strip s : forall tok, Py.split s = [tok] -> Py.strip s = tok.
Proof.
  induction s as [|c s IH]; intros tok; [discriminate|].
  unfold Py.strip. rewrite split_cons. cbn [Py.lstrip].
  destruct (Py.is_space c) eqn:Hc; [apply IH|].
  destruct s as [|d s'].
  - intros [= <-]. rewrite rstrip_cons. simpl. now rewrite Hc.
  - destruct (Py.is_space d) eqn:Hd.
    + intros H.
      assert (Hn : Py.split (String d s') = []) by congruence.
      assert (Ht : tok = String c EmptyString) by congruence. subst tok.
      rewrite rstrip_cons. now rewrite (split_nil_rstrip _ Hn), Hc.
    + destruct (Py.split (String d s')) as [|w ws] eqn:Hs.
      * exfalso. apply split_nil_rstrip in Hs.
        now apply (rstrip_nonspace_head d s' Hd).
      * intros H.
        assert (Ht : tok = String c w) by congruence.
        assert (Hws : ws = []) by congruence. subst tok ws.
        pose proof (IH w eq_refl) as Hw. unfold Py.strip in Hw.
        cbn [Py.lstrip] in Hw. rewrite Hd in Hw.
        rewrite rstrip_cons, Hw. destruct w; [|reflexivity].
        exfalso. now apply (rstrip_nonspace_head d s' Hd).
Qed.

Lemma has_char_lstrip c s :
  Py.has_char c s = false -> Py.has_char c (Py.lstrip s) = false.
Proof.
  induction s as [|d s IH]; [reflexivity|]. simpl.
  intros H. apply orb_false_iff in H as [Hd Hs].
  destruct (Py.is_space d); [now apply IH|]. simpl. now rewrite Hd, Hs.
Qed.

Lemma has_char_rstrip c s :
  Py.has_char c s = false -> Py.has_char c (Py.rstrip s) = false.
Proof.
  induction s as [|d s IH]; [reflexivity|]. simpl.
  intros H. apply orb_false_iff in H as [Hd Hs]. specialize (IH Hs).
  destruct (Py.rstrip s) as [|e u].
  - destruct (Py.is_space d); [reflexivity|]. simpl. now rewrite Hd.
  - simpl in *. now rewrite Hd, IH.
Qed.

Lemma has_char_strip c s :
  Py.has_char c s = false -> Py.has_char c (Py.strip s) = false.
Proof. intros H. unfold Py.strip. now apply has_char_rstrip, has_char_lstrip. Qed.

Lemma has_char_split c s :
  Py.has_char c s = false -> Forall (fun tok => Py.has_char c tok = false) (Py.split s).
Proof.
  induction s as [|d s IH]; [constructor|]. rewrite split_cons. cbn [Py.has_char].
  intros H. apply orb_false_iff in H as [Hd Hs]. specialize (IH Hs).
  destruct (Py.is_space d); [exact IH|].
  assert (Hone : Py.has_char c (String d EmptyString) = false)
    by (simpl; now rewrite Hd).
  destruct s as [|e s']; [now repeat constructor|].
  destruct (Py.is_space e); [now constructor|].
  destruct (Py.split (String e s')) as [|w ws]; [now repeat constructor|].
  inversion IH as [|? ? Hw Hws]; subst. constructor; [|exact Hws].
  simpl. now rewrite Hd, Hw.
Qed.

Lemma has_char_append c a b :
  Py.has_char c (a +:+ b) = Py.has_char c a || Py.has_char c b.
Proof.
  induction a as [|d a IH]; [reflexivity|].
  change (String d a +:+ b) with (String d (a +:+ b)). simpl.
  now rewrite IH, orb_assoc.
Qed.

Lemma has_char_join c sep l :
  Py.has_char c sep = false ->
  Forall (fun tok => Py.has_char c tok = false) l ->
  Py.has_char c (Py.join sep l) = false.
Proof.
  intros Hsep Hl. unfold Py.join. induction Hl as [|x l Hx Hl IH]; [reflexivity|].
  simpl. destruct l as [|y l']; [exact Hx|].
  change (Py.has_char c (x +:+ sep +:+ String.concat sep (y :: l')) = false).
  now rewrite !has_char_append, Hx, Hsep, IH.
Qed.

Lemma has_char_before c s : Py.has_char c (Py.before_char c s) = false.
Proof.
  induction s as [|d s IH]; [reflexivity|]. simpl.
  destruct (Ascii.eqb d c) eqn:Hd; [reflexivity|]. simpl. now rewrite Hd.
Qed.

End StripSplit.

(** ** Lookups, one after the other *)

Section Primary.

Variable fs : gmap string (list string).
Variable directory : string.
Variable skip_line : string -> bool.

Lemma readline_bottom st :
  h_name (bottom (fst (readline fs skip_line st))) = h_name (bottom st).
Proof.
  unfold readline, bottom. destruct st as [[name pos] stack cl wa].
  cbn [fh parent_fh h_name h_pos]. destruct (fs !! name) as [lines|]; [|reflexivity].
  destruct (next_line _ _ _) as [l p]. cbn [fst fh parent_fh].
  destruct stack as [|h rest]; [reflexivity|]. now rewrite !last_cons.
Qed.

Lemma pushfile_bottom st f : bottom (_pushfile fs directory st f) = bottom st.
Proof.
  unfold _pushfile, bottom. destruct (isfile _ _); [|reflexivity].
  cbn [fh parent_fh]. now rewrite last_cons.
Qed.

Lemma popfile_bottom st : bottom (fst (_popfile st)) = bottom st.
Proof.
  unfold _popfile, bottom. destruct st as [cur stack cl wa]. cbn [fh parent_fh].
  destruct stack as [|h rest]; [reflexivity|]. cbn [fst fh parent_fh].
  now rewrite last_cons.
Qed.

Lemma block_loop_bottom fuel : forall st l acc,
  h_name (bottom (fst (block_loop fs skip_line fuel st l acc))) = h_name (bottom st).
Proof.
  induction fuel as [|k IH]; intros st l acc; simpl; [reflexivity|].
  destruct (Py.startswith _ _); [reflexivity|].
  pose proof (readline_bottom st) as Hr.
  destruct (readline fs skip_line st) as [st1 l1]. cbn [fst] in Hr.
  now rewrite IH.
Qed.

Lemma process_line_bottom labell look fuel st line :
  h_name (bottom (fst (process_line fs directory skip_line labell look fuel st line)))
  = h_name (bottom st).
Proof.
  unfold process_line.
  destruct (Py.split line) as [|t ts]; [reflexivity|].
  destruct (Py.str_in "<" _).
  { destruct (is_block_of _ _); [reflexivity|].
    destruct (Py.str_in labell _); reflexivity. }
  destruct (String.eqb _ labell); [reflexivity|].
  destruct (String.eqb _ "%block").
  { destruct (item _ 1) as [l1| |]; try reflexivity.
    destruct (String.eqb l1 labell); [|reflexivity].
    unfold read_block.
    pose proof (readline_bottom st) as Hr.
    destruct (readline fs skip_line st) as [st1 l0]. cbn [fst] in Hr.
    pose proof (block_loop_bottom fuel st1 (Py.strip l0) []) as Hb.
    destruct (block_loop fs skip_line fuel st1 _ _) as [st2 [o|e|]];
      cbn [fst] in *; congruence. }
  destruct (String.eqb _ "%include"); [|reflexivity].
  destruct (item _ 1); try reflexivity.
  cbn [fst]. now rewrite pushfile_bottom.
Qed.

Lemma scan_bottom labell look fuel : forall st,
  h_name (bottom (fst (scan fs directory skip_line labell look fuel st)))
  = h_name (bottom st).
Proof.
  induction fuel as [|k IH]; intros st; simpl; [reflexivity|].
  pose proof (readline_bottom st) as Hr.
  destruct (readline fs skip_line st) as [st1 l0]. cbn [fst] in Hr.
  assert (Hgo : h_name (bottom (fst (if (Py.len (Py.before_char "#" l0) =? 0)%nat
                                     then _popfile st1 else (st1, true))))
                = h_name (bottom st)).
  { destruct (Py.len _ =? 0)%nat; [now rewrite popfile_bottom|exact Hr]. }
  destruct (if (Py.len _ =? 0)%nat then _popfile st1 else _) as [st2 go_on].
  cbn [fst] in Hgo. destruct go_on; [|exact Hgo].
  pose proof (process_line_bottom labell look k st2 (Py.before_char "#" l0)) as Hp.
  destruct (process_line _ _ _ _ _ _ st2 _) as [st3 [[v|]|e|]];
    cbn [fst] in *; first [congruence | rewrite IH; congruence].
Qed.

Lemma read_label_body_bottom labell look fuel st :
  h_name (bottom (fst (read_label_body fs directory skip_line labell look fuel st)))
  = h_name (bottom st).
Proof.
  unfold read_label_body.
  assert (Hs : h_name (bottom (_seek st)) = h_name (bottom st))
    by (now rewrite seek_spec).
  pose proof (readline_bottom (_seek st)) as Hr.
  destruct (readline fs skip_line (_seek st)) as [st1 l0]. cbn [fst] in Hr.
  destruct (Py.len _ =? 0)%nat; [cbn [fst]; congruence|].
  pose proof (process_line_bottom labell look fuel st1 (Py.before_char "#" l0)) as Hp.
  destruct (process_line _ _ _ _ _ _ st1 _) as [st2 [[v|]|e|]];
    cbn [fst] in *; first [congruence | rewrite scan_bottom; congruence].
Qed.

(** X1.  A lookup never leaves the primary file: whatever it pushed or
    popped, the file at the bottom of the stack is the same afterwards.  So
    a lookup made after another one, from the state the first one left,
    gives what it gives on its own. *)
Theorem lookups_independent (fuel1 fuel2 : nat) (st : state) (l1 l2 : string) :
  h_name (bottom (fst (_read_label fs directory skip_line fuel1 st l1)))
  = h_name (bottom st)
  /\ snd (_read_label fs directory skip_line fuel2
            (fst (_read_label fs directory skip_line fuel1 st l1)) l2)
     = snd (_read_label fs directory skip_line fuel2 st l2).
Proof.
  assert (Hb : h_name (bottom (fst (_read_label fs directory skip_line fuel1 st l1)))
               = h_name (bottom st)) by apply read_label_body_bottom.
  split; [exact Hb|].
  now apply read_label_body_cursor.
Qed.

End Primary.

(** ** What a lookup returns *)

Section WellFormed.

Variable fs : gmap string (list string).
Variable directory : string.
Variable skip_line : string -> bool.

Lemma block_loop_wf fuel : forall st l acc st' out,
  Py.strip l = l -> Forall tidy_line acc ->
  block_loop fs skip_line fuel st l acc = (st', Ret out) ->
  Forall tidy_line out.
Proof.
  induction fuel as [|k IH]; intros st l acc st' out Hl Hacc H; simpl in H;
    [discriminate|].
  destruct (Py.startswith _ _); [now injection H as _ <-|].
  destruct (readline fs skip_line st) as [st1 l1].
  apply IH in H; [exact H|apply strip_idem|].
  destruct (0 <? Py.len l)%nat eqn:Hn; [|exact Hacc].
  apply Forall_app. split; [exact Hacc|]. constructor; [|constructor].
  split; [|exact Hl]. intros ->. discriminate.
Qed.

Lemma valid_line_strip x : valid_line x = true -> Py.strip x <> "".
Proof. unfold valid_line. now destruct (Py.strip x). Qed.

Lemma piped_block_wf (lines : list string) :
  Forall tidy_line
    (map Py.strip (filter (fun l => valid_line l = true) (map (fun l => l +:+ nl) lines))).
Proof.
  apply Forall_map, Forall_forall. intros x Hx.
  apply list_elem_of_filter in Hx as [Hv _].
  split; [now apply valid_line_strip|apply strip_idem].
Qed.

Lemma scalar_wf line :
  Py.has_char "#" line = false ->
  well_formed_value (RStr (Py.strip (Py.join " " (tail (Py.split line))))).
Proof.
  intros Hh. split; [apply strip_idem|].
  apply has_char_strip, has_char_join; [reflexivity|].
  pose proof (has_char_split _ _ Hh) as Ht.
  destruct (Py.split line); [constructor|]. now inversion Ht.
Qed.

Variable labell : string.
Variable look : string -> outcome (option raw).
Hypothesis look_wf : forall p v, look p = Ret (Some v) -> well_formed_value v.

Lemma process_line_wf fuel st line st' v :
  Py.has_char "#" line = false ->
  process_line fs directory skip_line labell look fuel st line = (st', Ret (Some v)) ->
  well_formed_value v.
Proof.
  intros Hh. unfold process_line.
  pose proof (scalar_wf line Hh) as Hscalar.
  destruct (Py.split line) as [|t ts]; [discriminate|].
  destruct (Py.str_in "<" _).
  { destruct (is_block_of _ _).
    - destruct (item _ 3) as [f| |]; simpl; try discriminate.
      destruct (fs !! _) as [lines|]; [|discriminate].
      intros [= _ <-]. apply piped_block_wf.
    - destruct (Py.str_in labell _); [|discriminate].
      destruct (item _ _) as [f| |]; simpl; try discriminate.
      intros [= _ H]. now apply look_wf in H. }
  destruct (String.eqb _ labell); [now intros [= _ <-]|].
  destruct (String.eqb _ "%block").
  { destruct (item _ 1) as [l1| |]; try discriminate.
    destruct (String.eqb l1 labell); [|discriminate].
    unfold read_block. destruct (readline fs skip_line st) as [st1 l0].
    destruct (block_loop fs skip_line fuel st1 _ _) as [st2 [o|e|]] eqn:Hb;
      try discriminate.
    intros [= _ <-]. apply block_loop_wf in Hb; [exact Hb|apply strip_idem|constructor]. }
  destruct (String.eqb _ "%include"); [|discriminate].
  destruct (item _ 1); discriminate.
Qed.

Lemma scan_wf fuel : forall st st' v,
  scan fs directory skip_line labell look fuel st = (st', Ret (Some v)) ->
  well_formed_value v.
Proof.
  induction fuel as [|k IH]; intros st st' v H; simpl in H; [discriminate|].
  destruct (readline fs skip_line st) as [st1 l0].
  destruct (if (Py.len _ =? 0)%nat then _popfile st1 else _) as [st2 go_on].
  destruct go_on; [|discriminate].
  destruct (process_line _ _ _ _ _ _ st2 _) as [st3 [[w|]|e|]] eqn:Hp;
    try discriminate.
  - injection H as _ <-. apply process_line_wf in Hp; [exact Hp|apply has_char_before].
  - now apply IH in H.
Qed.

Lemma read_label_body_wf fuel st st' v :
  read_label_body fs directory skip_line labell look fuel st = (st', Ret (Some v)) ->
  well_formed_value v.
Proof.
  unfold read_label_body. destruct (readline fs skip_line _) as [st1 l0].
  destruct (Py.len _ =? 0)%nat; [discriminate|].
  destruct (process_line _ _ _ _ _ _ st1 _) as [st3 [[w|]|e|]] eqn:Hp;
    try discriminate.
  - intros [= _ <-]. apply process_line_wf in Hp; [exact Hp|apply has_char_before].
  - apply scan_wf.
Qed.

End WellFormed.

Lemma read_label_in_wf fs directory skip_line label fuel : forall path v,
  read_label_in fs directory skip_line fuel label path = Ret (Some v) ->
  well_formed_value v.
Proof.
  induction fuel as [|k IH]; intros path v H; simpl in H; [discriminate|].
  destruct (isfile fs path); [|discriminate].
  destruct (read_label_body _ _ _ _ _ _ _) as [st' r] eqn:Hb. simpl in H. subst r.
  now apply (read_label_body_wf _ _ _ _ _ IH) in Hb.
Qed.

(** X2.  A value that a lookup returns is tidy.  A scalar has no
    whitespace at either end and holds no comment sign: everything from the
    first [#] of its line on is dropped.  A block has no empty line, and no
    line of it has whitespace at either end. *)
Theorem lookup_value_well_formed (fs : gmap string (list string))
    (directory : string) (skip_line : string -> bool) (fuel : nat) (st st' : state)
    (label : string) (v : raw) :
  _read_label fs directory skip_line fuel st label = (st', Ret (Some v)) ->
  well_formed_value v.
Proof.
  unfold _read_label. apply read_label_body_wf.
  intros p w. apply read_label_in_wf.
Qed.

(** ** Numbers through [get] *)

Section Numbers.

Variable W : World.

Lemma type_single_inv v :
  _type_str v = T_r \/ _type_str v = T_i ->
  exists tok, Py.split v = [tok] /\ Py.float_ok (Py.lower tok) = true
              /\ (_type_str v = T_i -> Py.has_char "." (Py.lower tok) = false).
Proof.
  unfold _type_str. destruct (Py.split v) as [|tok [|v1 [|v2 l]]].
  - intros [H|H]; discriminate.
  - intros H. exists tok. split; [reflexivity|].
    destruct (Py.str_in _ _); [destruct H; discriminate|].
    destruct (Py.float_ok _); [|destruct H; discriminate].
    split; [reflexivity|]. now destruct (Py.has_char _ _).
  - destruct (Py.float_ok tok); intros [H|H]; discriminate.
  - intros [H|H]; discriminate.
Qed.

Lemma float_ok_of_split v tok : Py.split v = [tok] -> Py.float_ok v = Py.float_ok tok.
Proof.
  intros Hs. apply split_single_strip in Hs. unfold Py.float_ok.
  subst tok. now rewrite strip_idem.
Qed.

(** X3.  A value classified Real is always converted: [get] with no
    default returns its float and cannot raise.  A value classified Integer
    is a number for [float] without a decimal point; [get] returns its
    integer when [int] accepts it and raises [ValueError] otherwise. *)
Theorem numbers_convert (fuel : nat) (st st' : state) (label : string)
    (unit : option string) (with_unit : bool) (v : string) :
  _read_label (fs W) (directory W) (skip_line W) fuel st label
    = (st', Ret (Some (RStr v))) ->
  (_type (Some (RStr v)) = Some T_r ->
   get W fuel st label unit VNone with_unit
   = (st', Ret (VFloat (float_of_string W v))))
  /\ (_type (Some (RStr v)) = Some T_i ->
      Py.float_ok v = true /\ Py.has_char "." v = false
      /\ get W fuel st label unit VNone with_unit
         = (st', match Py.int_of_string v with
                 | Some z => Ret (VInt z)
                 | None => Raise ValueError
                 end)).
Proof.
  intros Hr. unfold get. rewrite Hr. simpl. split; intros [= Ht].
  - destruct (type_single_inv v (or_introl Ht)) as (tok & Hs & Hf & _).
    rewrite Ht. unfold py_float.
    now rewrite (float_ok_of_split _ _ Hs), <- float_ok_lower, Hf.
  - destruct (type_single_inv v (or_intror Ht)) as (tok & Hs & Hf & Hd).
    rewrite Ht. unfold py_int. split; [|split].
    + now rewrite (float_ok_of_split _ _ Hs), <- float_ok_lower.
    + rewrite <- has_dot_strip, (split_single_strip _ _ Hs), <- has_dot_lower.
      now apply Hd.
    + now destruct (Py.int_of_string v).
Qed.

End Numbers.

(** ** The accessor with a default *)

Section Defaults.

Variable W : World.





End Defaults.


(** ** The classifier, and what [get] makes of each kind *)

Section Classifier.

Variable W : World.

(** C6, as amended.  For a string value: a single token in the set of
    boolean literals classifies as Bool, and [get] returns a boolean for
    it, [True] exactly for the literals of truth; a single token that
    [float] accepts and that contains a decimal point classifies as Real; a
    single token that [int] accepts classifies as Integer; two tokens of
    which the first is accepted by [float] classify as Physical; every
    string that is none of these and is not a single token accepted by
    [float] classifies as Opaque, and [get] returns it as it is. *)
Theorem classifier_rules (value : string) :
  (forall tok, Py.split value = [tok] ->
     Py.str_in (Py.lower tok) _LOGICAL = true ->
     _type_str value = T_b
     /\ (forall unit default with_unit,
           typed W (RStr value) unit default with_unit
           = Ret (VBool (Py.str_in (Py.lower value) _LOGICAL_TRUE)))
     /\ (forall fuel st st' label unit default with_unit,
           _read_label (fs W) (directory W) (skip_line W) fuel st label
             = (st', Ret (Some (RStr value))) ->
           get W fuel st label unit default with_unit
           = (st', Ret (VBool (Py.str_in (Py.lower tok) _LOGICAL_TRUE)))))
  /\ (forall tok, Py.split value = [tok] ->
        Py.float_ok tok = true -> Py.has_char "." tok = true ->
        _type_str value = T_r)
  /\ (forall tok, Py.split value = [tok] ->
        Py.int_ok tok = true -> _type_str value = T_i)
  /\ (forall v0 v1, Py.split value = [v0; v1] ->
        Py.float_ok v0 = true -> _type_str value = T_p)
  /\ ((forall tok, Py.split value = [tok] ->
         Py.str_in (Py.lower tok) _LOGICAL = false /\ Py.float_ok tok = false) ->
      (forall v0 v1, Py.split value = [v0; v1] -> Py.float_ok v0 = false) ->
      _type_str value = T_n
      /\ (forall unit default with_unit,
            typed W (RStr value) unit default with_unit = Ret (VStr value))
      /\ (forall fuel st st' label unit default with_unit,
            _read_label (fs W) (directory W) (skip_line W) fuel st label
              = (st', Ret (Some (RStr value))) ->
            get W fuel st label unit default with_unit = (st', Ret (VStr value)))).
Proof.
  split; [|split; [|split; [|split]]].
  - intros tok Hs Hl.
    assert (Ht : _type_str value = T_b) by (unfold _type_str; now rewrite Hs, Hl).
    split; [exact Ht|]. split.
    + intros unit default with_unit. unfold typed. now rewrite Ht.
    + intros fuel st st' label unit default with_unit Hr.
      assert (Hwf : well_formed_value (RStr value)).
      { revert Hr. unfold _read_label. apply read_label_body_wf.
        intros p w. apply read_label_in_wf. }
      destruct Hwf as [Hstrip _].
      rewrite (split_single_strip _ _ Hs) in Hstrip. subst tok.
      unfold get. rewrite Hr. cbn [obind]. unfold typed. now rewrite Ht.
  - intros tok Hs Hf Hd. unfold _type_str. rewrite Hs.
    destruct (Py.str_in (Py.lower tok) _LOGICAL) eqn:Hl.
    + apply logical_not_float in Hl. congruence.
    + now rewrite float_ok_lower, Hf, has_dot_lower, Hd.
  - intros tok Hs Hi. unfold _type_str. rewrite Hs.
    apply int_ok_float_ok in Hi as [Hf Hd].
    destruct (Py.str_in (Py.lower tok) _LOGICAL) eqn:Hl.
    + apply logical_not_float in Hl. congruence.
    + now rewrite float_ok_lower, Hf, has_dot_lower, Hd.
  - intros v0 v1 Hs Hf. unfold _type_str. now rewrite Hs, Hf.
  - intros H1 H2.
    assert (Ht : _type_str value = T_n).
    { unfold _type_str.
      destruct (Py.split value) as [|v0 [|v1 [|v2 l]]]; try reflexivity.
      - destruct (H1 v0 eq_refl) as [Hl Hf]. now rewrite Hl, float_ok_lower, Hf.
      - now rewrite (H2 v0 v1 eq_refl). }
    split; [exact Ht|]. split.
    + intros unit default with_unit. unfold typed. now rewrite Ht.
    + intros fuel st st' label unit default with_unit Hr.
      unfold get. rewrite Hr. cbn [obind]. unfold typed. now rewrite Ht.
Qed.

End Classifier.

(** C6 as it was stated fails twice: ['1e5'] is a single token that [int]
    rejects and it classifies as Integer; ['true'] is none of the listed
    shapes and it classifies as Bool, and [get] returns a boolean for it. *)
Lemma classifier_counterexample :
  (Py.split "1e5" = ["1e5"] /\ Py.int_ok "1e5" = false /\ _type_str "1e5" = T_i)
  /\ (Py.split "true" = ["true"] /\ Py.float_ok "true" = false
      /\ _type_str "true" = T_b
      /\ typed (Demo.world ∅ "") (RStr "true") None VNone false = Ret (VBool true)).
Proof. repeat split. Qed.

(** ** The order of the sources *)

Section Sources.

Context {V : Type}.
Variable methods : list (string * outcome (option V)).

Lemma find_method_for f name r :
  List.find (fun m => String.eqb (fst m) (Py.lower f)) methods = Some (name, r) ->
  name = Py.lower f /\ method_for methods f = Some r.
Proof.
  intros Hf. unfold method_for. rewrite Hf. split; [|reflexivity].
  apply find_some in Hf as [_ Hf]. now apply String.eqb_eq in Hf.
Qed.

(** X4.  The loop over [order] calls the methods of the sources in the
    order given, none twice for one listing and none out of turn: the
    methods called are a prefix of the sources listed.  It answers [None]
    only after it has called every source listed and each has answered
    [None]. *)
Theorem resolve_in_order (order : list string) :
  called_prefix (fst (resolve methods order)) order
  /\ (snd (resolve methods order) = Ret None ->
      fst (resolve methods order) = map Py.lower order
      /\ Forall (fun f => method_for methods f = Some (Ret None)) order).
Proof.
  induction order as [|f rest [IHp IHn]]; simpl.
  - split; [now exists []|]. intros _. split; [reflexivity|constructor].
  - destruct (List.find _ methods) as [[name r]|] eqn:Hf.
    + apply find_method_for in Hf as [-> Hm].
      destruct r as [[v|]|e|]; simpl.
      * split; [now exists (map Py.lower rest)|discriminate].
      * destruct (resolve methods rest) as [called r'] eqn:Hr. simpl in *.
        split.
        -- destruct IHp as [tl Htl]. exists tl. simpl. now rewrite Htl.
        -- intros Hn. destruct (IHn Hn) as [-> Hall]. split; [reflexivity|].
           now constructor.
      * split; [now exists (map Py.lower rest)|discriminate].
      * split; [now exists (map Py.lower rest)|discriminate].
    + simpl. split; [now exists (Py.lower f :: map Py.lower rest)|discriminate].
Qed.

End Sources.

(** ** The readers of the fdf file itself *)

Section Substrings.

Lemma prefix_trans a : forall b c,
  String.prefix a b = true -> String.prefix b c = true -> String.prefix a c = true.
Proof.
  induction a as [|x a IH]; intros b c Hab Hbc; [now destruct c|].
  destruct b as [|y b]; [discriminate|]. destruct c as [|z c]; [discriminate|].
  simpl in *. destruct (ascii_dec x y) as [->|]; [|discriminate].
  destruct (ascii_dec y z) as [->|]; [|discriminate]. now apply (IH b c).
Qed.

Lemma contains_cons c s p : Py.contains s p = true -> Py.contains (String c s) p = true.
Proof. intros H. simpl. rewrite H. apply orb_true_r. Qed.

Lemma prefix_contains p : forall s q,
  String.prefix p s = true -> Py.contains p q = true -> Py.contains s q = true.
Proof.
  induction p as [|x p IH]; intros s q Hp Hq.
  - simpl in Hq. rewrite orb_false_r in Hq.
    destruct q; [|discriminate]. now destruct s.
  - destruct s as [|y s]; [discriminate|].
    simpl in Hp. destruct (ascii_dec x y) as [->|]; [|discriminate].
    simpl in Hq. apply orb_true_iff in Hq as [Hq|Hq].
    + simpl. apply orb_true_iff. left.
      apply (prefix_trans q (String y p) (String y s)); [exact Hq|].
      simpl. now destruct (ascii_dec y y).
    + apply contains_cons. now apply (IH s q).
Qed.

(** A string that holds [p] holds what [p] holds. *)
Lemma contains_trans s : forall p q,
  Py.contains s p = true -> Py.contains p q = true -> Py.contains s q = true.
Proof.
  induction s as [|c s IH]; intros p q Hsp Hpq.
  - simpl in Hsp. rewrite orb_false_r in Hsp. now apply (prefix_contains p).
  - simpl in Hsp. apply orb_true_iff in Hsp as [Hsp|Hsp].
    + now apply (prefix_contains p).
    + apply contains_cons. now apply (IH p q).
Qed.

Lemma not_contains_longer s p q :
  Py.contains p q = true -> Py.contains s q = false -> Py.contains s p = false.
Proof.
  intros Hpq Hsq. destruct (Py.contains s p) eqn:Hsp; [|reflexivity].
  now rewrite (contains_trans s p q Hsp Hpq) in Hsq.
Qed.

End Substrings.

Section FdfReaders.

Variable W : World.

(** X5.  The keyword of AtomicCoordinatesFormat is matched by substrings,
    in a fixed order: a keyword containing [ang] means coordinates in
    Angstrom whatever else it contains, then [bohr] means Bohr, then
    [scaledcartesian] means the lattice constant; the coordinates are
    fractional exactly when the keyword contains none of these three and
    contains [fractional] or [scaledbylatticevectors]. *)
Theorem coordinate_format_precedence (fuel : nat) (lc : string) :
  (Py.contains lc "ang" = true ->
   coordinate_format W fuel lc = Ret (Some (VFloat (f_one W)), false))
  /\ (Py.contains lc "ang" = false -> Py.contains lc "bohr" = true ->
      coordinate_format W fuel lc = Ret (Some (VFloat (Bohr2Ang W)), false))
  /\ (Py.contains lc "ang" = false -> Py.contains lc "bohr" = false ->
      Py.contains lc "scaledcartesian" = true ->
      coordinate_format W fuel lc
      = let! s := get_value W fuel "LatticeConstant" (Some "Ang") VNone false in
        Ret (Some s, false))
  /\ ((exists s, coordinate_format W fuel lc = Ret (s, true))
      <-> Py.contains lc "ang" = false /\ Py.contains lc "bohr" = false
          /\ Py.contains lc "scaledcartesian" = false
          /\ Py.contains lc "fractional" || Py.contains lc "scaledbylatticevectors"
             = true).
Proof.
  unfold coordinate_format.
  assert (Hang : Py.contains lc "ang" = false ->
                 Py.contains lc "notscaledcartesianang" = false)
    by (apply not_contains_longer; reflexivity).
  assert (Hbohr : Py.contains lc "bohr" = false ->
                  Py.contains lc "notscaledcartesianbohr" = false)
    by (apply not_contains_longer; reflexivity).
  destruct (Py.contains lc "ang") eqn:Ha.
  { simpl. split; [reflexivity|]. split; [discriminate|]. split; [discriminate|].
    split.
    - intros [s H]. discriminate.
    - intros [H _]. discriminate. }
  rewrite (Hang eq_refl). simpl.
  destruct (Py.contains lc "bohr") eqn:Hb.
  { simpl. split; [discriminate|]. split; [reflexivity|]. split; [discriminate|].
    split.
    - intros [s H]. discriminate.
    - intros (_ & H & _). discriminate. }
  rewrite (Hbohr eq_refl). simpl.
  destruct (Py.contains lc "scaledcartesian") eqn:Hs.
  { split; [discriminate|]. split; [discriminate|]. split; [reflexivity|].
    split.
    - intros [s H]. destruct (get_value _ _ _ _ _ _); discriminate.
    - intros (_ & _ & H & _). discriminate. }
  split; [discriminate|]. split; [discriminate|]. split; [discriminate|].
  split.
  - intros [s H]. repeat split. now destruct (_ || _).
  - intros (_ & _ & _ & H). rewrite H. now eexists.
Qed.

Lemma sequence_length {A} (l : list (outcome A)) : forall xs,
  sequence l = Ret xs -> length xs = length l.
Proof.
  induction l as [|m l IH]; intros xs H; simpl in H.
  - now injection H as <-.
  - destruct m as [x| |]; simpl in H; try discriminate.
    destruct (sequence l) as [ys| |]; simpl in H; try discriminate.
    injection H as <-. simpl. now rewrite (IH ys eq_refl).
Qed.

(** X6.  NumberOfAtoms against the lines of the atom block.  More atoms
    than lines is an error, and so is an empty block counted as such; a
    negative number is an error of numpy.  Otherwise exactly the first
    NumberOfAtoms lines are read and the rest of the block is ignored, and
    NumberOfAtoms 0 with a block that has lines gives no atoms at all
    without any error. *)
Theorem atom_block_bounds (fuel : nat) (lines : list string) (na : Z) :
  get_value W fuel "AtomicCoordinatesAndAtomicSpecies" None VNone false
    = Ret (VList lines) ->
  get_value W fuel "NumberOfAtoms" None (VInt (Z.of_nat (length lines))) false
    = Ret (VInt na) ->
  (Z.of_nat (length lines) < na -> read_atom_block W fuel = Raise SileError)
  /\ (na = 0 -> lines = [] -> read_atom_block W fuel = Raise SileError)
  /\ (na < 0 -> read_atom_block W fuel = Raise ValueError)
  /\ (na = 0 -> lines <> [] -> read_atom_block W fuel = Ret [])
  /\ (0 < na <= Z.of_nat (length lines) ->
      read_atom_block W fuel = sequence (map (atom_line W) (take (Z.to_nat na) lines))
      /\ forall rows, read_atom_block W fuel = Ret rows ->
                      length rows = Z.to_nat na).
Proof.
  intros Hb Hn. unfold read_atom_block. rewrite Hb. simpl. rewrite Hn. simpl.
  repeat split.
  - intros H. apply Z.gtb_lt in H. now rewrite H.
  - intros -> ->. reflexivity.
  - intros H. destruct (na >? _) eqn:Hg; [apply Z.gtb_lt in Hg; lia|].
    assert (H0 : (na =? 0) = false) by (apply Z.eqb_neq; lia).
    rewrite H0, andb_false_r. apply Z.ltb_lt in H. now rewrite H.
  - intros -> Hl. destruct lines as [|l0 rest]; [contradiction|]. reflexivity.
  - destruct H as [H0 H1].
    destruct (na >? _) eqn:Hg; [apply Z.gtb_lt in Hg; lia|].
    assert (Hz : (na =? 0) = false) by (apply Z.eqb_neq; lia).
    rewrite Hz, andb_false_r.
    assert (Hneg : (na <? 0) = false) by (apply Z.ltb_ge; lia). rewrite Hneg.
    unfold py_take. assert (Hp : (0 <=? na) = true) by (apply Z.leb_le; lia).
    now rewrite Hp.
  - intros rows. destruct H as [H0 H1].
    destruct (na >? _) eqn:Hg; [apply Z.gtb_lt in Hg; lia|].
    assert (Hz : (na =? 0) = false) by (apply Z.eqb_neq; lia).
    rewrite Hz, andb_false_r.
    assert (Hneg : (na <? 0) = false) by (apply Z.ltb_ge; lia). rewrite Hneg.
    unfold py_take. assert (Hp : (0 <=? na) = true) by (apply Z.leb_le; lia).
    rewrite Hp. intros Hs. apply sequence_length in Hs.
    rewrite Hs, length_map, length_take. lia.
Qed.

Ltac open_outcome H :=
  repeat match type of H with
         | context [obind ?m _] =>
             destruct m eqn:?; cbn [obind] in H; try discriminate H
         | context [match ?x with _ => _ end] =>
             destruct x eqn:?; cbn [obind] in H; try discriminate H
         end.

Lemma r_supercell_fdf_not_none fuel : _r_supercell_fdf W fuel <> Ret None.
Proof. unfold _r_supercell_fdf. intros H. open_outcome H. Qed.

Lemma r_geometry_fdf_not_none fuel origin : _r_geometry_fdf W fuel origin <> Ret None.
Proof. unfold _r_geometry_fdf. intros H. open_outcome H. Qed.

(** X7.  Read from the fdf file alone, the cell and the geometry are never
    [None]: [read_supercell()] and [read_geometry()] return the object or
    raise. *)
Theorem fdf_readers_never_none (fuel : nat) (origin : bool) :
  snd (read_supercell W fuel false None) <> Ret None
  /\ snd (read_geometry W fuel false None origin) <> Ret None.
Proof.
  unfold read_supercell, read_geometry. simpl. split.
  - pose proof (r_supercell_fdf_not_none fuel) as H.
    destruct (_r_supercell_fdf W fuel) as [[sc|]| |]; simpl; try discriminate.
    now destruct H.
  - pose proof (r_geometry_fdf_not_none fuel origin) as H.
    destruct (_r_geometry_fdf W fuel origin) as [[g|]| |]; simpl; try discriminate.
    now destruct H.
Qed.

(** X8.  A file without LatticeConstant, or with a lattice constant and
    neither a LatticeVectors nor a LatticeParameters block, has no cell:
    [read_supercell()] raises [SileError], and so does [read_geometry()],
    before it looks at any atom. *)
Theorem cell_is_required (fuel : nat) (origin : bool) :
  get_value W fuel "LatticeConstant" (Some "Ang") VNone false = Ret VNone
  \/ ((exists s, get_value W fuel "LatticeConstant" (Some "Ang") VNone false = Ret s
                 /\ s <> VNone)
      /\ get_value W fuel "LatticeVectors" None VNone false = Ret VNone
      /\ get_value W fuel "LatticeParameters" None VNone false = Ret VNone) ->
  read_supercell W fuel false None = (["fdf"], Raise SileError)
  /\ read_geometry W fuel false None origin = (["fdf"], Raise SileError).
Proof.
  intros H.
  assert (Hsc : _r_supercell_fdf W fuel = Raise SileError).
  { unfold _r_supercell_fdf. destruct H as [H | ((s & Hs & Hne) & Hv & Hp)].
    - now rewrite H.
    - rewrite Hs. simpl. rewrite Hv. simpl. rewrite Hp. simpl. now destruct s. }
  unfold read_supercell, read_geometry. simpl.
  unfold _r_geometry_fdf, read_supercell. simpl. now rewrite Hsc.
Qed.

(** X9.  With neither <SystemLabel>.nc nor <SystemLabel>.ORB_INDX in the
    directory, the number of supercells is that of a molecule: one cell
    along each axis. *)
Theorem supercell_nsc_of_a_molecule (fuel : nat) (p q : string) :
  companion W fuel ".nc" = Ret p -> isfile (fs W) p = false ->
  companion W fuel ".ORB_INDX" = Ret q -> isfile (fs W) q = false ->
  read_supercell_nsc W fuel None = Ret [1; 1; 1].
Proof.
  intros Hp Hpf Hq Hqf. unfold read_supercell_nsc. simpl.
  unfold _r_supercell_nsc_nc, _r_supercell_nsc_orb_indx.
  now rewrite (from_companion_absent W _ _ _ _ Hp Hpf),
              (from_companion_absent W _ _ _ _ Hq Hqf).
Qed.

Lemma operand_nonzero v z :
  operand_of W v = OInt z -> is_zero W v = false -> z <> 0.
Proof.
  destruct v as [| b | n | | | | |]; simpl; try discriminate.
  - intros [= <-] Hb. now destruct b.
  - intros [= <-] Hn. now apply Z.eqb_neq in Hn.
Qed.

(** X10.  Force constants are returned only from the array that the
    reader of <SystemLabel>.FC gives for the NumberOfAtoms of the fdf
    file, and only when MD.FCFirst and MD.FCLast are both set; given as
    integers they span as many atoms as that array has displaced ones, and
    the result is the array as read, or with [correct_fc] the corrected
    one.  (What becomes of float values of the two labels is left open.) *)
Theorem force_constants_are_consistent (fuel : nat) (correct_fc : bool)
    (fc' : FCdata W) :
  _r_force_constant_fc W fuel correct_fc = Ret (Some fc') ->
  exists p na fc vf vl,
    companion W fuel ".FC" = Ret p /\ isfile (fs W) p = true
    /\ get_value W fuel "NumberOfAtoms" None VNone false = Ret na
    /\ fc_read_force_constant W p na = Ret fc
    /\ get_value W fuel "MD.FCFirst" None (VInt 0) false = Ret vf
    /\ get_value W fuel "MD.FCLast" None (VInt 0) false = Ret vl
    /\ is_zero W vf = false /\ is_zero W vl = false
    /\ ((exists first last,
           operand_of W vf = OInt first /\ operand_of W vl = OInt last
           /\ first <> 0 /\ last <> 0
           /\ last - first + 1 = fc_shape0 W fc
           /\ (if correct_fc then fc_correct W fc first last = Ret fc'
               else fc' = fc))
        \/ operand_of W vf = OFloat \/ operand_of W vl = OFloat).
Proof.
  unfold _r_force_constant_fc. intros H.
  destruct (companion W fuel ".FC") as [p| |] eqn:Hc; simpl in H; try discriminate.
  destruct (isfile (fs W) p) eqn:Hp; [|discriminate].
  destruct (get_value W fuel "NumberOfAtoms" _ _ _) as [na| |] eqn:Hna; simpl in H;
    try discriminate.
  destruct (fc_read_force_constant W p na) as [fc| |] eqn:Hfc; simpl in H;
    try discriminate.
  destruct (get_value W fuel "MD.FCFirst" _ _ _) as [vf| |] eqn:Hvf; simpl in H;
    try discriminate.
  destruct (get_value W fuel "MD.FCLast" _ _ _) as [vl| |] eqn:Hvl; simpl in H;
    try discriminate.
  destruct (is_zero W vf || is_zero W vl) eqn:Hz; [discriminate|].
  apply orb_false_iff in Hz as [Hzf Hzl].
  exists p, na, fc, vf, vl.
  split; [reflexivity|]. split; [exact Hp|]. split; [reflexivity|].
  split; [exact Hfc|]. split; [reflexivity|]. split; [reflexivity|].
  split; [exact Hzf|]. split; [exact Hzl|].
  destruct (operand_of W vf) as [first| |] eqn:Hof;
    destruct (operand_of W vl) as [last| |] eqn:Hol; try discriminate;
    try (right; left; reflexivity); try (right; right; reflexivity).
  left. exists first, last.
  split; [reflexivity|]. split; [reflexivity|].
  split; [exact (operand_nonzero _ _ Hof Hzf)|].
  split; [exact (operand_nonzero _ _ Hol Hzl)|].
  destruct (last - first + 1 =? fc_shape0 W fc) eqn:Hs; simpl in H; [|discriminate].
  apply Z.eqb_eq in Hs. split; [exact Hs|].
  destruct correct_fc.
  - destruct (fc_correct W fc first last) as [c| |]; simpl in H; try discriminate.
    now injection H as ->.
  - now injection H as ->.
Qed.

Lemma diff_arange (a : Z) (n : nat) : forall k,
  existsb (fun d => negb (d =? 1))
          (diff (map (fun i => a + Z.of_nat i) (seq k n))) = false.
Proof.
  induction n as [|n IH]; intros k; [reflexivity|].
  destruct n as [|m]; [reflexivity|].
  specialize (IH (S k)).
  change (seq k (S (S m))) with (k :: seq (S k) (S m)).
  change (seq (S k) (S m)) with (S k :: seq (S (S k)) m) in *.
  cbn [map diff existsb] in *. rewrite IH.
  replace (a + Z.of_nat (S k) - (a + Z.of_nat k)) with 1 by lia. reflexivity.
Qed.

(** X11.  The atoms between MD.FCFirst and MD.FCLast are consecutive by
    construction, so the test of [_r_hessian_fc] for displaced atoms that
    are not consecutive never finds any. *)
Theorem fc_atoms_are_consecutive (fc_first fc_last : Z) :
  existsb (fun d => negb (d =? 1)) (diff (arangei (fc_first - 1) fc_last)) = false.
Proof. unfold arangei. apply diff_arange. Qed.

End FdfReaders.

(** ** Grids *)

Section Grids.

Variable W : World.
Variable Grid : Type.
Variable nc_read_grid : string -> option string -> outcome (option Grid).
Variable gridnc_read_grid : string -> outcome Grid.
Variable grid_set_geometry : Grid -> option (Geometry (F W) (Orb W)) -> outcome unit.

Lemma r_grid_grid_nc_no_grid fuel name g :
  _r_grid_grid_nc W Grid gridnc_read_grid grid_set_geometry fuel name <> Ret (Some g).
Proof.
  unfold _r_grid_grid_nc. destruct (dict_get _ _); [|discriminate].
  destruct (isfile _ _); [|discriminate].
  destruct (gridnc_read_grid _); simpl; try discriminate.
  destruct (snd (read_geometry _ _ _ _ _)); simpl; try discriminate.
  destruct (grid_set_geometry _ _); simpl; discriminate.
Qed.

(** X12.  With the order it has by default, [read_grid] never answers
    [None]: its second entry, ['grid.nc'], names no method, so when the
    aggregated file has no grid to give the call ends in AttributeError. *)
Theorem read_grid_default_order (fuel : nat) (name : string) :
  snd (read_grid W Grid nc_read_grid gridnc_read_grid grid_set_geometry fuel name None)
  <> Ret None
  /\ (_r_grid_nc W Grid nc_read_grid fuel name = Ret None ->
      read_grid W Grid nc_read_grid gridnc_read_grid grid_set_geometry fuel name None
      = (["nc"], Raise AttributeError)).
Proof.
  unfold read_grid, grid_methods.
  change (default ["nc"; "grid.nc"] None) with ["nc"; "grid.nc"].
  remember (_r_grid_nc W Grid nc_read_grid fuel name) as r eqn:Hr. clear Hr.
  destruct r as [[g|]| |]; cbn; split; solve [discriminate | reflexivity].
Qed.

(** X13.  The reader of the files with one quantity each never hands a
    grid back: it reads the grid, sets its geometry and answers [None], and
    a name it does not know is a TypeError.  So [read_grid] with an order
    that lists only that reader never returns a grid. *)
Theorem grid_nc_files_give_no_grid (fuel : nat) (name : string) :
  (forall g, _r_grid_grid_nc W Grid gridnc_read_grid grid_set_geometry fuel name
             <> Ret (Some g))
  /\ (dict_get grid_names_grid_nc (Py.lower name) = None ->
      _r_grid_grid_nc W Grid gridnc_read_grid grid_set_geometry fuel name = Raise TypeError)
  /\ (forall order g, Forall (fun f => Py.lower f = "grid_nc") order ->
                      snd (read_grid W Grid nc_read_grid gridnc_read_grid
                             grid_set_geometry fuel name (Some order))
                      <> Ret (Some g)).
Proof.
  split; [intros g; apply r_grid_grid_nc_no_grid|]. split.
  - intros H. unfold _r_grid_grid_nc. now rewrite H.
  - intros order g Ho. unfold read_grid.
    change (default ["nc"; "grid.nc"] (Some order)) with order.
    induction Ho as [|f rest Hf _ IH]; [discriminate|].
    cbn [resolve]. rewrite Hf.
    change (List.find _ (grid_methods _ _ _ _ _ fuel name))
      with (Some ("grid_nc",
                  _r_grid_grid_nc W Grid gridnc_read_grid grid_set_geometry fuel name)).
    pose proof (r_grid_grid_nc_no_grid fuel name) as Hno.
    destruct (_r_grid_grid_nc W Grid gridnc_read_grid grid_set_geometry fuel name)
      as [[v|]|e|]; try discriminate.
    + now destruct (Hno v).
    + destruct (resolve _ rest). exact IH.
Qed.

End Grids.

(** ** The list of included files *)

Section Includes.

Variable fs : gmap string (list string).
Variable directory : string.
Variable skip_line : string -> bool.

Lemma str_in_false x l : Py.str_in x l = false -> x ∉ l.
Proof.
  intros H Hin. apply list_elem_of_In in Hin.
  assert (Ht : Py.str_in x l = true).
  { apply existsb_exists. exists x. split; [exact Hin|apply String.eqb_refl]. }
  congruence.
Qed.

Lemma includes_add_ok acc f :
  distinct_paths directory acc -> distinct_paths directory (includes_add directory acc f).
Proof.
  intros [Hn Hf]. unfold includes_add.
  destruct (Py.str_in _ acc) eqn:Hin; [now split|]. split.
  - apply NoDup_app. split; [exact Hn|]. split; [|apply NoDup_singleton].
    intros x Hx Hs. apply list_elem_of_singleton in Hs. subst x.
    now apply str_in_false in Hin.
  - apply Forall_app. split; [exact Hf|]. apply Forall_singleton. now eexists.
Qed.

Lemma includes_line_ok st l acc acc' st' :
  includes_line fs directory st l acc = Ret (acc', st') ->
  distinct_paths directory acc -> distinct_paths directory acc'.
Proof.
  unfold includes_line. intros H Hacc.
  destruct (item (Py.split l) 0) as [t0| |]; cbn [obind] in H; try discriminate.
  destruct (String.eqb "%include" (Py.lower t0)).
  - destruct (item (Py.split l) 1) as [f| |]; cbn [obind] in H; try discriminate.
    injection H as <- _. now apply includes_add_ok.
  - destruct (Py.str_in "<" (Py.split l)).
    + destruct (item (Py.split l) _) as [f| |]; cbn [obind] in H; try discriminate.
      injection H as <- _. now apply includes_add_ok.
    + injection H as <- _. exact Hacc.
Qed.

Lemma includes_loop_ok fuel : forall st l acc r,
  snd (includes_loop fs directory skip_line fuel st l acc) = Ret r ->
  distinct_paths directory acc -> distinct_paths directory r.
Proof.
  induction fuel as [|k IH]; intros st l acc r H Hacc; [discriminate|].
  cbn [includes_loop] in H. destruct (String.eqb l "").
  - cbn [snd] in H. injection H as <-. exact Hacc.
  - destruct (includes_line fs directory st l acc) as [[acc' st']| |] eqn:Hl;
      cbn [snd] in H; try discriminate.
    destruct (readline fs skip_line st') as [st1 l1].
    destruct (includes_refill _ _ _ _ _) as [st2 l2].
    apply (IH _ _ _ _ H). now apply (includes_line_ok _ _ _ _ _ Hl).
Qed.

(** X14.  The list [includes] returns holds no path twice, however often a
    file is named, and every entry is a path under the directory of the
    instance. *)
Theorem includes_are_distinct_paths (fuel : nat) (st : state) (l : list string) :
  snd (includes fs directory skip_line fuel st) = Ret l ->
  distinct_paths directory l.
Proof.
  unfold includes. destruct (readline fs skip_line (_seek st)) as [st1 l1].
  intros H. apply (includes_loop_ok _ _ _ _ _ H).
  split; [apply NoDup_nil_2|apply Forall_nil_2].
Qed.

(** X15.  The loop of [includes] takes the first word of every line that
    is delivered to it: a line of whitespace only, and an [%include]
    without a file name, end the call in IndexError. *)
Theorem includes_needs_words (fuel : nat) (st : state) (l : string)
    (acc : list string) :
  l <> "" ->
  Py.split l = [] \/ (exists t, Py.split l = [t] /\ Py.lower t = "%include") ->
  snd (includes_loop fs directory skip_line (S fuel) st l acc) = Raise IndexError.
Proof.
  intros Hl Hs. cbn [includes_loop].
  apply String.eqb_neq in Hl. rewrite Hl. unfold includes_line.
  destruct Hs as [Hs | (t & Hs & Ht)]; rewrite Hs.
  - reflexivity.
  - cbn. rewrite Ht. reflexivity.
Qed.

End Includes.

(** ** Rewriting a key *)

Section Writer.

Variable W : World.
Variable line_has_key : string -> string -> bool.
Variable today : string.

Lemma append_assoc a b c : (a +:+ b) +:+ c = a +:+ (b +:+ c).
Proof.
  induction a as [|x a IH]; [reflexivity|].
  change (String x ((a +:+ b) +:+ c) = String x (a +:+ (b +:+ c))). now rewrite IH.
Qed.

Lemma append_empty_r a : a +:+ "" = a.
Proof.
  induction a as [|x a IH]; [reflexivity|].
  change (String x (a +:+ "") = String x a). now rewrite IH.
Qed.

Lemma written_app a b : written (a ++ b) = written a +:+ written b.
Proof.
  induction a as [|x a IH]; [reflexivity|].
  change (written ((x :: a) ++ b)) with (x +:+ written (a ++ b)).
  change (written (x :: a)) with (x +:+ written a).
  now rewrite IH, append_assoc.
Qed.

Lemma set_loop_rest key value keep rest :
  set_loop W line_has_key today key value keep false rest = (written rest, Ret tt).
Proof.
  induction rest as [|line rest IH]; [reflexivity|].
  cbn [set_loop]. now rewrite andb_false_r, IH.
Qed.

Lemma set_loop_skip key value keep do_write before rest :
  Forall (fun x => line_has_key x (Py.lower key) = false) before ->
  set_loop W line_has_key today key value keep do_write (before ++ rest)
  = (written before +:+ fst (set_loop W line_has_key today key value keep do_write rest),
     snd (set_loop W line_has_key today key value keep do_write rest)).
Proof.
  induction 1 as [|line before Hl _ IH].
  - simpl. now destruct (set_loop _ _ _ _ _ _ _ rest).
  - cbn [app set_loop]. rewrite Hl, IH. cbn [andb written fold_right].
    now rewrite append_assoc.
Qed.

(** X16.  [set] never adds a key: when no line of the file it rewrites
    has the key, the file is written back as it was, whatever the value,
    also one for which [set] is not implemented. *)
Theorem set_adds_no_key (fuel : nat) (key : string) (value : pyval (F W))
    (keep : bool) (top : string) (lines : list string) :
  set_target W fuel key = Ret top ->
  fs W !! top = Some lines ->
  Forall (fun l => line_has_key (l +:+ nl) (Py.lower key) = false) lines ->
  set W line_has_key today fuel key value keep
  = Ret (top, written (map (fun l => l +:+ nl) lines), Ret tt).
Proof.
  intros Ht Hf Hk. unfold set. rewrite Ht. cbn [obind]. rewrite Hf.
  rewrite <- (app_nil_r (map _ lines)) at 1.
  rewrite set_loop_skip by (now apply List.Forall_map).
  cbn [set_loop fst snd]. now rewrite append_empty_r.
Qed.

(** X17.  [set] rewrites the first line that has the key and no other.  A
    string takes the place of the line, followed, with [keep], by a dated
    comment and the old line; [None] writes nothing, so that without [keep]
    the line is deleted; any other value raises NotImplementedError after
    the file has been cut down to the lines before the key. *)
Theorem set_rewrites_first_match (fuel : nat) (key : string) (keep : bool)
    (top : string) (before : list string) (line : string) (after : list string) :
  set_target W fuel key = Ret top ->
  fs W !! top = Some (before ++ line :: after) ->
  Forall (fun l => line_has_key (l +:+ nl) (Py.lower key) = false) before ->
  line_has_key (line +:+ nl) (Py.lower key) = true ->
  let old := if keep then ["# Old value (" +:+ today +:+ ")" +:+ nl; line +:+ nl]
             else [] in
  let ends l := map (fun l => l +:+ nl) l in
  (forall v,
      set W line_has_key today fuel key (VStr v) keep
      = Ret (top,
             written (ends before
                      ++ [key +:+ " " +:+ v; if Py.contains v nl then "" else nl]
                      ++ old ++ ends after),
             Ret tt))
  /\ set W line_has_key today fuel key VNone keep
     = Ret (top, written (ends before ++ old ++ ends after), Ret tt)
  /\ (forall value, value <> VNone -> (forall v, value <> VStr v) ->
      set W line_has_key today fuel key value keep
      = Ret (top, written (ends before), Raise NotImplementedError)).
Proof.
  intros Ht Hf Hk Hl old ends.
  assert (Hset : forall value,
             set W line_has_key today fuel key value keep
             = Ret (top,
                    written (ends before)
                    +:+ fst (set_loop W line_has_key today key value keep true
                               (ends (line :: after))),
                    snd (set_loop W line_has_key today key value keep true
                           (ends (line :: after))))).
  { intros value. unfold set. rewrite Ht. cbn [obind]. rewrite Hf.
    rewrite map_app. fold (ends before). fold (ends (line :: after)).
    rewrite set_loop_skip by (now apply List.Forall_map). reflexivity. }
  assert (Hold : written old
                 = if keep then "# Old value (" +:+ today +:+ ")" +:+ nl +:+ (line +:+ nl)
                   else "").
  { unfold old. destruct keep; [|reflexivity]. cbn [written fold_right].
    now rewrite !append_assoc. }
  split; [|split].
  - intros v. rewrite Hset. unfold ends at 2 3. cbn [map set_loop].
    rewrite Hl. cbn [andb set_write]. rewrite set_loop_rest. cbn [fst snd].
    f_equal. f_equal. f_equal.
    rewrite !written_app, Hold. cbn [written fold_right]. unfold print_str.
    destruct keep; now rewrite ?append_assoc.
  - rewrite Hset. unfold ends at 2 3. cbn [map set_loop].
    rewrite Hl. cbn [andb set_write]. rewrite set_loop_rest. cbn [fst snd].
    f_equal. f_equal. f_equal.
    rewrite !written_app, Hold.
    destruct keep; now rewrite ?append_assoc.
  - intros value Hn Hs. rewrite Hset. unfold ends at 2 3. cbn [map set_loop].
    rewrite Hl. cbn [andb].
    assert (Hw : set_write W key value = Raise NotImplementedError).
    { destruct value; try reflexivity; [now destruct Hn|now destruct (Hs s)]. }
    rewrite Hw. cbn [fst snd].
    now rewrite append_empty_r.
Qed.

End Writer.

(** ** Species and the coordinate format *)

Section Species.

Variable W : World.

Lemma py_set_length {A} (l l' : list A) i x :
  py_set l i x = Ret l' -> length l' = length l.
Proof.
  unfold py_set. destruct (py_pos l i) as [k| |]; cbn [obind]; try discriminate.
  intros H. injection H as <-. apply length_insert.
Qed.

Lemma py_set_Forall {A} (P : A -> Prop) (l l' : list A) i x :
  py_set l i x = Ret l' -> Forall P l -> P x -> Forall P l'.
Proof.
  unfold py_set. destruct (py_pos l i) as [k| |]; cbn [obind]; try discriminate.
  intros H Hl Hx. injection H as <-. now apply Forall_insert.
Qed.

(** The loop of [_r_basis_fdf] keeps the length of the list and writes
    only atoms made from the lines it is given. *)
Lemma foldl_fdf_inv (P : option (Atom (F W) (Orb W)) -> Prop) lines :
  (forall spc i z lbl, spc ∈ lines -> species_line spc = Ret (i, z, lbl) ->
                       P (Some (Atom_new W z (Some lbl)))) ->
  forall acc atom,
    foldl (basis_fdf_step W) acc lines = Ret atom ->
    exists a0, acc = Ret a0 /\ length atom = length a0 /\ (Forall P a0 -> Forall P atom).
Proof.
  induction lines as [|spc rest IH]; intros HP acc atom H.
  - exists atom. now repeat split.
  - cbn [foldl] in H.
    destruct (IH (fun s i z lbl Hs => HP s i z lbl (list_elem_of_further _ _ _ Hs))
                 _ _ H) as (a1 & Hstep & Hlen & Hall).
    destruct acc as [a0| |]; cbn [basis_fdf_step obind] in Hstep; try discriminate.
    destruct (species_line spc) as [[[i z] lbl]| |] eqn:Hs; cbn [obind] in Hstep;
      try discriminate.
    exists a0. split; [reflexivity|]. split.
    + rewrite Hlen. now apply py_set_length in Hstep.
    + intros Ha0. apply Hall. apply (py_set_Forall _ _ _ _ _ Hstep Ha0).
      apply (HP spc i z lbl); [apply list_elem_of_here|exact Hs].
Qed.

(** The loop of [_r_basis_ion] keeps the length of the list, and
    [found_one] becomes true only at a species with an ion file. *)
Lemma foldl_ion_inv lines :
  forall acc atom fo fa,
    foldl (basis_ion_step W) acc lines = Ret (atom, fo, fa) ->
    exists a0 fo0 fa0,
      acc = Ret (a0, fo0, fa0) /\ length atom = length a0
      /\ (fo = true ->
          fo0 = true
          \/ exists spc i z lbl,
               spc ∈ lines /\ species_line spc = Ret (i, z, lbl)
               /\ (isfile (fs W) (_tofile (directory W) lbl +:+ ".ion.nc") = true
                   \/ isfile (fs W) (_tofile (directory W) lbl +:+ ".ion.xml") = true)).
Proof.
  induction lines as [|spc rest IH]; intros acc atom fo fa H.
  - exists atom, fo, fa. repeat split; auto.
  - cbn [foldl] in H. destruct (IH _ _ _ _ H) as (a1 & fo1 & fa1 & Hstep & Hlen & Hfo).
    destruct acc as [[[a0 fo0] fa0]| |]; cbn [basis_ion_step obind] in Hstep;
      try discriminate.
    destruct (species_line spc) as [[[i z] lbl]| |] eqn:Hs; cbn [obind] in Hstep;
      try discriminate.
    exists a0, fo0, fa0. split; [reflexivity|].
    destruct (isfile (fs W) (_tofile (directory W) lbl +:+ ".ion.nc")) eqn:Hnc;
      [|destruct (isfile (fs W) (_tofile (directory W) lbl +:+ ".ion.xml")) eqn:Hxml].
    + destruct (ionnc_read_basis W _) as [a| |]; cbn [obind] in Hstep; try discriminate.
      destruct (py_set a0 i (Some a)) as [a2| |] eqn:Hset; cbn [obind] in Hstep;
        try discriminate.
      injection Hstep as <- <- <-. split.
      * rewrite Hlen. now apply py_set_length in Hset.
      * intros _. right. exists spc, i, z, lbl.
        split; [apply list_elem_of_here|]. split; [exact Hs|]. now left.
    + destruct (ionxml_read_basis W _) as [a| |]; cbn [obind] in Hstep; try discriminate.
      destruct (py_set a0 i (Some a)) as [a2| |] eqn:Hset; cbn [obind] in Hstep;
        try discriminate.
      injection Hstep as <- <- <-. split.
      * rewrite Hlen. now apply py_set_length in Hset.
      * intros _. right. exists spc, i, z, lbl.
        split; [apply list_elem_of_here|]. split; [exact Hs|]. now right.
    + destruct (py_set a0 i _) as [a2| |] eqn:Hset; cbn [obind] in Hstep;
        try discriminate.
      injection Hstep as <- <- <-. split.
      * rewrite Hlen. now apply py_set_length in Hset.
      * intros Ht. destruct (Hfo Ht) as [Hfo0 | (s & i' & z' & lbl' & Hin & Hs' & Hf)].
        -- now left.
        -- right. exists s, i', z', lbl'. split; [now apply list_elem_of_further|].
           now split.
Qed.

(** X18.  The species read from the fdf file alone: the list has one
    entry for each line of the ChemicalSpeciesLabel block, and an entry
    is either still empty or the atom of one of the lines, with the atomic
    number and the label of that line. *)
Theorem fdf_basis_follows_the_block (fuel : nat)
    (atom : list (option (Atom (F W) (Orb W)))) :
  _r_basis_fdf W fuel = Ret (Some atom) ->
  exists v lines,
    get_value W fuel "ChemicalSpeciesLabel" None VNone false = Ret v
    /\ lines_of W v = Ret lines
    /\ length atom = length lines
    /\ Forall (fun a => a = None
                        \/ exists spc i z lbl,
                             spc ∈ lines /\ species_line spc = Ret (i, z, lbl)
                             /\ a = Some (Atom_new W z (Some lbl))) atom.
Proof.
  unfold _r_basis_fdf. intros H.
  destruct (get_value W fuel "ChemicalSpeciesLabel" None VNone false) as [v| |];
    cbn [obind] in H; try discriminate.
  exists v.
  assert (Hv : exists lines, lines_of W v = Ret lines
                 /\ foldl (basis_fdf_step W) (Ret (replicate (length lines) None)) lines
                    = Ret atom).
  { destruct v; try discriminate H;
      (destruct (lines_of W _) as [lines| |]; cbn [obind] in H; try discriminate;
       exists lines; split; [reflexivity|];
       destruct (foldl _ _ lines) as [a| |]; cbn [obind] in H; try discriminate;
       now injection H as <-). }
  destruct Hv as (lines & Hl & Hfold). exists lines.
  split; [reflexivity|]. split; [exact Hl|].
  destruct (foldl_fdf_inv
              (fun a => a = None
                        \/ exists spc i z lbl,
                             spc ∈ lines /\ species_line spc = Ret (i, z, lbl)
                             /\ a = Some (Atom_new W z (Some lbl)))
              lines)
    with (acc := Ret (replicate (length lines) (@None (Atom (F W) (Orb W)))))
         (atom := atom)
    as (a0 & Ha0 & Hlen & Hall).
  - intros spc i z lbl Hin Hs. right. now exists spc, i, z, lbl.
  - exact Hfold.
  - injection Ha0 as <-. split.
    + now rewrite Hlen, length_replicate.
    + apply Hall. apply Forall_replicate. now left.
Qed.

(** X19.  The reader of the ion files gives a basis only when the file of
    a species is there, [<label>.ion.nc] or [<label>.ion.xml]; the list it
    gives has one entry for each line of the block. *)
Theorem ion_basis_needs_an_ion_file (fuel : nat)
    (atom : list (option (Atom (F W) (Orb W)))) :
  _r_basis_ion W fuel = Ret (Some atom) ->
  exists v lines spc i z lbl,
    get_value W fuel "ChemicalSpeciesLabel" None VNone false = Ret v
    /\ lines_of W v = Ret lines
    /\ length atom = length lines
    /\ spc ∈ lines /\ species_line spc = Ret (i, z, lbl)
    /\ (isfile (fs W) (_tofile (directory W) lbl +:+ ".ion.nc") = true
        \/ isfile (fs W) (_tofile (directory W) lbl +:+ ".ion.xml") = true).
Proof.
  unfold _r_basis_ion. intros H.
  destruct (get_value W fuel "ChemicalSpeciesLabel" None VNone false) as [v| |];
    cbn [obind] in H; try discriminate.
  exists v.
  assert (Hv : exists lines fa, lines_of W v = Ret lines
                 /\ foldl (basis_ion_step W)
                      (Ret (replicate (length lines) None, false, true)) lines
                    = Ret (atom, true, fa)).
  { destruct v; try discriminate H;
      (destruct (lines_of W _) as [lines| |]; cbn [obind] in H; try discriminate;
       destruct (foldl _ _ lines) as [[[a fo] fa]| |] eqn:Hf; cbn [obind] in H;
         try discriminate;
       destruct fo; try discriminate;
       exists lines, fa; split; [reflexivity|];
       injection H as <-; exact Hf). }
  destruct Hv as (lines & fa & Hl & Hfold). exists lines.
  destruct (foldl_ion_inv _ _ _ _ _ Hfold)
    as (a0 & fo0 & fa0 & Ha0 & Hlen & Hfo).
  injection Ha0 as <- <- <-.
  destruct (Hfo eq_refl) as [Hfalse | (spc & i & z & lbl & Hin & Hs & Hfile)];
    [discriminate|].
  exists spc, i, z, lbl. split; [reflexivity|]. split; [exact Hl|]. split.
  - now rewrite Hlen, length_replicate.
  - now repeat split.
Qed.

(** X20.  An AtomicCoordinatesFormat that holds none of the keywords
    leaves the scale of the coordinates unbound: the fdf reader then never
    gives a geometry, and with a cell, atoms and no origin to read it ends
    in UnboundLocalError. *)
Theorem unknown_format_gives_no_geometry (fuel : nat) (origin : bool) (f : string) :
  get_value W fuel "AtomicCoordinatesFormat" None (VStr "Bohr") false = Ret (VStr f) ->
  Forall (fun k => Py.contains (Py.lower f) k = false)
         ["ang"; "bohr"; "scaledcartesian"; "fractional"; "scaledbylatticevectors"] ->
  (forall g, _r_geometry_fdf W fuel origin <> Ret g)
  /\ (forall sc rows,
         snd (read_supercell W fuel false (Some ["fdf"])) = Ret (Some sc) ->
         get_value W fuel "AtomicCoordinatesOrigin" None VNone false = Ret VNone ->
         read_atom_block W fuel = Ret rows ->
         _r_geometry_fdf W fuel origin = Raise UnboundLocalError).
Proof.
  intros Hf Hk.
  assert (Hc : coordinate_format W fuel (Py.lower f) = Ret (None, false)).
  { inversion Hk as [|? ? Ha Hk1]; subst. inversion Hk1 as [|? ? Hb Hk2]; subst.
    inversion Hk2 as [|? ? Hs Hk3]; subst. inversion Hk3 as [|? ? Hfr Hk4]; subst.
    inversion Hk4 as [|? ? Hsl _]; subst.
    unfold coordinate_format.
    rewrite Ha, (not_contains_longer _ "notscaledcartesianang" "ang" eq_refl Ha).
    rewrite Hb, (not_contains_longer _ "notscaledcartesianbohr" "bohr" eq_refl Hb).
    now rewrite Hs, Hfr, Hsl. }
  split.
  - intros g. unfold _r_geometry_fdf.
    destruct (snd (read_supercell W fuel false (Some ["fdf"]))) as [[sc|]| |];
      cbn [obind]; try discriminate.
    + rewrite Hf. cbn [obind]. rewrite Hc. cbn [obind].
      destruct (read_origo W fuel origin None) as [o| |]; cbn [obind]; try discriminate.
      destruct (read_atom_block W fuel) as [rows| |]; cbn [obind]; discriminate.
    + destruct (beyond W _ _) as [sc| |]; cbn [obind]; try discriminate.
      rewrite Hf. cbn [obind]. rewrite Hc. cbn [obind].
      destruct (read_origo W fuel origin None) as [o| |]; cbn [obind]; try discriminate.
      destruct (read_atom_block W fuel) as [rows| |]; cbn [obind]; discriminate.
  - intros sc rows Hsc Ho Hrows. unfold _r_geometry_fdf.
    rewrite Hsc. cbn [obind]. rewrite Hf. cbn [obind]. rewrite Hc. cbn [obind].
    unfold read_origo. rewrite Ho. cbn [obind truthy andb]. now rewrite Hrows.
Qed.

End Species.

(** ** The further properties at work on the example directories *)

Lemma lookup_value_well_formed_witness :
  _read_label Cases.block_and_comment "." Demo.starts_with_comment 20
    (fresh "./RUN.fdf") "Foo"
  = (State (Handle "./RUN.fdf" 6) [] [] [], Ret (Some (RBlock ["1 2 3"; "4 5 6"])))
  /\ well_formed_value (RStr "7") /\ well_formed_value (RBlock ["1 2 3"; "4 5 6"]).
Proof.
  split; [vm_compute; reflexivity|]. split.
  - apply (lookup_value_well_formed Cases.block_and_comment "." Demo.starts_with_comment
             20 (fresh "./RUN.fdf") (State (Handle "./RUN.fdf" 1) [] [] []) "Label").
    vm_compute. reflexivity.
  - apply (lookup_value_well_formed Cases.block_and_comment "." Demo.starts_with_comment
             20 (fresh "./RUN.fdf") (State (Handle "./RUN.fdf" 6) [] [] []) "Foo").
    vm_compute. reflexivity.
Defined.

Lemma numbers_convert_witness :
  let W := Demo.world Examples.scalars "./RUN.fdf" in
  get W 20 (fresh "./RUN.fdf") "Label" None VNone false
  = (State (Handle "./RUN.fdf" 2) [] [] [], Ret (VInt 7)).
Proof.
  intros W.
  destruct (numbers_convert W 20 (fresh "./RUN.fdf")
              (State (Handle "./RUN.fdf" 2) [] [] []) "Label" None false "7")
    as [_ Hint].
  - vm_compute. reflexivity.
  - destruct (Hint eq_refl) as (_ & _ & Hget). exact Hget.
Defined.

Lemma atom_block_bounds_witness :
  let W := Demo.world Cases.three_atoms "./RUN.fdf" in
  read_atom_block W 20
  = sequence (map (atom_line W) ["1.0 0.0 3.0 1"; "2.0 0.0 3.0 1"])
  /\ forall rows, read_atom_block W 20 = Ret rows -> length rows = 2%nat.
Proof.
  intros W.
  destruct (atom_block_bounds W 20 ["1.0 0.0 3.0 1"; "2.0 0.0 3.0 1"; "3.0 0.0 3.0 1"] 2)
    as (_ & _ & _ & _ & Hcut).
  - vm_compute. reflexivity.
  - vm_compute. reflexivity.
  - apply Hcut. simpl. lia.
Defined.

Lemma cell_is_required_witness :
  let W := Demo.world Cases.no_cell "./RUN.fdf" in
  read_supercell W 20 false None = (["fdf"], Raise SileError)
  /\ read_geometry W 20 false None true = (["fdf"], Raise SileError).
Proof.
  intros W. apply (cell_is_required W 20 true). left. vm_compute. reflexivity.
Defined.

Lemma supercell_nsc_of_a_molecule_witness :
  read_supercell_nsc (Demo.world Examples.scalars "./RUN.fdf") 20 None = Ret [1; 1; 1].
Proof.
  apply (supercell_nsc_of_a_molecule (Demo.world Examples.scalars "./RUN.fdf") 20
           "./run.nc" "./run.ORB_INDX"); vm_compute; reflexivity.
Defined.

Lemma force_constants_are_consistent_witness :
  let W := Demo.world Examples.displaced_atom_fc "./RUN.fdf" in
  _r_force_constant_fc W 20 false = Ret (Some [0])
  /\ exists na, get_value W 20 "NumberOfAtoms" None VNone false = Ret na
                /\ fc_read_force_constant W "./run.FC" na = Ret [0].
Proof.
  intros W. split; [vm_compute; reflexivity|].
  destruct (force_constants_are_consistent W 20 false [0])
    as (p & na & fc & vf & vl & Hc & _ & Hna & Hfc & _ & _ & _ & _ & Hspan).
  - vm_compute. reflexivity.
  - exists na. split; [exact Hna|].
    vm_compute in Hc. injection Hc as <-.
    destruct Hspan as [(first & last & _ & _ & _ & _ & _ & Heq) | [Hf | Hf]].
    + cbn in Heq. now rewrite Hfc, Heq.
    + reflexivity.
    + reflexivity.
Defined.

Lemma includes_are_distinct_paths_witness :
  snd (includes Cases.twice_included "." Demo.starts_with_comment 20 (fresh "./RUN.fdf"))
  = Ret ["./other.fdf"]
  /\ distinct_paths "." ["./other.fdf"].
Proof.
  split; [vm_compute; reflexivity|].
  apply (includes_are_distinct_paths Cases.twice_included "." Demo.starts_with_comment
           20 (fresh "./RUN.fdf")).
  vm_compute. reflexivity.
Defined.

Lemma includes_needs_words_witness :
  snd (includes_loop Cases.block_and_comment "." Demo.starts_with_comment 1
         (State (Handle "./RUN.fdf" 4) [] [] []) nl ["./other.fdf"])
  = Raise IndexError.
Proof.
  apply includes_needs_words; [discriminate|]. left. reflexivity.
Defined.

Lemma set_adds_no_key_witness :
  let W := Demo.world Examples.include_files "./RUN.fdf" in
  set W Cases.has_key "2020-01-01 12:00" 20 "Missing" (VList ["1 2"]) true
  = Ret ("./RUN.fdf", written ["%include other.fdf" +:+ nl; "Tail 1" +:+ nl], Ret tt).
Proof.
  intros W.
  apply (set_adds_no_key W Cases.has_key "2020-01-01 12:00" 20 "Missing" (VList ["1 2"])
           true "./RUN.fdf" ["%include other.fdf"; "Tail 1"]).
  - vm_compute. reflexivity.
  - vm_compute. reflexivity.
  - repeat constructor.
Defined.

Lemma set_rewrites_first_match_witness :
  let W := Demo.world Examples.include_files "./RUN.fdf" in
  set W Cases.has_key "2020-01-01 12:00" 20 "More" (VStr "3") true
  = Ret ("./other.fdf",
         written ["Label 7" +:+ nl; "More 3"; nl;
                  "# Old value (2020-01-01 12:00)" +:+ nl; "More 2" +:+ nl],
         Ret tt)
  /\ set W Cases.has_key "2020-01-01 12:00" 20 "More" (VList ["1 2"]) true
     = Ret ("./other.fdf", written ["Label 7" +:+ nl], Raise NotImplementedError).
Proof.
  intros W.
  pose proof (set_rewrites_first_match W Cases.has_key "2020-01-01 12:00" 20 "More" true
                "./other.fdf" ["Label 7"] "More 2" []) as H.
  cbv zeta in H. destruct H as (Hstr & _ & Hother).
  - vm_compute. reflexivity.
  - vm_compute. reflexivity.
  - repeat constructor.
  - reflexivity.
  - split; [exact (Hstr "3")|]. apply Hother; discriminate.
Defined.

Lemma fdf_basis_follows_the_block_witness :
  let W := Demo.world Cases.two_species "./RUN.fdf" in
  let atom := [Some (mkAtom 6 ["s"] 6 "C"); Some (mkAtom 1 ["s"] 1 "H")] in
  _r_basis_fdf W 20 = Ret (Some atom)
  /\ exists v lines,
       get_value W 20 "ChemicalSpeciesLabel" None VNone false = Ret v
       /\ lines_of W v = Ret lines /\ length atom = length lines.
Proof.
  intros W atom. split; [vm_compute; reflexivity|].
  destruct (fdf_basis_follows_the_block W 20 atom) as (v & lines & Hv & Hl & Hlen & _).
  - vm_compute. reflexivity.
  - exists v, lines. now repeat split.
Defined.

Lemma ion_basis_needs_an_ion_file_witness :
  let W := Demo.world Cases.two_species_ion "./RUN.fdf" in
  _r_basis_ion W 20 = Ret (Some [Some Demo.hydrogen; Some (mkAtom 1 ["s"] 1 "H")])
  /\ exists lbl,
       isfile (fs W) (_tofile (directory W) lbl +:+ ".ion.nc") = true
       \/ isfile (fs W) (_tofile (directory W) lbl +:+ ".ion.xml") = true.
Proof.
  intros W. split; [vm_compute; reflexivity|].
  destruct (ion_basis_needs_an_ion_file W 20
              [Some Demo.hydrogen; Some (mkAtom 1 ["s"] 1 "H")])
    as (v & lines & spc & i & z & lbl & _ & _ & _ & _ & _ & Hfile).
  - vm_compute. reflexivity.
  - now exists lbl.
Defined.

Lemma unknown_format_gives_no_geometry_witness :
  _r_geometry_fdf (Demo.world Cases.unknown_format "./RUN.fdf") 20 true
  = Raise UnboundLocalError.
Proof.
  destruct (unknown_format_gives_no_geometry
              (Demo.world Cases.unknown_format "./RUN.fdf") 20 true "Cartesian")
    as [_ H].
  - vm_compute. reflexivity.
  - repeat constructor.
  - apply (H Examples.doubled_cell [((1, 0, 3), 0)]); vm_compute; reflexivity.
Defined.
